(** * Qermital: single-instance protocol and pane/tab lifecycle

    A shallow embedding of the core of [qermital.py]:
    - the IPC framing used by [SingleInstanceApplication.send_message] and
      [SingleInstanceApplication.read_socket];
    - the tab and pane bookkeeping of [TerminalEmulator];
    - the resize debounce of [XTermWidget];
    - the request a second instance builds from its command line, and what
      the primary does with it ([Request]);
    - the context menus, the renaming of tabs and the quitting of the window
      ([Ui]);
    - the settings: the dialog, the colour tables and the store
      ([Settings]);
    - the start of the program: [main], the constructor of the window and
      the settings dialog of the window ([Startup]);
    - the launching of uxterm: [merge_xresources] and
      [XTermWidget.start_uxterm] ([Launch]).

    The Python and Qt primitives the program calls ([int], [json.dumps],
    [json.loads], [bytes.decode], [QTabWidget], [QTimer], [QLocalSocket]) are
    modelled after their documented behaviour, in the modules [Py], [Json]
    and [Qt] and next to the code that uses them.  Definitions come first;
    the facts about them follow, module by module. *)

From Stdlib.Strings Require Import String Ascii Byte.
From Stdlib Require Import ZArith List Bool Lia.
Import ListNotations.
Local Open Scope Z_scope.
Set Warnings "-register-all".

(* ================================================================== *)
(** * Python values and text primitives *)
(* ================================================================== *)

Module Py.

(** A Python [str] is a sequence of code points; [bytes] is a sequence of
    octets. *)
Definition pystr := list Z.
Definition pybytes := list byte.

Definition ord (b : byte) : Z := Z.of_N (Byte.to_N b).

Definition octet (z : Z) : byte :=
  match Byte.of_N (Z.to_N z) with
  | Some b => b
  | None => x00
  end.

(** Literals: the code points (resp. octets) of an ASCII string constant. *)
Definition str (s : string) : pystr := map ord (list_byte_of_string s).
Definition lit (s : string) : pybytes := list_byte_of_string s.

(** [a == b] on two [str]. *)
Fixpoint pystr_eqb (a b : pystr) : bool :=
  match a, b with
  | [], [] => true
  | x :: a', y :: b' => (x =? y) && pystr_eqb a' b'
  | _, _ => false
  end.

(** ** [bytes.decode('utf-8')] (strict) *)

Definition is_cont (b : Z) : bool := (128 <=? b) && (b <=? 191).

Fixpoint utf8_decode_octets (bs : list Z) : option pystr :=
  match bs with
  | [] => Some []
  | b0 :: r0 =>
      if b0 <? 128 then option_map (cons b0) (utf8_decode_octets r0)
      else if (194 <=? b0) && (b0 <=? 223) then
        match r0 with
        | b1 :: r1 =>
            if is_cont b1
            then option_map (cons ((b0 - 192) * 64 + (b1 - 128)))
                            (utf8_decode_octets r1)
            else None
        | _ => None
        end
      else if (224 <=? b0) && (b0 <=? 239) then
        match r0 with
        | b1 :: b2 :: r2 =>
            let cp := (b0 - 224) * 4096 + (b1 - 128) * 64 + (b2 - 128) in
            if is_cont b1 && is_cont b2 && (2048 <=? cp)
               && negb ((55296 <=? cp) && (cp <=? 57343))
            then option_map (cons cp) (utf8_decode_octets r2)
            else None
        | _ => None
        end
      else if (240 <=? b0) && (b0 <=? 244) then
        match r0 with
        | b1 :: b2 :: b3 :: r3 =>
            let cp := (b0 - 240) * 262144 + (b1 - 128) * 4096
                      + (b2 - 128) * 64 + (b3 - 128) in
            if is_cont b1 && is_cont b2 && is_cont b3
               && (65536 <=? cp) && (cp <=? 1114111)
            then option_map (cons cp) (utf8_decode_octets r3)
            else None
        | _ => None
        end
      else None
  end.

(** [None] stands for [UnicodeDecodeError] (a subclass of [ValueError]). *)
Definition utf8_decode (bs : pybytes) : option pystr :=
  utf8_decode_octets (map ord bs).

(** ** [str.encode('utf-8')]; [None] stands for [UnicodeEncodeError]
    (lone surrogates). *)

Definition utf8_encode_cp (cp : Z) : option (list Z) :=
  if cp <? 0 then None
  else if cp <? 128 then Some [cp]
  else if cp <? 2048 then Some [192 + cp / 64; 128 + cp mod 64]
  else if (55296 <=? cp) && (cp <=? 57343) then None
  else if cp <? 65536 then
    Some [224 + cp / 4096; 128 + (cp / 64) mod 64; 128 + cp mod 64]
  else if cp <=? 1114111 then
    Some [240 + cp / 262144; 128 + (cp / 4096) mod 64;
          128 + (cp / 64) mod 64; 128 + cp mod 64]
  else None.

Fixpoint utf8_encode (s : pystr) : option pybytes :=
  match s with
  | [] => Some []
  | cp :: r =>
      match utf8_encode_cp cp, utf8_encode r with
      | Some bs, Some rest => Some (map octet bs ++ rest)
      | _, _ => None
      end
  end.

(** ** [int(s)] for a [str] argument, base 10

    Follows CPython: [_PyUnicode_TransformDecimalAndSpaceToASCII], then
    [PyLong_FromString]: leading ASCII white space, an optional sign, decimal
    digits with single underscores between them, trailing white space, and
    nothing else.  [None] stands for [ValueError]. *)

Definition py_isspace (c : Z) : bool := ((9 <=? c) && (c <=? 13)) || (c =? 32).

Definition unicode_isspace (c : Z) : bool :=
  ((9 <=? c) && (c <=? 13)) || ((28 <=? c) && (c <=? 32))
  || (c =? 133) || (c =? 160) || (c =? 5760)
  || ((8192 <=? c) && (c <=? 8202))
  || (c =? 8232) || (c =? 8233) || (c =? 8239) || (c =? 8287) || (c =? 12288).

(** Code points of the digit zero of every Unicode decimal-digit run (general
    category Nd, Unicode 14); each is followed by the digits one to nine. *)
Definition decimal_zeros : list Z :=
  [48; 1632; 1776; 1984; 2406; 2534; 2662; 2790; 2918; 3046; 3174; 3302; 3430;
   3558; 3664; 3792; 3872; 4160; 4240; 6112; 6160; 6470; 6608; 6784; 6800;
   6992; 7088; 7232; 7248; 42528; 43216; 43264; 43472; 43504; 43600; 44016;
   65296; 66720; 68912; 69734; 69872; 69942; 70096; 70384; 70736; 70864;
   71248; 71360; 71472; 71904; 72016; 72784; 73040; 73120; 92768; 92864;
   93008; 120782; 120792; 120802; 120812; 120822; 123200; 123632; 125264;
   130032].

Definition unicode_todecimal (c : Z) : option Z :=
  match find (fun z => (z <=? c) && (c <? z + 10)) decimal_zeros with
  | Some z => Some (c - z)
  | None => None
  end.

Fixpoint transform_decimal_and_space (s : pystr) : pystr :=
  match s with
  | [] => []
  | ch :: r =>
      if ch <? 127 then ch :: transform_decimal_and_space r
      else if unicode_isspace ch then 32 :: transform_decimal_and_space r
      else match unicode_todecimal ch with
           | Some d => (48 + d) :: transform_decimal_and_space r
           | None => [63]
           end
  end.

Fixpoint lstrip (s : pystr) : pystr :=
  match s with
  | c :: r => if py_isspace c then lstrip r else s
  | [] => []
  end.

Definition is_digit (c : Z) : bool := (48 <=? c) && (c <=? 57).

(** The digit scan of [PyLong_FromString]: [prev] is the previous character
    (0 at the start); two underscores in a row or a trailing underscore are
    errors. *)
Fixpoint scan_digits (s : pystr) (prev acc : Z) : option (Z * pystr) :=
  match s with
  | c :: r =>
      if is_digit c then scan_digits r c (10 * acc + (c - 48))
      else if c =? 95 then
        if prev =? 95 then None else scan_digits r c acc
      else if prev =? 95 then None else Some (acc, s)
  | [] => if prev =? 95 then None else Some (acc, [])
  end.

Definition int_sign (s : pystr) : Z * pystr :=
  match s with
  | c :: r => if c =? 43 then (1, r) else if c =? 45 then (-1, r) else (1, s)
  | [] => (1, s)
  end.

Definition py_int (s : pystr) : option Z :=
  let s1 := lstrip (transform_decimal_and_space s) in
  let '(sign, s2) := int_sign s1 in
  match s2 with
  | c :: _ =>
      if is_digit c then
        match scan_digits s2 0 0 with
        | Some (v, rest) =>
            if forallb py_isspace rest then Some (sign * v) else None
        | None => None
        end
      else None
  | [] => None
  end.

(** ** [str(n)] and the format [f"{n:08}"] for [n >= 0] *)

Fixpoint decimal_digits (fuel : nat) (n : Z) (acc : pystr) : pystr :=
  match fuel with
  | O => acc
  | S f =>
      let acc' := (48 + n mod 10) :: acc in
      if n <? 10 then acc' else decimal_digits f (n / 10) acc'
  end.

Definition py_str_int (n : Z) : pystr :=
  decimal_digits (S (Z.to_nat (Z.log2 n))) n [].

Definition format_08 (n : Z) : pystr :=
  let ds := py_str_int n in
  repeat 48 (8 - length ds) ++ ds.

(** ** Properties of texts used in the statements *)

(** Every code point is below 128. *)
Definition ascii_only (s : pystr) : bool :=
  forallb (fun c => (0 <=? c) && (c <? 128)) s.

(** Every code point is an ASCII digit. *)
Definition digits_only (s : pystr) : bool := forallb is_digit s.

(** The number a digit string denotes, continuing from [a]. *)
Definition value (a : Z) (ds : pystr) : Z :=
  fold_left (fun a c => 10 * a + (c - 48)) ds a.

End Py.

(* ================================================================== *)
(** * The [json] module: values, [json.dumps] of a request, [json.loads] *)
(* ================================================================== *)

Module Json.
Import Py.

(** A float read from a decimal literal is kept as [(-1)^neg * mant * 10^exp10];
    CPython rounds it to the nearest double. *)
Inductive pyfloat :=
| FNan
| FInf (neg : bool)
| FDec (neg : bool) (mant exp10 : Z).

(** The Python objects [json.loads] can return. A [dict] keeps its keys in
    insertion order. *)
Inductive pyval :=
| PNone
| PBool (b : bool)
| PInt (n : Z)
| PFloat (f : pyfloat)
| PStr (s : pystr)
| PList (l : list pyval)
| PDict (d : list (pystr * pyval)).

(** A decimal rounds to the double zero exactly when it is at most 2^-1075. *)
Definition float_is_zero (f : pyfloat) : bool :=
  match f with
  | FNan | FInf _ => false
  | FDec _ mant exp10 =>
      (mant =? 0) || ((exp10 <? 0) && (mant * 2 ^ 1075 <=? 10 ^ (- exp10)))
  end.

(** Truth value of an object, as [if x:] tests it. *)
Definition truthy (v : pyval) : bool :=
  match v with
  | PNone => false
  | PBool b => b
  | PInt n => negb (n =? 0)
  | PFloat f => negb (float_is_zero f)
  | PStr s => match s with [] => false | _ => true end
  | PList l => match l with [] => false | _ => true end
  | PDict d => match d with [] => false | _ => true end
  end.

(** [d[k] = v] *)
Fixpoint dict_set (d : list (pystr * pyval)) (k : pystr) (v : pyval)
  : list (pystr * pyval) :=
  match d with
  | [] => [(k, v)]
  | (k', v') :: r =>
      if pystr_eqb k' k then (k', v) :: r else (k', v') :: dict_set r k v
  end.

(** [d.get(k)], [None] when the key is missing. *)
Fixpoint dict_get (d : list (pystr * pyval)) (k : pystr) : pyval :=
  match d with
  | [] => PNone
  | (k', v') :: r => if pystr_eqb k' k then v' else dict_get r k
  end.

(** ** [json.dumps] with the default [ensure_ascii=True] *)

Definition hex_digit (n : Z) : Z := if n <? 10 then 48 + n else 87 + n.

Definition u_escape (n : Z) : pystr :=
  [92; 117; hex_digit ((n / 4096) mod 16); hex_digit ((n / 256) mod 16);
   hex_digit ((n / 16) mod 16); hex_digit (n mod 16)].

Definition escape_char (c : Z) : pystr :=
  if c =? 34 then [92; 34]
  else if c =? 92 then [92; 92]
  else if c =? 10 then [92; 110]
  else if c =? 13 then [92; 114]
  else if c =? 9 then [92; 116]
  else if c =? 8 then [92; 98]
  else if c =? 12 then [92; 102]
  else if (32 <=? c) && (c <=? 126) then [c]
  else if c <? 65536 then u_escape c
  else
    let n := c - 65536 in
    u_escape (55296 + (n / 1024) mod 1024) ++ u_escape (56320 + n mod 1024).

Definition encode_basestring_ascii (s : pystr) : pystr :=
  [34] ++ flat_map escape_char s ++ [34].

(** A value of the request dictionary: a [str] or [None]. *)
Definition dumps_field (v : option pystr) : pystr :=
  match v with
  | None => str "null"
  | Some s => encode_basestring_ascii s
  end.

(** [json.dumps({'action': a, 'folder': f, 'command': c})] *)
Definition dumps_request (action : pystr) (folder command : option pystr)
  : pystr :=
  str "{" ++ encode_basestring_ascii (str "action") ++ str ": "
          ++ encode_basestring_ascii action ++ str ", "
          ++ encode_basestring_ascii (str "folder") ++ str ": "
          ++ dumps_field folder ++ str ", "
          ++ encode_basestring_ascii (str "command") ++ str ": "
          ++ dumps_field command ++ str "}".

(** ** [json.loads] (the C scanner, strict mode) *)

Definition is_ws (c : Z) : bool :=
  (c =? 32) || (c =? 9) || (c =? 10) || (c =? 13).

Fixpoint skip_ws (s : pystr) : pystr :=
  match s with
  | c :: r => if is_ws c then skip_ws r else s
  | [] => []
  end.

Fixpoint strip_prefix (p s : pystr) : option pystr :=
  match p, s with
  | [], _ => Some s
  | a :: p', b :: s' => if a =? b then strip_prefix p' s' else None
  | _ :: _, [] => None
  end.

Definition hexval (c : Z) : option Z :=
  if (48 <=? c) && (c <=? 57) then Some (c - 48)
  else if (97 <=? c) && (c <=? 102) then Some (c - 87)
  else if (65 <=? c) && (c <=? 70) then Some (c - 55)
  else None.

Definition hex4 (a b c d : Z) : option Z :=
  match hexval a, hexval b, hexval c, hexval d with
  | Some x, Some y, Some z, Some w => Some (((x * 16 + y) * 16 + z) * 16 + w)
  | _, _, _, _ => None
  end.

Definition simple_escape (e : Z) : option Z :=
  if (e =? 34) || (e =? 92) || (e =? 47) then Some e
  else if e =? 98 then Some 8
  else if e =? 102 then Some 12
  else if e =? 110 then Some 10
  else if e =? 114 then Some 13
  else if e =? 116 then Some 9
  else None.

Definition is_high_surrogate (c : Z) : bool := (55296 <=? c) && (c <=? 56319).
Definition is_low_surrogate (c : Z) : bool := (56320 <=? c) && (c <=? 57343).

Definition push (c : Z) (r : option (pystr * pystr)) : option (pystr * pystr) :=
  match r with
  | Some (s, rest) => Some (c :: s, rest)
  | None => None
  end.

(** [scanstring]: the text after an opening quote, up to the closing one.
    [None] is a [JSONDecodeError] (unterminated string, control character,
    invalid escape). *)
Fixpoint scanstring (s : pystr) : option (pystr * pystr) :=
  match s with
  | [] => None
  | c :: r =>
      if c =? 34 then Some ([], r)
      else if c =? 92 then
        match r with
        | [] => None
        | e :: r1 =>
            if e =? 117 then
              match r1 with
              | h1 :: h2 :: h3 :: h4 :: r2 =>
                  match hex4 h1 h2 h3 h4 with
                  | None => None
                  | Some u =>
                      match r2 with
                      | b :: v :: g1 :: g2 :: g3 :: g4 :: r3 =>
                          match hex4 g1 g2 g3 g4 with
                          | Some u2 =>
                              if is_high_surrogate u && (b =? 92) && (v =? 117)
                                 && is_low_surrogate u2
                              then push (65536 + (u - 55296) * 1024 + (u2 - 56320))
                                        (scanstring r3)
                              else push u (scanstring r2)
                          | None => push u (scanstring r2)
                          end
                      | _ => push u (scanstring r2)
                      end
                  end
              | _ => None
              end
            else
              match simple_escape e with
              | Some x => push x (scanstring r1)
              | None => None
              end
        end
      else if c <=? 31 then None
      else push c (scanstring r)
  end.

Fixpoint take_digits (s : pystr) : pystr * pystr :=
  match s with
  | c :: r =>
      if is_digit c then let '(d, rest) := take_digits r in (c :: d, rest)
      else ([], s)
  | [] => ([], [])
  end.

Definition digits_value (ds : pystr) : Z :=
  fold_left (fun a c => 10 * a + (c - 48)) ds 0.

(** [_match_number]: an optional minus, then a zero or a run of digits that
    does not start with zero, then an optional fraction (a dot and at least one
    digit), then an optional exponent (e or E, optional sign, at least one
    digit).  An integer literal gives an [int], any other a [float]. *)

Definition number_sign (s : pystr) : bool * pystr :=
  match s with
  | c :: r => if c =? 45 then (true, r) else (false, s)
  | [] => (false, s)
  end.

Definition number_int (s : pystr) : option (pystr * pystr) :=
  match s with
  | [] => None
  | c :: r =>
      if (49 <=? c) && (c <=? 57)
      then let '(d, rest) := take_digits r in Some (c :: d, rest)
      else if c =? 48 then Some ([48], r)
      else None
  end.

Definition number_frac (s : pystr) : option pystr * pystr :=
  match s with
  | dot :: d1 :: r =>
      if (dot =? 46) && is_digit d1
      then let '(d, rest) := take_digits r in (Some (d1 :: d), rest)
      else (None, s)
  | _ => (None, s)
  end.

(** The sign of an exponent is read only when a character follows it. *)
Definition exponent_sign (r : pystr) : bool * pystr :=
  match r with
  | sg :: (_ :: _) as r1 =>
      if (sg =? 43) || (sg =? 45) then (sg =? 45, r1) else (false, r)
  | _ => (false, r)
  end.

(** An exponent without digits is not one: the scan backs up before the
    letter. *)
Definition number_exp (s : pystr) : option Z * pystr :=
  match s with
  | e :: r =>
      if (e =? 101) || (e =? 69) then
        let '(eneg, r') := exponent_sign r in
        let '(ed, rest) := take_digits r' in
        match ed with
        | [] => (None, s)
        | _ :: _ =>
            (Some (if eneg then - digits_value ed else digits_value ed), rest)
        end
      else (None, s)
  | [] => (None, s)
  end.

Definition match_number (s : pystr) : option (pyval * pystr) :=
  let '(neg, s1) := number_sign s in
  match number_int s1 with
  | None => None
  | Some (ip, s2) =>
      let '(frac, s3) := number_frac s2 in
      let '(ex, s4) := number_exp s3 in
      match frac, ex with
      | None, None =>
          Some (PInt (if neg then - digits_value ip else digits_value ip), s4)
      | _, _ =>
          let fd := match frac with Some d => d | None => [] end in
          let e := match ex with Some e => e | None => 0 end in
          Some (PFloat (FDec neg (digits_value (ip ++ fd))
                             (e - Z.of_nat (length fd))), s4)
      end
  end.

(** Result of a scan: a value and the unread text, a [JSONDecodeError], or the
    descent bound reached. *)
Inductive scan :=
| Ok (v : pyval) (rest : pystr)
| Bad
| Deep.

Definition named_constant (s : pystr) : option (pyval * pystr) :=
  match strip_prefix (str "null") s with
  | Some r => Some (PNone, r)
  | None =>
  match strip_prefix (str "true") s with
  | Some r => Some (PBool true, r)
  | None =>
  match strip_prefix (str "false") s with
  | Some r => Some (PBool false, r)
  | None =>
  match strip_prefix (str "NaN") s with
  | Some r => Some (PFloat FNan, r)
  | None =>
  match strip_prefix (str "Infinity") s with
  | Some r => Some (PFloat (FInf false), r)
  | None =>
  match strip_prefix (str "-Infinity") s with
  | Some r => Some (PFloat (FInf true), r)
  | None => None
  end end end end end end.

Fixpoint scan_once (fuel : nat) (s : pystr) : scan :=
  match fuel with
  | O => Deep
  | S f =>
      match s with
      | [] => Bad
      | c :: r =>
          if c =? 34 then
            match scanstring r with
            | Some (k, rest) => Ok (PStr k) rest
            | None => Bad
            end
          else if c =? 123 then
            match skip_ws r with
            | d :: r' =>
                if d =? 125 then Ok (PDict []) r'
                else parse_object f (skip_ws r) []
            | [] => Bad
            end
          else if c =? 91 then
            match skip_ws r with
            | d :: r' =>
                if d =? 93 then Ok (PList []) r'
                else parse_array f (skip_ws r) []
            | [] => Bad
            end
          else
            match named_constant s with
            | Some (v, rest) => Ok v rest
            | None =>
                match match_number s with
                | Some (v, rest) => Ok v rest
                | None => Bad
                end
            end
      end
  end

with parse_object (fuel : nat) (s : pystr) (acc : list (pystr * pyval)) : scan :=
  match fuel with
  | O => Deep
  | S f =>
      match s with
      | [] => Bad
      | q :: r =>
          if q =? 34 then
            match scanstring r with
            | None => Bad
            | Some (key, s1) =>
                match skip_ws s1 with
                | [] => Bad
                | col :: s2 =>
                    if col =? 58 then
                      match scan_once f (skip_ws s2) with
                      | Ok v s3 =>
                          let acc' := dict_set acc key v in
                          match skip_ws s3 with
                          | [] => Bad
                          | d :: s4 =>
                              if d =? 125 then Ok (PDict acc') s4
                              else if d =? 44
                              then parse_object f (skip_ws s4) acc'
                              else Bad
                          end
                      | Bad => Bad
                      | Deep => Deep
                      end
                    else Bad
                end
            end
          else Bad
      end
  end

with parse_array (fuel : nat) (s : pystr) (acc : list pyval) : scan :=
  match fuel with
  | O => Deep
  | S f =>
      match scan_once f s with
      | Ok v s1 =>
          match skip_ws s1 with
          | [] => Bad
          | d :: s2 =>
              if d =? 93 then Ok (PList (acc ++ [v])) s2
              else if d =? 44 then parse_array f (skip_ws s2) (acc ++ [v])
              else Bad
          end
      | Bad => Bad
      | Deep => Deep
      end
  end.

(** A literal written with apostrophes where the text has double quotes. *)
Definition quoted (s : string) : pystr :=
  map (fun c => if c =? 39 then 34 else c) (str s).

Inductive loads_result :=
| Loaded (v : pyval)
| JSONDecodeError
| RecursionError.

(** [json.loads(s)] for a [str]: a leading byte-order mark, a malformed value
    and trailing text all raise [JSONDecodeError].  The descent is given two
    steps per character, which no text exhausts, so [RecursionError] is never
    the answer here; CPython's own limits (recursion depth, digits of an
    integer) are outside the model. *)
Definition starts_with_bom (s : pystr) : bool :=
  match s with
  | c :: _ => c =? 65279
  | [] => false
  end.

Definition json_loads (s : pystr) : loads_result :=
  if starts_with_bom s then JSONDecodeError
  else
    match scan_once (2 * length s + 2) (skip_ws s) with
    | Ok v rest =>
        match skip_ws rest with
        | [] => Loaded v
        | _ :: _ => JSONDecodeError
        end
    | Bad => JSONDecodeError
    | Deep => RecursionError
    end.

End Json.

(* ================================================================== *)
(** * Qt containers: the pages of a [QTabWidget] *)
(* ================================================================== *)

Module Qt.
Import Py.

Section TabWidget.
Context {W : Type}.

(** The pages of a tab widget in tab order, each with its tab text. *)
Definition pages := list (W * pystr).

Definition count (t : pages) : Z := Z.of_nat (length t).

(** [widget(index)]: the page, or [None] when the index is out of range. *)
Definition widget (t : pages) (index : Z) : option W :=
  if index <? 0 then None
  else option_map fst (nth_error t (Z.to_nat index)).

(** [tabText(index)]: empty when the index is out of range. *)
Definition tabText (t : pages) (index : Z) : pystr :=
  if index <? 0 then []
  else match nth_error t (Z.to_nat index) with
       | Some p => snd p
       | None => []
       end.

(** [removeTab(index)]: nothing happens when the index is out of range; the
    page widget itself is not deleted. *)
Definition removeTab (t : pages) (index : Z) : pages :=
  if index <? 0 then t
  else firstn (Z.to_nat index) t ++ skipn (S (Z.to_nat index)) t.

(** [addTab(page, label)] appends. *)
Definition addTab (t : pages) (w : W) (label : pystr) : pages :=
  t ++ [(w, label)].
End TabWidget.

End Qt.

(* ================================================================== *)
(** * [XTermWidget] and [TerminalEmulator]: tabs and panes *)
(* ================================================================== *)

Module Terminal.
Import Py Json Qt.

(** What the program asks of its environment. *)
Record World := {
  (** [os.getcwd()] *)
  os_getcwd : pystr;
  (** [os.path.isdir(x)]; [None] when the call raises ([TypeError] for a
      float, a list or a dict, [OverflowError] for a huge descriptor). *)
  os_path_isdir : pyval -> option bool;
  (** Whether the n-th launch of the widget with the given identity ends
      with a started process ([merge_xresources] and
      [process.waitForStarted(3000)] both succeed).  The executables the
      program needs are taken to be installed: without them the first launch
      ends the whole process with status 1. *)
  uxterm_starts : nat -> nat -> bool
}.

(** One embedded terminal. [wid] is the identity of the Python object;
    [launches] counts the calls of [start_uxterm]; [running] is
    [process.state() != QProcess.NotRunning]. *)
Record XTermWidget := {
  wid : nat;
  x_initial_directory : pyval;
  x_command : pyval;
  launches : nat;
  running : bool
}.

Inductive tab_widget_ref := MainTabWidget | SecondTabWidget.

Record TerminalEmulator := {
  initial_directory : pyval;
  command : pyval;
  tab_counter : Z;
  command_executed : bool;
  main_tab_widget : @pages XTermWidget;
  second_tab_widget : option (@pages XTermWidget);
  (** the widgets held by [self.splitter], left to right *)
  splitter : list tab_widget_ref;
  (** texts of the message boxes shown, oldest first *)
  dialogs : list string;
  (** terminal widgets that are a page of no tab widget *)
  detached : list XTermWidget;
  (** bookkeeping of the model: the next object identity, the number of
      sessions that were handed the startup command, and the number of
      times closing a tab emptied the main pane *)
  next_wid : nat;
  startup_sessions : nat;
  main_refills : nat
}.

Section Setters.
Variable s : TerminalEmulator.

Definition with_flags (counter : Z) (executed : bool) :=
  {| initial_directory := initial_directory s; command := command s;
     tab_counter := counter; command_executed := executed;
     main_tab_widget := main_tab_widget s;
     second_tab_widget := second_tab_widget s; splitter := splitter s;
     dialogs := dialogs s; detached := detached s; next_wid := next_wid s;
     startup_sessions := startup_sessions s; main_refills := main_refills s |}.

Definition with_main (m : @pages XTermWidget) :=
  {| initial_directory := initial_directory s; command := command s;
     tab_counter := tab_counter s; command_executed := command_executed s;
     main_tab_widget := m;
     second_tab_widget := second_tab_widget s; splitter := splitter s;
     dialogs := dialogs s; detached := detached s; next_wid := next_wid s;
     startup_sessions := startup_sessions s; main_refills := main_refills s |}.

Definition with_second (o : option (@pages XTermWidget))
           (sp : list tab_widget_ref) :=
  {| initial_directory := initial_directory s; command := command s;
     tab_counter := tab_counter s; command_executed := command_executed s;
     main_tab_widget := main_tab_widget s;
     second_tab_widget := o; splitter := sp;
     dialogs := dialogs s; detached := detached s; next_wid := next_wid s;
     startup_sessions := startup_sessions s; main_refills := main_refills s |}.

Definition with_dialog (text : string) :=
  {| initial_directory := initial_directory s; command := command s;
     tab_counter := tab_counter s; command_executed := command_executed s;
     main_tab_widget := main_tab_widget s;
     second_tab_widget := second_tab_widget s; splitter := splitter s;
     dialogs := dialogs s ++ [text]; detached := detached s;
     next_wid := next_wid s;
     startup_sessions := startup_sessions s; main_refills := main_refills s |}.

Definition with_detached (d : list XTermWidget) :=
  {| initial_directory := initial_directory s; command := command s;
     tab_counter := tab_counter s; command_executed := command_executed s;
     main_tab_widget := main_tab_widget s;
     second_tab_widget := second_tab_widget s; splitter := splitter s;
     dialogs := dialogs s; detached := d; next_wid := next_wid s;
     startup_sessions := startup_sessions s; main_refills := main_refills s |}.

Definition with_bookkeeping (n st rf : nat) :=
  {| initial_directory := initial_directory s; command := command s;
     tab_counter := tab_counter s; command_executed := command_executed s;
     main_tab_widget := main_tab_widget s;
     second_tab_widget := second_tab_widget s; splitter := splitter s;
     dialogs := dialogs s; detached := detached s; next_wid := n;
     startup_sessions := st; main_refills := rf |}.
End Setters.

Section WithWorld.
Variable world : World.

(** ** [XTermWidget] *)

Definition start_uxterm (x : XTermWidget) : XTermWidget :=
  {| wid := wid x; x_initial_directory := x_initial_directory x;
     x_command := x_command x; launches := S (launches x);
     running := uxterm_starts world (wid x) (S (launches x)) |}.

Definition terminate (x : XTermWidget) : XTermWidget :=
  {| wid := wid x; x_initial_directory := x_initial_directory x;
     x_command := x_command x; launches := launches x; running := false |}.

Definition restart_uxterm (x : XTermWidget) : XTermWidget :=
  start_uxterm (terminate x).

(** The settings themselves are an opaque value for the pane logic; applying
    them restarts the terminal. *)
Definition apply_settings (x : XTermWidget) : XTermWidget :=
  restart_uxterm x.

(** [XTermWidget(initial_directory, command, parent)] *)
Definition XTermWidget_init (id : nat) (dir cmd : pyval) : XTermWidget :=
  start_uxterm
    {| wid := id;
       x_initial_directory :=
         if truthy dir then dir else PStr (os_getcwd world);
       x_command := cmd; launches := 0; running := false |}.

(** ** [TerminalEmulator] *)

(** [add_terminal_tab(directory, command, pane)].  Bringing the window to
    the front and selecting the new tab do not change the pages.  A tab
    widget object is true in a condition whether or not it has pages, so
    [self.second_tab_widget] is false only when it is [None]. *)
Definition add_terminal_tab (directory cmd : pyval) (pane : pystr)
           (s : TerminalEmulator) : TerminalEmulator :=
  let directory :=
    if truthy directory then directory else initial_directory s in
  let execute_command := negb (command_executed s) && truthy (command s) in
  (* the three branches on [pane]: 'main', 'second', anything else *)
  let '(pane, use_startup) :=
    if pystr_eqb pane (str "main") then (pane, execute_command)
    else if pystr_eqb pane (str "second") then (pane, false)
    else (str "main", execute_command) in
  let cmd := if use_startup then command s else cmd in
  let executed := if use_startup then true else command_executed s in
  let counter := tab_counter s + 1 in
  let terminal_widget :=
    apply_settings (XTermWidget_init (next_wid s) directory cmd) in
  let tab_label := str "Terminal " ++ py_str_int counter in
  let s1 :=
    with_bookkeeping (with_flags s counter executed)
      (S (next_wid s))
      (if use_startup then S (startup_sessions s) else startup_sessions s)
      (main_refills s) in
  if pystr_eqb pane (str "main") then
    with_main s1 (addTab (main_tab_widget s1) terminal_widget tab_label)
  else
    match (if pystr_eqb pane (str "second") then second_tab_widget s1
           else None) with
    | Some second =>
        with_second s1 (Some (addTab second terminal_widget tab_label))
                    (splitter s1)
    | None => with_detached s1 (detached s1 ++ [terminal_widget])
    end.

(** [create_second_pane()]: a fresh, empty tab widget is added to the
    splitter (pixel sizes are not part of the model). *)
Definition create_second_pane (s : TerminalEmulator) : TerminalEmulator :=
  with_second s (Some []) (splitter s ++ [SecondTabWidget]).

Definition initialize_double_pane (s : TerminalEmulator) : TerminalEmulator :=
  let s1 :=
    if count (main_tab_widget s) =? 0
    then add_terminal_tab PNone PNone (str "main") s
    else s in
  match second_tab_widget s1 with
  | None => add_terminal_tab PNone PNone (str "second") (create_second_pane s1)
  | Some _ => s1
  end.

(** [tab.terminate()] followed by [removeTab(index)] on a page list: the
    page, when there is one, leaves the list with its process stopped. *)
Definition terminate_and_remove (t : @pages XTermWidget) (index : Z)
           (d : list XTermWidget) : @pages XTermWidget * list XTermWidget :=
  match widget t index with
  | Some tab => (removeTab t index, d ++ [terminate tab])
  | None => (removeTab t index, d)
  end.

Definition close_main_tab (index : Z) (s : TerminalEmulator)
  : TerminalEmulator :=
  let '(m, d) := terminate_and_remove (main_tab_widget s) index (detached s) in
  let s1 := with_detached (with_main s m) d in
  if count (main_tab_widget s1) =? 0 then
    add_terminal_tab PNone PNone (str "main")
      (with_bookkeeping (with_flags s1 0 false)
         (next_wid s1) (startup_sessions s1) (S (main_refills s1)))
  else s1.

Definition move_tab_to_second_pane (tab_widget : tab_widget_ref) (index : Z)
           (s : TerminalEmulator) : TerminalEmulator :=
  match tab_widget with
  | SecondTabWidget =>
      with_dialog s
        "Only tabs from the main pane can be moved to the second pane."
  | MainTabWidget =>
      match widget (main_tab_widget s) index with
      | None => s
      | Some tab =>
          let tab_label := tabText (main_tab_widget s) index in
          let s1 := with_main s (removeTab (main_tab_widget s) index) in
          let s2 :=
            match second_tab_widget s1 with
            | None => create_second_pane s1
            | Some _ => s1
            end in
          let s3 :=
            match second_tab_widget s2 with
            | Some second =>
                with_second s2 (Some (addTab second tab tab_label))
                            (splitter s2)
            | None => s2
            end in
          if count (main_tab_widget s3) =? 0
          then add_terminal_tab PNone PNone (str "main") s3
          else s3
      end
  end.

(** The loop of [close_second_half]: while the second pane has a page, its
    first page is removed and added to the main pane. *)
Fixpoint move_all_to_main (second main : @pages XTermWidget)
  : @pages XTermWidget :=
  match second with
  | [] => main
  | (tab, label) :: rest => move_all_to_main rest (addTab main tab label)
  end.

(** [splitter.widget(1)] taken out of the splitter by [setParent(None)]. *)
Definition drop_second_pane (s : TerminalEmulator) (emptied : @pages XTermWidget)
  : TerminalEmulator :=
  match nth_error (splitter s) 1 with
  | Some _ => with_second s None (firstn 1 (splitter s) ++ skipn 2 (splitter s))
  | None => with_second s (Some emptied) (splitter s)
  end.

Definition close_second_half (s : TerminalEmulator) : TerminalEmulator :=
  match second_tab_widget s with
  | None => with_dialog s "Second pane is already closed."
  | Some second =>
      let s1 := with_main s (move_all_to_main second (main_tab_widget s)) in
      drop_second_pane s1 []
  end.

Definition close_second_tab (index : Z) (s : TerminalEmulator)
  : TerminalEmulator :=
  match second_tab_widget s with
  | None => with_dialog s "No tabs to close in the second pane."
  | Some second =>
      let '(t, d) := terminate_and_remove second index (detached s) in
      let s1 := with_detached (with_second s (Some t) (splitter s)) d in
      if count t =? 0 then drop_second_pane s1 t else s1
  end.

(** Exceptions that leave a slot without being caught. *)
Inductive pyexn :=
| AttributeError | UncaughtRecursionError | IsdirRaised | UnicodeDecodeError.

(** [handle_new_instance_message(message)]: the new state and the exception
    that escaped, if any. *)
Definition handle_new_instance_message (message : pystr) (s : TerminalEmulator)
  : TerminalEmulator * option pyexn :=
  match json_loads message with
  | Loaded (PDict data) =>
      let action := dict_get data (str "action") in
      let folder := dict_get data (str "folder") in
      let cmd := dict_get data (str "command") in
      match action with
      | PStr a =>
          if pystr_eqb a (str "open_new_tab") then
            if truthy folder then
              match os_path_isdir world folder with
              | Some true => (add_terminal_tab folder cmd (str "main") s, None)
              | Some false => (add_terminal_tab PNone cmd (str "main") s, None)
              | None => (s, Some IsdirRaised)
              end
            else (add_terminal_tab PNone cmd (str "main") s, None)
          else (s, None)
      | _ => (s, None)
      end
  | Loaded _ => (s, Some AttributeError)
  | JSONDecodeError => (add_terminal_tab PNone PNone (str "main") s, None)
  | RecursionError => (s, Some UncaughtRecursionError)
  end.

(** The window of [TerminalEmulator.__init__] when [initUI] has built the
    main tab widget and not yet added the first tab. *)
Definition blank_window (folder cmd : pyval) : TerminalEmulator :=
  {| initial_directory :=
       if truthy folder then folder else PStr (os_getcwd world);
     command := cmd; tab_counter := 0; command_executed := false;
     main_tab_widget := []; second_tab_widget := None;
     splitter := [MainTabWidget]; dialogs := []; detached := [];
     next_wid := 1; startup_sessions := 0; main_refills := 0 |}.

(** [TerminalEmulator(initial_directory, command, ...)] up to the end of
    [initUI]: one pane with the first tab. *)
Definition TerminalEmulator_init (folder cmd : pyval) : TerminalEmulator :=
  add_terminal_tab PNone PNone (str "main") (blank_window folder cmd).

(** The operations the event loop can run on the window, one at a time.
    Renaming a tab and applying new settings change no pane and are left
    out. *)
Inductive op :=
| AddTerminalTab (directory cmd : pyval) (pane : pystr)
| InitializeDoublePane
| CloseMainTab (index : Z)
| MoveTabToSecondPane (tab_widget : tab_widget_ref) (index : Z)
| CloseSecondHalf
| CloseSecondTab (index : Z)
| HandleNewInstanceMessage (message : pystr).

Definition step (o : op) (s : TerminalEmulator) : TerminalEmulator :=
  match o with
  | AddTerminalTab directory cmd pane => add_terminal_tab directory cmd pane s
  | InitializeDoublePane => initialize_double_pane s
  | CloseMainTab index => close_main_tab index s
  | MoveTabToSecondPane tw index => move_tab_to_second_pane tw index s
  | CloseSecondHalf => close_second_half s
  | CloseSecondTab index => close_second_tab index s
  | HandleNewInstanceMessage message =>
      fst (handle_new_instance_message message s)
  end.

Definition run (ops : list op) (s : TerminalEmulator) : TerminalEmulator :=
  fold_left (fun st o => step o st) ops s.

(** An operation that asks for a tab in the second pane does so while there
    is one (the context menu of the second pane and
    [initialize_double_pane] are the callers that pass 'second'). *)
Definition targets_existing_pane (o : op) (s : TerminalEmulator) : Prop :=
  match o with
  | AddTerminalTab _ _ pane =>
      pane = str "second" -> second_tab_widget s <> None
  | _ => True
  end.

Fixpoint well_targeted (ops : list op) (s : TerminalEmulator) : Prop :=
  match ops with
  | [] => True
  | o :: rest => targets_existing_pane o s /\ well_targeted rest (step o s)
  end.

End WithWorld.

(** ** Observations on a window *)

Definition page_ids (t : @pages XTermWidget) : list nat :=
  map (fun p => wid (fst p)) t.

Definition second_pages (s : TerminalEmulator) : @pages XTermWidget :=
  match second_tab_widget s with
  | Some t => t
  | None => []
  end.

(** How many pages of the main pane, of the second pane, and how many
    detached widgets are the session with identity [i]. *)
Definition in_main (s : TerminalEmulator) (i : nat) : nat :=
  count_occ Nat.eq_dec (page_ids (main_tab_widget s)) i.

Definition in_second (s : TerminalEmulator) (i : nat) : nat :=
  count_occ Nat.eq_dec (page_ids (second_pages s)) i.

Definition in_detached (s : TerminalEmulator) (i : nat) : nat :=
  count_occ Nat.eq_dec (map wid (detached s)) i.

(** The number of panes a session belongs to. *)
Definition panes_of (s : TerminalEmulator) (i : nat) : nat :=
  (in_main s i + in_second s i)%nat.

(** The pane layout is sound: the main pane has a page, and the second pane,
    when it exists, has a page and sits in the splitter. *)
Definition panes_ok (s : TerminalEmulator) : Prop :=
  main_tab_widget s <> []
  /\ match second_tab_widget s with
     | None => splitter s = [MainTabWidget]
     | Some t => t <> [] /\ splitter s = [MainTabWidget; SecondTabWidget]
     end.

(** Every identity handed out so far names at most one widget, and no
    identity is used before it is handed out. *)
Definition ids_ok (s : TerminalEmulator) : Prop :=
  forall i : nat,
    (panes_of s i + in_detached s i <= 1)%nat
    /\ ((next_wid s <= i)%nat -> (panes_of s i + in_detached s i = 0)%nat).

(** The number of places (pages and detached widgets) a session is in. *)
Definition total (s : TerminalEmulator) (i : nat) : nat :=
  (panes_of s i + in_detached s i)%nat.

(** [s'] holds every widget of [s] as often as [s] does, and once each of the
    widgets created in between. *)
Definition conserved (s s' : TerminalEmulator) : Prop :=
  (next_wid s <= next_wid s')%nat
  /\ forall i : nat,
       total s' i
       = (total s i
          + (if (next_wid s <=? i)%nat && (i <? next_wid s')%nat then 1 else 0))%nat.

(** The startup command went to at most one session since the main pane was
    last refilled. *)
Definition startup_ok (s : TerminalEmulator) : Prop :=
  (startup_sessions s
   <= main_refills s + (if command_executed s then 1 else 0))%nat.

(** Every detached widget has its process stopped. *)
Definition stopped (s : TerminalEmulator) : Prop :=
  Forall (fun x => running x = false) (detached s).

(** The invariant of the window between two operations. *)
Definition sound (s : TerminalEmulator) : Prop :=
  panes_ok s /\ startup_ok s /\ ids_ok s.

(** Where [add_terminal_tab] can put the new widget [x]: at the end of the
    main pane, at the end of the second pane, or, when the pane asked for is
    'second' and there is none, in no pane at all. *)
Inductive placed (pane : pystr) (s s' : TerminalEmulator)
          (x : XTermWidget) (label : pystr) : Prop :=
| to_main :
    pane <> str "second" ->
    main_tab_widget s' = main_tab_widget s ++ [(x, label)] ->
    second_tab_widget s' = second_tab_widget s ->
    detached s' = detached s ->
    placed pane s s' x label
| to_second t :
    pane = str "second" ->
    second_tab_widget s = Some t ->
    main_tab_widget s' = main_tab_widget s ->
    second_tab_widget s' = Some (t ++ [(x, label)]) ->
    detached s' = detached s ->
    placed pane s s' x label
| to_nowhere :
    pane = str "second" ->
    second_tab_widget s = None ->
    main_tab_widget s' = main_tab_widget s ->
    second_tab_widget s' = None ->
    detached s' = detached s ++ [x] ->
    placed pane s s' x label.

(** A world in which every launch succeeds and no path is a directory. *)
Definition calm : World :=
  {| os_getcwd := str "/home/user";
     os_path_isdir := fun _ => Some false;
     uxterm_starts := fun _ _ => true |}.

End Terminal.

(* ================================================================== *)
(** * [SingleInstanceApplication]: the request and its framing *)
(* ================================================================== *)

Module Ipc.
Import Py Json Terminal.

(** The command line, as [parse_arguments] returns it. *)
Record Args := {
  args_new : bool;
  args_folder : option pystr;
  args_command : option pystr;
  args_tray : bool;
  args_double : bool;
  args_max : bool
}.

(** [x if x else None] for an optional [str]. *)
Definition or_none (x : option pystr) : option pystr :=
  match x with
  | Some (_ :: _) => x
  | _ => None
  end.

(** ** The client: [send_message] *)

(** [json.dumps(message).encode('utf-8')] *)
Definition message_json (args : Args) : option pybytes :=
  utf8_encode (dumps_request (str "open_new_tab") (or_none (args_folder args))
                             (or_none (args_command args))).

(** The body and the header of the request for a command line, when the
    text is ASCII (as the output of [json.dumps] is). *)
Definition request_body (args : Args) : pybytes :=
  map octet (dumps_request (str "open_new_tab") (or_none (args_folder args))
                           (or_none (args_command args))).

Definition request_header (args : Args) : pybytes :=
  map octet (format_08 (Z.of_nat (length (request_body args)))).

(** What the local socket answers to the client: whether
    [waitForConnected(1000)] succeeds, whether [write] takes the bytes, and
    whether [waitForBytesWritten(1000)] succeeds. *)
Record Link := {
  waitForConnected : bool;
  write_ok : bool;
  waitForBytesWritten : bool
}.

(** The message boxes shown and the bytes handed to [socket.write], in order;
    [None] when an exception escapes.  The results of [write] and of
    [waitForBytesWritten] are not looked at. *)
Definition send_message (link : Link) (args : Args)
  : option (list string * pybytes) :=
  if negb (waitForConnected link)
  then Some (["Unable to connect to the running instance."%string], [])
  else
    match message_json args with
    | None => None
    | Some body =>
        let length := Z.of_nat (length body) in
        match utf8_encode (format_08 length) with
        | None => None
        | Some header => Some ([], header ++ body)
        end
    end.

(** How [SingleInstanceApplication.__init__] ends. *)
Inductive startup :=
| RunsAsPrimary
| Exits (status : Z) (shown : list string) (written : pybytes).

(** [listen_ok] is the result of [self.server.listen(SERVER_NAME)].  An
    exception that escapes ends the process with status 1. *)
Definition SingleInstanceApplication_init (listen_ok : bool) (link : Link)
           (args : Args) : startup :=
  if listen_ok then RunsAsPrimary
  else
    match send_message link args with
    | Some (shown, written) => Exits 0 shown written
    | None => Exits 1 [] []
    end.

(** ** The primary: [read_socket] *)

(** The primary's end of one connection: the bytes received and not yet read,
    and whether the connection is still open. *)
Record QLocalSocket := {
  unread : pybytes;
  connected : bool
}.

Definition bytesAvailable (k : QLocalSocket) : Z := Z.of_nat (length (unread k)).

(** [read(n)]: up to [n] bytes leave the buffer; nothing for [n <= 0]. *)
Definition read (n : Z) (k : QLocalSocket) : pybytes * QLocalSocket :=
  (firstn (Z.to_nat n) (unread k),
   {| unread := skipn (Z.to_nat n) (unread k); connected := connected k |}).

Definition disconnectFromServer (k : QLocalSocket) : QLocalSocket :=
  {| unread := unread k; connected := false |}.

Record SingleInstanceApplication := {
  main_window : option TerminalEmulator;
  (** texts of the warnings shown by [read_socket], oldest first *)
  warnings : list string
}.

Section WithWorld.
Variable world : World.

(** [int(bytes(length_data).decode('utf-8'))]; [None] is the [ValueError]
    the handler catches. *)
Definition parse_length (length_data : pybytes) : option Z :=
  match utf8_decode length_data with
  | Some text => py_int text
  | None => None
  end.

(** One call of [read_socket(socket)]: the application, the socket and the
    exception that escaped, if any. *)
Definition read_socket (app : SingleInstanceApplication) (k : QLocalSocket)
  : SingleInstanceApplication * QLocalSocket * option pyexn :=
  if bytesAvailable k <? 8 then (app, k, None)
  else
    let '(length_data, k1) := read 8 k in
    match parse_length length_data with
    | None =>
        ({| main_window := main_window app;
            warnings := warnings app
                        ++ ["Received invalid message length."%string] |},
         disconnectFromServer k1, None)
    | Some length =>
        if bytesAvailable k1 <? length then (app, k1, None)
        else
          let '(message_data, k2) := read length k1 in
          match message_data with
          | [] => (app, disconnectFromServer k2, None)
          | _ :: _ =>
              match utf8_decode message_data with
              | None => (app, k2, Some UnicodeDecodeError)
              | Some message =>
                  match main_window app with
                  | None => (app, disconnectFromServer k2, None)
                  | Some window =>
                      let '(window', raised) :=
                        handle_new_instance_message world message window in
                      let app' := {| main_window := Some window';
                                     warnings := warnings app |} in
                      match raised with
                      | Some e => (app', k2, Some e)
                      | None => (app', disconnectFromServer k2, None)
                      end
                  end
              end
          end
    end.

(** New bytes on an open connection: they join the buffer and [readyRead]
    calls [read_socket]. *)
Definition ready_read (chunk : pybytes)
           (st : SingleInstanceApplication * QLocalSocket)
  : SingleInstanceApplication * QLocalSocket :=
  let '(app, k) := st in
  match chunk with
  | [] => st
  | _ :: _ =>
      if connected k then
        fst (read_socket app
               {| unread := unread k ++ chunk; connected := true |})
      else st
  end.

(** The bytes of one connection arriving in the given chunks. *)
Definition receive (chunks : list pybytes) (app : SingleInstanceApplication)
  : SingleInstanceApplication * QLocalSocket :=
  fold_left (fun st chunk => ready_read chunk st) chunks
            (app, {| unread := []; connected := true |}).

End WithWorld.

(** ** Sample values *)

(** A command line with no option. *)
Definition plain_args : Args :=
  {| args_new := false; args_folder := None; args_command := None;
     args_tray := false; args_double := false; args_max := false |}.

(** The bytes a client writes for a command line once it is connected. *)
Definition request_wire (args : Args) : pybytes :=
  match send_message {| waitForConnected := true; write_ok := true;
                        waitForBytesWritten := true |} args with
  | Some (_, written) => written
  | None => []
  end.

(** A primary whose window was just built, with no option. *)
Definition fresh_primary : SingleInstanceApplication :=
  {| main_window := Some (TerminalEmulator_init calm PNone PNone);
     warnings := [] |}.

(** What a test looks at: the sessions of the main pane, the warnings shown,
    and whether the connection is still open. *)
Definition observe (st : SingleInstanceApplication * QLocalSocket)
  : option (list nat) * list string * bool :=
  (option_map (fun w => page_ids (main_tab_widget w)) (main_window (fst st)),
   warnings (fst st), connected (snd st)).

End Ipc.

(* ================================================================== *)
(** * [XTermWidget]: the resize debounce *)
(* ================================================================== *)

Module Debounce.

(** The part of an [XTermWidget] the debounce touches, on the event loop's
    clock in milliseconds: the widget size, the single-shot [resize_timer]
    (its deadline while it is active) and the sizes [resize_terminal] was
    called with by that timer, oldest first.  A timer fires when the loop
    reaches its deadline, not before.  The one resize that [start_uxterm]
    schedules 100 ms after each launch is a timer of its own and is not part
    of the debounce. *)
Record Surface := {
  size : Z * Z;
  resize_timer : option Z;
  resized : list (Z * Z)
}.

(** [resize_terminal]'s rows and columns for a size in pixels. *)
Definition columns_rows (sz : Z * Z) : Z * Z :=
  (Z.max 1 (fst sz / 7), Z.max 1 (snd sz / 15)).

(** The loop reaching time [t]: an active timer whose deadline has come fires
    once, calls [resize_terminal] with the size of that moment, and stops. *)
Definition advance (t : Z) (w : Surface) : Surface :=
  match resize_timer w with
  | Some deadline =>
      if deadline <=? t
      then {| size := size w; resize_timer := None;
              resized := resized w ++ [size w] |}
      else w
  | None => w
  end.

(** A [QEvent.Resize] at time [t] with the new size: [eventFilter] runs
    [self.resize_timer.start(50)], which starts or restarts the timer. *)
Definition resize_event (t : Z) (sz : Z * Z) (w : Surface) : Surface :=
  let w1 := advance t w in
  {| size := sz; resize_timer := Some (t + 50); resized := resized w1 |}.

Definition notify_all (events : list (Z * (Z * Z))) (w : Surface) : Surface :=
  fold_left (fun w e => resize_event (fst e) (snd e) w) events w.

(** Each notification comes less than 50 ms after the one before it, the
    first of them after time [t]. *)
Fixpoint within_window (t : Z) (events : list (Z * (Z * Z))) : Prop :=
  match events with
  | [] => True
  | e :: rest => t <= fst e < t + 50 /\ within_window (fst e) rest
  end.

(** No timer is due at time [t]. *)
Definition quiet_until (t : Z) (w : Surface) : Prop :=
  match resize_timer w with
  | Some deadline => t < deadline
  | None => True
  end.

End Debounce.

(* ================================================================== *)
(** * Requests: what a command line can hold and what it asks for *)
(* ================================================================== *)

Module Request.
Import Py Json Qt Terminal Ipc.

(** Text that reaches the program from its command line: code points of
    Unicode, none of them in the first half of the surrogates (a byte of the
    command line that cannot be decoded comes as U+DC80 to U+DCFF). *)
Definition argv_char (c : Z) : bool :=
  (0 <=? c) && (c <=? 1114111) && negb (is_high_surrogate c).

Definition argv_text (s : pystr) : bool := forallb argv_char s.

(** An optional text as a Python object. *)
Definition of_optional (v : option pystr) : pyval :=
  match v with
  | Some s => PStr s
  | None => PNone
  end.

Definition field_text (v : option pystr) : bool :=
  match v with
  | Some s => argv_text s
  | None => true
  end.

Definition text_length (v : option pystr) : nat :=
  match v with
  | Some s => length s
  | None => 0
  end.

Section WithWorld.
Variable world : World.

(** The directory the handler passes on for a command line: the folder when
    it is given and is a directory. *)
Definition requested_directory (args : Args) : pyval :=
  match or_none (args_folder args) with
  | Some f =>
      match os_path_isdir world (PStr f) with
      | Some true => PStr f
      | _ => PNone
      end
  | None => PNone
  end.

Definition requested_command (args : Args) : pyval :=
  of_optional (or_none (args_command args)).

(** What one connection has done to a window: nothing, or one tab added to
    its main pane, and then the connection is closed. *)
Definition served (window : TerminalEmulator)
           (st : SingleInstanceApplication * QLocalSocket) : Prop :=
  main_window (fst st) = Some window
  \/ (exists directory cmd,
         main_window (fst st)
         = Some (add_terminal_tab world directory cmd (str "main") window)
         /\ connected (snd st) = false).

End WithWorld.

(** ** Sample values *)

(** A world in which /tmp is the only directory. *)
Definition with_tmp : World :=
  {| os_getcwd := str "/home/user";
     os_path_isdir := fun v =>
       match v with
       | PStr s => Some (pystr_eqb s (str "/tmp"))
       | _ => None
       end;
     uxterm_starts := fun _ _ => true |}.

(** The command line [-f /tmp -c ls]. *)
Definition tmp_ls_args : Args :=
  {| args_new := false; args_folder := Some (str "/tmp");
     args_command := Some (str "ls");
     args_tray := false; args_double := false; args_max := false |}.

(** A primary in that world whose window was just built. *)
Definition tmp_primary : SingleInstanceApplication :=
  {| main_window := Some (TerminalEmulator_init with_tmp PNone PNone);
     warnings := [] |}.

End Request.

(* ================================================================== *)
(** * [TerminalEmulator]: the context menu, renaming, settings, quitting *)
(* ================================================================== *)

Module Ui.
Import Py Json Qt Terminal.

(** [setTabText(index, text)]: nothing happens when the index is out of
    range. *)
Definition setTabText {W : Type} (t : @pages W) (index : Z) (text : pystr)
  : @pages W :=
  if index <? 0 then t
  else match nth_error t (Z.to_nat index) with
       | Some p =>
           firstn (Z.to_nat index) t ++ (fst p, text)
             :: skipn (S (Z.to_nat index)) t
       | None => t
       end.

(** [rename_tab(tab_widget, index)] on the pages of the tab widget, given
    what [QInputDialog.getText] returned: the text and whether the user
    confirmed. *)
Definition rename_tab {W : Type} (t : @pages W) (index : Z)
           (answer : pystr * bool) : @pages W :=
  let '(new_tab_text, ok) := answer in
  if ok && match new_tab_text with [] => false | _ => true end
  then setTabText t index new_tab_text
  else t.

(** The entries of the context menu, in the order they are added. *)
Inductive action :=
| AddTab (pane : pystr)
| OpenDualPane
| MoveTab (tab_widget : tab_widget_ref) (index : Z)
| CloseSecondPane
| RenameTab (tab_widget : tab_widget_ref) (index : Z)
| ToggleBar
| OpenSettings
| MinimizeToTray
| ExitApp.

(** [show_context_menu(position, tab_widget)]: the entries offered, given
    the tab widget's [currentIndex()]; none when that is -1. *)
Definition show_context_menu (tab_widget : tab_widget_ref) (current_index : Z)
           (s : TerminalEmulator) : list action :=
  if current_index =? -1 then []
  else
    [AddTab (match tab_widget with
             | MainTabWidget => str "main"
             | SecondTabWidget => str "second"
             end)]
    ++ match tab_widget, second_tab_widget s with
       | MainTabWidget, None => [OpenDualPane]
       | _, _ => []
       end
    ++ [MoveTab tab_widget current_index]
    ++ match second_tab_widget s with
       | Some _ => [CloseSecondPane]
       | None => []
       end
    ++ [RenameTab tab_widget current_index; ToggleBar; OpenSettings;
        MinimizeToTray; ExitApp].

(** What the event loop can run on its own, also while a menu is open: a
    request from another instance, and the timer [__init__] sets for
    [--double]. *)
Inductive background :=
| IncomingMessage (message : pystr)
| DoublePaneTimer.

(** What the user and the event loop do to the window. A menu is opened on
    a pane by a right click, stays open while [during] happens, and ends
    with the entry number [choice] or without one; [answer] and [accepted]
    are the user's replies to the rename and to the settings dialog. *)
Inductive event :=
| ContextMenu (tab_widget : tab_widget_ref) (current_index : Z)
              (during : list background) (choice : nat)
              (answer : pystr * bool) (accepted : bool)
| TabCloseRequested (tab_widget : tab_widget_ref) (index : Z)
| Background (b : background)
| TraySettings (accepted : bool).

Section WithWorld.
Variable world : World.

Definition restart_pages (t : @pages XTermWidget) : @pages XTermWidget :=
  map (fun p => (apply_settings world (fst p), snd p)) t.

(** The two loops of [open_settings_dialog] once the dialog is accepted:
    every page of the main pane, then of the second pane, gets
    [apply_settings]. *)
Definition apply_settings_to_tabs (s : TerminalEmulator) : TerminalEmulator :=
  with_second (with_main s (restart_pages (main_tab_widget s)))
    (option_map restart_pages (second_tab_widget s)) (splitter s).

Definition stop_pages (t : @pages XTermWidget) : @pages XTermWidget :=
  map (fun p => (terminate (fst p), snd p)) t.

(** [closeEvent(event)] given the reply to the question: the window and
    whether the event was accepted. *)
Definition closeEvent (reply_yes : bool) (s : TerminalEmulator)
  : TerminalEmulator * bool :=
  if reply_yes
  then (with_second (with_main s (stop_pages (main_tab_widget s)))
          (option_map stop_pages (second_tab_widget s)) (splitter s), true)
  else (s, false).

Definition rename_in (tab_widget : tab_widget_ref) (index : Z)
           (answer : pystr * bool) (s : TerminalEmulator) : TerminalEmulator :=
  match tab_widget with
  | MainTabWidget => with_main s (rename_tab (main_tab_widget s) index answer)
  | SecondTabWidget =>
      match second_tab_widget s with
      | Some t =>
          with_second s (Some (rename_tab t index answer)) (splitter s)
      | None => s
      end
  end.

Definition background_step (b : background) (s : TerminalEmulator)
  : TerminalEmulator :=
  match b with
  | IncomingMessage message => fst (handle_new_instance_message world message s)
  | DoublePaneTimer => initialize_double_pane world s
  end.

(** The slot connected to a menu entry. *)
Definition trigger (a : action) (answer : pystr * bool) (accepted : bool)
           (s : TerminalEmulator) : TerminalEmulator :=
  match a with
  | AddTab pane => add_terminal_tab world PNone PNone pane s
  | OpenDualPane => initialize_double_pane world s
  | MoveTab tab_widget index => move_tab_to_second_pane world tab_widget index s
  | CloseSecondPane => close_second_half s
  | RenameTab tab_widget index => rename_in tab_widget index answer s
  | OpenSettings => if accepted then apply_settings_to_tabs s else s
  | ToggleBar | MinimizeToTray | ExitApp => s
  end.

(** A pane on which a menu can be opened or a tab closed is one that
    exists. *)
Definition pane_exists (tab_widget : tab_widget_ref) (s : TerminalEmulator)
  : bool :=
  match tab_widget, second_tab_widget s with
  | SecondTabWidget, None => false
  | _, _ => true
  end.

Definition ui_step (e : event) (s : TerminalEmulator) : TerminalEmulator :=
  match e with
  | ContextMenu tab_widget current_index during choice answer accepted =>
      if pane_exists tab_widget s then
        let menu := show_context_menu tab_widget current_index s in
        let s1 := fold_left (fun st b => background_step b st) during s in
        match nth_error menu choice with
        | Some a => trigger a answer accepted s1
        | None => s1
        end
      else s
  | TabCloseRequested MainTabWidget index => close_main_tab world index s
  | TabCloseRequested SecondTabWidget index => close_second_tab index s
  | Background b => background_step b s
  | TraySettings accepted => if accepted then apply_settings_to_tabs s else s
  end.

Definition ui_run (events : list event) (s : TerminalEmulator)
  : TerminalEmulator :=
  fold_left (fun st e => ui_step e st) events s.

End WithWorld.

(** The startup command, when there is one, has been handed out. *)
Definition startup_done (s : TerminalEmulator) : Prop :=
  truthy (command s) = true -> command_executed s = true.

(** The operation of the window a background event runs. *)
Definition background_op (b : background) : op :=
  match b with
  | IncomingMessage message => HandleNewInstanceMessage message
  | DoublePaneTimer => InitializeDoublePane
  end.

(** A window with two tabs in its main pane. *)
Definition two_tabs : TerminalEmulator :=
  run calm [AddTerminalTab PNone PNone (str "main")]
      (TerminalEmulator_init calm PNone PNone).

End Ui.

(* ================================================================== *)
(** * Settings: the colour tables, [SettingsDialog] and [QSettings] *)
(* ================================================================== *)

Module Settings.
Import Py.

(** The settings dictionary; its four keys are always there. *)
Record settings := {
  font_family : pystr;
  font_size : Z;
  background_color : pystr;
  foreground_color : pystr
}.

Definition DEFAULT_SETTINGS : settings :=
  {| font_family := str "JetBrains Mono";
     font_size := 14;
     background_color := str "#002b36";
     foreground_color := str "#839496" |}.

(** The colour tables, name and hex code, in the order of the source. *)
Definition BACKGROUND_COLORS : list (pystr * pystr) :=
  [(str "Solarized Dark", str "#002b36");
   (str "Solarized Light", str "#fdf6e3");
   (str "Dracula", str "#282a36");
   (str "Nord", str "#2e3440");
   (str "Monokai", str "#272822");
   (str "Black", str "#000000");
   (str "Almost Black", str "#080808");
   (str "Dark Gray", str "#333333");
   (str "Medium Gray", str "#808080");
   (str "Light Gray", str "#cccccc");
   (str "White", str "#ffffff");
   (str "Off White", str "#f5f5f5");
   (str "Deep Blue", str "#000080");
   (str "Navy Blue", str "#001f3f");
   (str "Dark Teal", str "#008080");
   (str "Forest Green", str "#228b22");
   (str "Maroon", str "#800000");
   (str "Olive", str "#808000");
   (str "Brown", str "#a0522d");
   (str "Rosy Brown", str "#bc8f8f");
   (str "Ubuntu Red", str "#411824");
   (str "Girly Pink", str "#fdd7e4")].

Definition FOREGROUND_COLORS : list (pystr * pystr) :=
  [(str "White", str "#ffffff");
   (str "Off White", str "#eee8d5");
   (str "Light Gray", str "#d3d7cf");
   (str "Gray", str "#93a1a1");
   (str "Solarized Yellow", str "#b58900");
   (str "Solarized Cyan", str "#2aa198");
   (str "Green", str "#859900");
   (str "Bright Yellow", str "#ffff00");
   (str "Retro Green", str "#00ff00");
   (str "Retro Blue", str "#0000ff");
   (str "Teal", str "#008080");
   (str "Black", str "#000000")].

(** [color_dict.get(name, default)] *)
Fixpoint get (color_dict : list (pystr * pystr)) (name default : pystr)
  : pystr :=
  match color_dict with
  | [] => default
  | (k, v) :: rest => if pystr_eqb k name then v else get rest name default
  end.

(** ** [str.lower] and [get_color_name] *)

Definition ascii_lower (c : Z) : Z :=
  if (65 <=? c) && (c <=? 90) then c + 32 else c.

Section Lower.
(** [str.lower()] of a text that is not all ASCII follows the Unicode case
    tables, which are left to the caller. *)
Variable unicode_lower : pystr -> pystr.

Definition lower (s : pystr) : pystr :=
  if ascii_only s then map ascii_lower s else unicode_lower s.

(** [get_color_name(color_dict, hex_code)]: the first name whose code is
    [hex_code] up to case, the empty text when there is none. *)
Fixpoint get_color_name (color_dict : list (pystr * pystr)) (hex_code : pystr)
  : pystr :=
  match color_dict with
  | [] => []
  | (name, code) :: rest =>
      if pystr_eqb (lower code) (lower hex_code) then name
      else get_color_name rest hex_code
  end.

End Lower.

(** ** The widgets of the dialog *)

(** A [QComboBox] that is not editable: the item texts and the current
    index, -1 when there is no current item. *)
Record QComboBox := {
  items : list pystr;
  currentIndex : Z
}.

Definition new_combo : QComboBox := {| items := []; currentIndex := -1 |}.

(** [addItem(icon, text)]: the first item of an empty box becomes the
    current one. *)
Definition addItem (text : pystr) (c : QComboBox) : QComboBox :=
  {| items := items c ++ [text];
     currentIndex := match items c with
                     | [] => 0
                     | _ :: _ => currentIndex c
                     end |}.

Fixpoint find_from (texts : list pystr) (text : pystr) (i : Z) : Z :=
  match texts with
  | [] => -1
  | t :: rest => if pystr_eqb t text then i else find_from rest text (i + 1)
  end.

(** [findText(text)]: the index of the first item with that text, or -1. *)
Definition findText (text : pystr) (c : QComboBox) : Z :=
  find_from (items c) text 0.

(** [setCurrentIndex(index)]: an index that names no item leaves the box
    without current item. *)
Definition setCurrentIndex (index : Z) (c : QComboBox) : QComboBox :=
  {| items := items c;
     currentIndex :=
       if (0 <=? index) && (index <? Z.of_nat (length (items c)))
       then index else -1 |}.

(** [currentText()]: empty when there is no current item. *)
Definition currentText (c : QComboBox) : pystr :=
  if currentIndex c <? 0 then []
  else nth (Z.to_nat (currentIndex c)) (items c) [].

(** A [QSpinBox]: its range and its value, which stays in the range. *)
Record QSpinBox := {
  minimum : Z;
  maximum : Z;
  value : Z
}.

Definition new_spin : QSpinBox := {| minimum := 0; maximum := 99; value := 0 |}.

Definition bound (lo hi v : Z) : Z := Z.max lo (Z.min hi v).

Definition setRange (lo hi : Z) (sp : QSpinBox) : QSpinBox :=
  let hi := Z.max lo hi in
  {| minimum := lo; maximum := hi; value := bound lo hi (value sp) |}.

(** [setValue(v)]: [None] stands for the [OverflowError] raised for a Python
    integer that does not fit a C int. *)
Definition setValue (v : Z) (sp : QSpinBox) : option QSpinBox :=
  if (- 2 ^ 31 <=? v) && (v <? 2 ^ 31)
  then Some {| minimum := minimum sp; maximum := maximum sp;
               value := bound (minimum sp) (maximum sp) v |}
  else None.

(** The fonts of the system, as the dialog sees them. *)
Record Fonts := {
  (** [QFontDatabase.families()], each with [QFont(family).exactMatch()] and
      [QFontInfo(font).fixedPitch()] *)
  families : list (pystr * bool * bool);
  (** the family [font_combo.currentFont().family()] reports once the
      dialog has called [setCurrentFont(QFont(family))] *)
  combo_family : pystr -> pystr
}.

Definition get_monospace_fonts (fonts : Fonts) : list pystr :=
  map (fun f => fst (fst f))
      (filter (fun f => snd (fst f) && snd f) (families fonts)).

(** ** [SettingsDialog] *)

Record SettingsDialog := {
  dialog_settings : settings;
  (** the family of [font_combo.currentFont()] *)
  font_combo : pystr;
  size_spin : QSpinBox;
  bg_combo : QComboBox;
  fg_combo : QComboBox
}.

(** A box filled from a colour table, then set to the name of a colour. *)
Definition color_combo (color_dict : list (pystr * pystr)) (current : pystr)
  : QComboBox :=
  let box := fold_left (fun c entry => addItem (fst entry) c) color_dict
                       new_combo in
  let index := findText current box in
  if index =? -1 then box else setCurrentIndex index box.

Section Dialog.
Variable unicode_lower : pystr -> pystr.
Variable fonts : Fonts.

(** [SettingsDialog(parent, settings)], that is [init_ui]; [None] when it
    raises. *)
Definition init_ui (st : settings) : option SettingsDialog :=
  let monospace_fonts := get_monospace_fonts fonts in
  let current_font := font_family st in
  let '(shown, st1) :=
    if existsb (fun f => pystr_eqb current_font f) monospace_fonts
    then (combo_family fonts current_font, st)
    else
      let fallback_font :=
        match monospace_fonts with
        | f :: _ => f
        | [] => str "Courier New"
        end in
      (combo_family fonts fallback_font,
       {| font_family := fallback_font; font_size := font_size st;
          background_color := background_color st;
          foreground_color := foreground_color st |}) in
  match setValue (font_size st1) (setRange 8 22 new_spin) with
  | None => None
  | Some spin =>
      Some {| dialog_settings := st1;
              font_combo := shown;
              size_spin := spin;
              bg_combo :=
                color_combo BACKGROUND_COLORS
                  (get_color_name unicode_lower BACKGROUND_COLORS
                     (background_color st1));
              fg_combo :=
                color_combo FOREGROUND_COLORS
                  (get_color_name unicode_lower FOREGROUND_COLORS
                     (foreground_color st1)) |}
  end.

(** What the user can do to the widgets before pressing a button.  The spin
    box keeps what is entered within its range; a box takes one of its
    items. *)
Inductive edit :=
| PickFont (family : pystr)
| SpinTo (v : Z)
| PickBackground (index : Z)
| PickForeground (index : Z).

Definition pick (index : Z) (c : QComboBox) : QComboBox :=
  if (0 <=? index) && (index <? Z.of_nat (length (items c)))
  then setCurrentIndex index c else c.

Definition apply_edit (d : SettingsDialog) (e : edit) : SettingsDialog :=
  match e with
  | PickFont family =>
      {| dialog_settings := dialog_settings d; font_combo := family;
         size_spin := size_spin d; bg_combo := bg_combo d;
         fg_combo := fg_combo d |}
  | SpinTo v =>
      {| dialog_settings := dialog_settings d; font_combo := font_combo d;
         size_spin :=
           {| minimum := minimum (size_spin d);
              maximum := maximum (size_spin d);
              value := bound (minimum (size_spin d)) (maximum (size_spin d)) v |};
         bg_combo := bg_combo d; fg_combo := fg_combo d |}
  | PickBackground index =>
      {| dialog_settings := dialog_settings d; font_combo := font_combo d;
         size_spin := size_spin d; bg_combo := pick index (bg_combo d);
         fg_combo := fg_combo d |}
  | PickForeground index =>
      {| dialog_settings := dialog_settings d; font_combo := font_combo d;
         size_spin := size_spin d; bg_combo := bg_combo d;
         fg_combo := pick index (fg_combo d) |}
  end.

(** [save_settings()]: the settings the dialog is accepted with. *)
Definition save_settings (d : SettingsDialog) : settings :=
  {| font_family := font_combo d;
     font_size := value (size_spin d);
     background_color :=
       get BACKGROUND_COLORS (currentText (bg_combo d))
           (background_color DEFAULT_SETTINGS);
     foreground_color :=
       get FOREGROUND_COLORS (currentText (fg_combo d))
           (foreground_color DEFAULT_SETTINGS) |}.

(** [revert_to_defaults()]: the settings the dialog is accepted with. *)
Definition revert_to_defaults (d : SettingsDialog) : settings :=
  DEFAULT_SETTINGS.

Inductive button := SaveDefaults | RevertToDefaults | Cancel.

(** [dialog.exec()] followed by [dialog.get_settings()] when the dialog was
    accepted: [None] when the dialog raised, [Some None] when it was
    rejected. *)
Definition exec (st : settings) (edits : list edit) (b : button)
  : option (option settings) :=
  match init_ui st with
  | None => None
  | Some d0 =>
      let d := fold_left apply_edit edits d0 in
      match b with
      | SaveDefaults => Some (Some (save_settings d))
      | RevertToDefaults => Some (Some (revert_to_defaults d))
      | Cancel => Some None
      end
  end.

End Dialog.

(** ** [QSettings("Qermital", "TerminalEmulator")] *)

(** A stored integer is an integer while the process that stored it runs,
    and text once it is read back from the file. *)
Inductive qvariant :=
| QInt (n : Z)
| QString (s : pystr).

(** The store as this program writes it: three texts and a number, each of
    them there or not. *)
Record QSettings := {
  q_font_family : option pystr;
  q_font_size : option qvariant;
  q_background_color : option pystr;
  q_foreground_color : option pystr
}.

(** [str(n)] *)
Definition py_str (n : Z) : pystr :=
  if n <? 0 then 45 :: py_str_int (- n) else py_str_int n.

(** The store after the program has ended and started again. *)
Definition reread (q : QSettings) : QSettings :=
  {| q_font_family := q_font_family q;
     q_font_size :=
       match q_font_size q with
       | Some (QInt n) => Some (QString (py_str n))
       | other => other
       end;
     q_background_color := q_background_color q;
     q_foreground_color := q_foreground_color q |}.

(** [qsettings.value(key, default)] *)
Definition value_or {A : Type} (stored : option A) (default : A) : A :=
  match stored with
  | Some v => v
  | None => default
  end.

(** [int(x)] for a stored number. *)
Definition to_int (v : qvariant) : option Z :=
  match v with
  | QInt n => Some n
  | QString s => py_int s
  end.

(** [TerminalEmulator.load_settings()]; [None] stands for the [ValueError]
    of [int]. *)
Definition load_settings (q : QSettings) : option settings :=
  match to_int (value_or (q_font_size q) (QInt (font_size DEFAULT_SETTINGS))) with
  | None => None
  | Some size =>
      Some {| font_family :=
                value_or (q_font_family q) (font_family DEFAULT_SETTINGS);
              font_size := size;
              background_color :=
                value_or (q_background_color q)
                         (background_color DEFAULT_SETTINGS);
              foreground_color :=
                value_or (q_foreground_color q)
                         (foreground_color DEFAULT_SETTINGS) |}
  end.

(** [TerminalEmulator.save_settings()] *)
Definition store_settings (st : settings) : QSettings :=
  {| q_font_family := Some (font_family st);
     q_font_size := Some (QInt (font_size st));
     q_background_color := Some (background_color st);
     q_foreground_color := Some (foreground_color st) |}.

(** ** What the widgets of a dialog offer *)

(** A box shows the names of a colour table, one of them current. *)
Definition shows (color_dict : list (pystr * pystr)) (c : QComboBox) : Prop :=
  items c = map fst color_dict
  /\ 0 <= currentIndex c < Z.of_nat (length color_dict).

(** The widgets of a dialog keep within what they offer. *)
Definition within_offer (d : SettingsDialog) : Prop :=
  shows BACKGROUND_COLORS (bg_combo d)
  /\ shows FOREGROUND_COLORS (fg_combo d)
  /\ minimum (size_spin d) = 8 /\ maximum (size_spin d) = 22
  /\ 8 <= value (size_spin d) <= 22.

(** ** Sample values *)

(** A case mapping that is never asked: the texts of the samples are
    ASCII. *)
Definition no_case : pystr -> pystr := fun s => s.

(** A system with one fixed-pitch font and one proportional font. *)
Definition two_fonts : Fonts :=
  {| families := [(str "DejaVu Sans Mono", true, true);
                  (str "DejaVu Sans", true, false)];
     combo_family := fun family => family |}.

End Settings.

(* ================================================================== *)
(** * Starting up: [main], [TerminalEmulator.__init__] and the settings
      dialog of the window *)
(* ================================================================== *)

Module Startup.
Import Py Json Qt Terminal Ipc Request Ui Settings.

(** The window with its settings, and what [show], [hide] and
    [showMaximized] change. *)
Record MainWindow := {
  emulator : TerminalEmulator;
  window_settings : settings;
  visible : bool;
  maximized : bool
}.

(** [show_normal()]: the window is shown and raised; a maximized window
    stays maximized. *)
Definition show_normal (w : MainWindow) : MainWindow :=
  {| emulator := emulator w; window_settings := window_settings w;
     visible := true; maximized := maximized w |}.

Definition hide (w : MainWindow) : MainWindow :=
  {| emulator := emulator w; window_settings := window_settings w;
     visible := false; maximized := maximized w |}.

Definition show (w : MainWindow) : MainWindow :=
  {| emulator := emulator w; window_settings := window_settings w;
     visible := true; maximized := maximized w |}.

Definition showMaximized (w : MainWindow) : MainWindow :=
  {| emulator := emulator w; window_settings := window_settings w;
     visible := true; maximized := true |}.

Definition on_emulator (f : TerminalEmulator -> TerminalEmulator)
           (w : MainWindow) : MainWindow :=
  {| emulator := f (emulator w); window_settings := window_settings w;
     visible := visible w; maximized := maximized w |}.

Section WithWorld.
Variable world : World.

(** [add_terminal_tab] ends with [show_normal()]. *)
Definition add_terminal_tab_shown (directory cmd : pyval) (pane : pystr)
           (w : MainWindow) : MainWindow :=
  show_normal (on_emulator (add_terminal_tab world directory cmd pane) w).

(** [initialize_double_pane], with the window's visibility. *)
Definition initialize_double_pane_shown (w : MainWindow) : MainWindow :=
  let w1 :=
    if count (main_tab_widget (emulator w)) =? 0
    then add_terminal_tab_shown PNone PNone (str "main") w
    else w in
  match second_tab_widget (emulator w1) with
  | None =>
      add_terminal_tab_shown PNone PNone (str "second")
        (on_emulator create_second_pane w1)
  | Some _ => w1
  end.

(** [TerminalEmulator(initial_directory, command, start_minimized,
    start_double_pane, start_maximized)]: the window and whether the timer
    of 500 ms for [initialize_double_pane] was set; [None] when
    [load_settings] raises. *)
Definition TerminalEmulator_new (q : QSettings) (folder cmd : pyval)
           (start_minimized start_double_pane start_maximized : bool)
  : option (MainWindow * bool) :=
  match load_settings q with
  | None => None
  | Some st =>
      let w0 := {| emulator := blank_window world folder cmd;
                   window_settings := st;
                   visible := false; maximized := false |} in
      let w1 := add_terminal_tab_shown PNone PNone (str "main") w0 in
      let w2 := if start_minimized then hide w1 else w1 in
      let w3 := if start_maximized then showMaximized w2 else w2 in
      Some (w3, start_double_pane)
  end.

(** How [main()] goes on: the process ends, or the event loop starts with a
    window, which is the primary's when the process serves the other
    instances. *)
Inductive started :=
| Ended (status : Z) (shown : list string) (written : pybytes)
| Running (primary : bool) (w : MainWindow) (double_pane_timer : bool).

Definition open_window (primary : bool) (q : QSettings) (args : Args)
  : started :=
  match TerminalEmulator_new q (of_optional (args_folder args))
          (of_optional (args_command args)) (args_tray args)
          (args_double args) (args_max args) with
  | None => Ended 1 [] []
  | Some (w, timer) =>
      Running primary (if args_tray args then w else show w) timer
  end.

(** [main()] up to [app.exec()]. [listen_ok] and [link] are what the local
    server and the local socket answer; an exception that is not caught
    ends the process with status 1.  The launching of uxterm for the first
    tab, which ends the process when a required executable is missing, is
    the matter of [Launch]. *)
Definition main (args : Args) (listen_ok : bool) (link : Link)
           (q : QSettings) : started :=
  if args_new args then open_window false q args
  else
    match SingleInstanceApplication_init listen_ok link args with
    | Exits status shown written => Ended status shown written
    | RunsAsPrimary => open_window true q args
    end.

(** The window once the timer of [--double], if it was set, has fired. *)
Definition after_timer (w : MainWindow) (double_pane_timer : bool)
  : MainWindow :=
  if double_pane_timer then initialize_double_pane_shown w else w.

(** ** [open_settings_dialog] *)

Inductive dialog_result := Raised | Rejected | Accepted.

Section Dialog.
Variable unicode_lower : pystr -> pystr.
Variable fonts : Fonts.

(** [open_settings_dialog()]: the window, what the store holds afterwards
    and how the dialog ended.  An exception leaves the slot and changes
    nothing. *)
Definition open_settings_dialog (edits : list edit) (b : button)
           (w : MainWindow) (q : QSettings)
  : MainWindow * QSettings * dialog_result :=
  match exec unicode_lower fonts (window_settings w) edits b with
  | None => (w, q, Raised)
  | Some None => (w, q, Rejected)
  | Some (Some st) =>
      ({| emulator := apply_settings_to_tabs world (emulator w);
          window_settings := st;
          visible := visible w; maximized := maximized w |},
       store_settings st, Accepted)
  end.

End Dialog.
End WithWorld.

(** ** Sample values *)

(** The command line [--tray --double]. *)
Definition tray_double_args : Args :=
  {| args_new := false; args_folder := None; args_command := None;
     args_tray := true; args_double := true; args_max := false |}.

(** A local socket that does all it is asked. *)
Definition good_link : Link :=
  {| waitForConnected := true; write_ok := true;
     waitForBytesWritten := true |}.

(** A store that holds nothing yet. *)
Definition empty_store : QSettings :=
  {| q_font_family := None; q_font_size := None;
     q_background_color := None; q_foreground_color := None |}.

End Startup.

(* ================================================================== *)
(** * Launching uxterm: [merge_xresources] and [XTermWidget.start_uxterm] *)
(* ================================================================== *)

Module Launch.
Import Py Settings.

(** How a command run with [subprocess.run(..., check=True)] ends: with
    status 0, with another status ([CalledProcessError]), not at all because
    there is no such program ([FileNotFoundError]), or with any other
    exception, taken to be an [Exception]. *)
Inductive run_result := Succeeded | Failed | NoSuchProgram | Broke.

(** How [process.start] followed by [process.waitForStarted(3000)] ends. *)
Inductive start_result := Started | FailedToStart | TimedOut.

(** What the host answers during one call of [start_uxterm]. *)
Record Host := {
  (** [subprocess.run(['which', name], check=True, capture_output=True)] *)
  which : pystr -> run_result;
  (** whether [~/.Xresources] exists *)
  xresources_exists : bool;
  (** whether [xresources_path.touch()] succeeds; it raises [OSError]
      otherwise *)
  touch : bool;
  (** [subprocess.run(['xrdb', '-merge', path], check=True, ...)] *)
  xrdb_merge : run_result;
  (** the start of the uxterm process *)
  uxterm : start_result;
  (** whether the running process ends within [waitForFinished(3000)] after
      [terminate()] *)
  ends_in_time : bool
}.

Inductive exception :=
| SystemExit (status : Z)
| CalledProcessError
| FileNotFoundError
| OSError
| RuntimeError
| OtherError.

(** [except Exception] catches everything but [SystemExit]. *)
Definition is_Exception (e : exception) : bool :=
  match e with
  | SystemExit _ => false
  | _ => true
  end.

(** What a call does that can be seen from outside, in order. *)
Inductive effect :=
| MissingDependencies (text : pystr)
| CreatedXresources
| RanXrdb
| Spawned (program : pystr) (arguments : list pystr)
| ScheduledResize
| Terminated
| Killed
| Critical (text : string) (e : exception).

(** [check_executable_exists(name)]; [None] when an exception other than
    the two it catches leaves it. *)
Definition check_executable_exists (host : Host) (name : pystr)
  : option bool :=
  match which host name with
  | Succeeded => Some true
  | Failed | NoSuchProgram => Some false
  | Broke => None
  end.

(** [", ".join(names)] *)
Fixpoint join (names : list pystr) : pystr :=
  match names with
  | [] => []
  | [n] => n
  | n :: rest => n ++ str ", " ++ join rest
  end.

Definition error_message (missing : list pystr) : pystr :=
  str "Error: The following required executables are missing:" ++ [10; 10]
  ++ join missing ++ [10; 10] ++ str "Please install them and try again.".

(** [merge_xresources()]: what it did and the exception it ended with, if
    any. *)
Definition merge_xresources (host : Host) : list effect * option exception :=
  match check_executable_exists host (str "xdotool") with
  | None => ([], Some OtherError)
  | Some xdotool =>
  match check_executable_exists host (str "uxterm") with
  | None => ([], Some OtherError)
  | Some uxterm_found =>
  match check_executable_exists host (str "xrdb") with
  | None => ([], Some OtherError)
  | Some xrdb =>
      let missing_executables :=
        (if xdotool then [] else [str "xdotool"])
        ++ (if uxterm_found then [] else [str "uxterm"])
        ++ (if xrdb then [] else [str "xrdb"]) in
      match missing_executables with
      | _ :: _ =>
          ([MissingDependencies (error_message missing_executables)],
           Some (SystemExit 1))
      | [] =>
          if negb (xresources_exists host) && negb (touch host)
          then ([], Some OSError)
          else
            let created :=
              if xresources_exists host then [] else [CreatedXresources] in
            match xrdb_merge host with
            | Succeeded => (created ++ [RanXrdb], None)
            | Failed => (created ++ [RanXrdb], Some CalledProcessError)
            | NoSuchProgram => (created, Some FileNotFoundError)
            | Broke => (created, Some OtherError)
            end
      end
  end end end.

(** The state of a [QProcess]. *)
Inductive process_state := NotRunning | Starting | ProcessRunning.

(** An [XTermWidget] whose directory is a text and whose command is a text
    or [None], as they come from the command line and from the menus. *)
Record XTermWidget := {
  initial_directory : pystr;
  command : option pystr;
  current_settings : settings;
  winId : Z;
  (** [self.process], once there is one, with its state; the state changes
      through the calls of this module only: a uxterm that ends by itself
      between two calls is left out *)
  process : option process_state
}.

Definition with_process (x : XTermWidget) (p : option process_state)
  : XTermWidget :=
  {| initial_directory := initial_directory x; command := command x;
     current_settings := current_settings x; winId := winId x;
     process := p |}.

(** The text given to [bash -c]. *)
Definition bash_command (x : XTermWidget) : pystr :=
  match command x with
  | Some (c :: cs) =>
      str "cd " ++ [34] ++ initial_directory x ++ [34] ++ str "; "
      ++ (c :: cs) ++ str "; exec bash"
  | _ =>
      str "cd " ++ [34] ++ initial_directory x ++ [34] ++ str "; exec bash"
  end.

Definition uxterm_command (x : XTermWidget) : list pystr :=
  [str "uxterm";
   str "-fa"; font_family (current_settings x);
   str "-fs"; py_str (font_size (current_settings x));
   str "-bg"; background_color (current_settings x);
   str "-fg"; foreground_color (current_settings x);
   str "-cr"; foreground_color (current_settings x);
   str "-bc";
   str "+sb";
   str "-class"; str "UXTerm";
   str "-into"; py_str (winId x);
   str "-e"; str "bash"; str "-c"; bash_command x].

(** How a call ends: it returns, or an exception leaves it. *)
Inductive ended :=
| Returned (x : XTermWidget) (did : list effect)
| Left (e : exception) (did : list effect).

(** The two handlers of [start_uxterm]. *)
Definition handled (x : XTermWidget) (did : list effect) (e : exception)
  : ended :=
  match e with
  | CalledProcessError =>
      Returned x (did ++ [Critical "Failed to load .Xresources: " e])
  | SystemExit _ => Left e did
  | _ => Returned x (did ++ [Critical "Failed to start uxterm: " e])
  end.

(** [start_uxterm()] *)
Definition start_uxterm (host : Host) (x : XTermWidget) : ended :=
  match merge_xresources host with
  | (did, Some e) => handled x did e
  | (did, None) =>
      let spawned :=
        did ++ [Spawned (hd [] (uxterm_command x)) (tl (uxterm_command x))] in
      match uxterm host with
      | Started =>
          Returned (with_process x (Some ProcessRunning))
                   (spawned ++ [ScheduledResize])
      | FailedToStart =>
          handled (with_process x (Some NotRunning)) spawned RuntimeError
      | TimedOut =>
          handled (with_process x (Some Starting)) spawned RuntimeError
      end
  end.

(** [terminate()] *)
Definition terminate (host : Host) (x : XTermWidget)
  : XTermWidget * list effect :=
  match process x with
  | Some NotRunning | None => (x, [])
  | Some _ =>
      (with_process x (Some NotRunning),
       if ends_in_time host then [Terminated] else [Terminated; Killed])
  end.

(** [restart_uxterm()] *)
Definition restart_uxterm (host : Host) (x : XTermWidget) : ended :=
  let '(x1, stopped) := terminate host x in
  match start_uxterm host x1 with
  | Returned x2 did => Returned x2 (stopped ++ did)
  | Left e did => Left e (stopped ++ did)
  end.

(** [apply_settings(settings)] *)
Definition apply_settings (host : Host) (st : settings) (x : XTermWidget)
  : ended :=
  restart_uxterm host
    {| initial_directory := initial_directory x; command := command x;
       current_settings := st; winId := winId x; process := process x |}.

(** [XTermWidget(initial_directory, command, parent)]: [getcwd] is the
    answer of [os.getcwd()]. *)
Definition XTermWidget_new (host : Host) (getcwd : pystr) (id : Z)
           (directory : option pystr) (cmd : option pystr) : ended :=
  start_uxterm host
    {| initial_directory :=
         match directory with
         | Some (c :: cs) => c :: cs
         | _ => getcwd
         end;
       command := cmd;
       current_settings := DEFAULT_SETTINGS;
       winId := id;
       process := None |}.

(** The widget of a new tab, as [add_terminal_tab] makes it: the
    constructor, then [apply_settings] with the settings of the window.
    [first] and [second] are the host at the two launches. *)
Definition new_tab_widget (first second : Host) (getcwd : pystr) (id : Z)
           (directory cmd : option pystr) (st : settings) : ended :=
  match XTermWidget_new first getcwd id directory cmd with
  | Returned x did =>
      match apply_settings second st x with
      | Returned x' did' => Returned x' (did ++ did')
      | Left e did' => Left e (did ++ did')
      end
  | Left e did => Left e did
  end.

(** The error dialogs among the effects, and the argument lists uxterm was
    started with. *)
Definition criticals (did : list effect) : list string :=
  flat_map (fun d => match d with
                     | Critical text _ => [text]
                     | _ => []
                     end) did.

Definition spawned (did : list effect) : list (list pystr) :=
  flat_map (fun d => match d with
                     | Spawned _ arguments => [arguments]
                     | _ => []
                     end) did.

Definition required : list pystr := [str "xdotool"; str "uxterm"; str "xrdb"].

End Launch.

(* ================================================================== *)
(** * The resize debounce: which notifications lead to a resize *)
(* ================================================================== *)

Module Settle.
Import Debounce.

(** The sizes of the notifications that no other notification follows
    within 50 ms, in their order. *)
Fixpoint settled (events : list (Z * (Z * Z))) : list (Z * Z) :=
  match events with
  | [] => []
  | e :: rest =>
      match rest with
      | [] => [snd e]
      | e' :: _ =>
          if fst e + 50 <=? fst e' then snd e :: settled rest
          else settled rest
      end
  end.

(** The notifications come in the order of their times, none before [t]. *)
Fixpoint in_order (t : Z) (events : list (Z * (Z * Z))) : Prop :=
  match events with
  | [] => True
  | e :: rest => t <= fst e /\ in_order (fst e) rest
  end.

End Settle.

(* ================================================================== *)
(** * The Python primitives checked against CPython 3.11 *)
(* ================================================================== *)

(** [int] on the header texts CPython was asked about. *)
Example int_agrees_with_cpython :
  map Py.py_int
      [Py.str "00000012"; Py.str " 12     "; Py.str "+0000012"; Py.str "-0000012";
       Py.str "0_000_12"; Py.str "_0000012"; Py.str "0000012_"; Py.str "1__00000";
       Py.str "0x000012"; Py.str "        "; Py.str "1 2     "; Py.str "+ 000001";
       [1633; 1634; 1635; 1636]; [120783; 120784]; [49; 160; 50]; [160; 49];
       [28; 49]; [49; 0; 32]]
  = [Some 12; Some 12; Some 12; Some (-12); Some 12; None; None; None; None;
     None; None; None; Some 1234; Some 12; None; Some 1; None; None].
Proof. vm_compute. reflexivity. Qed.

(** The format with width 8 and zero padding. *)
Example format_08_agrees_with_cpython :
  map Py.format_08 [0; 59; 12345678; 123456789]
  = [Py.str "00000000"; Py.str "00000059"; Py.str "12345678"; Py.str "123456789"].
Proof. vm_compute. reflexivity. Qed.

(** The body of a request without folder and command. *)
Example dumps_agrees_with_cpython :
  Json.dumps_request (Py.str "open_new_tab") None None
  = [123; 34] ++ Py.str "action" ++ [34] ++ Py.str ": " ++ [34]
    ++ Py.str "open_new_tab" ++ [34] ++ Py.str ", " ++ [34] ++ Py.str "folder"
    ++ [34] ++ Py.str ": null, " ++ [34] ++ Py.str "command" ++ [34]
    ++ Py.str ": null}".
Proof. vm_compute. reflexivity. Qed.

(** Escapes of [json.dumps]. *)
Example escapes_agree_with_cpython :
  Json.encode_basestring_ascii ([120; 34; 92; 10; 9; 127; 1; 233; 128512; 47])
  = [34; 120; 92; 34; 92; 92; 92; 110; 92; 116] ++ Py.str "\u007f\u0001\u00e9\ud83d\ude00/" ++ [34].
Proof. vm_compute. reflexivity. Qed.

(** [json.loads] on texts CPython was asked about. *)
Example loads_agrees_with_cpython :
  map Json.json_loads
    [Json.quoted "abc"; Json.quoted ""; Json.quoted "[1]"; Json.quoted "3"; Json.quoted " {'action': 'open_new_tab'} "; Json.quoted "{'a':1,}";
     Json.quoted "NaN"; Json.quoted "{'a':NaN}"; [34; 97; 9; 98; 34]; Json.quoted "{'action':'open_new_tab','action':1}";
     Json.quoted "-"; Json.quoted "01"; Json.quoted "1."; Json.quoted "1.5e"; Json.quoted "1e5"; Json.quoted "-Infinity"; Json.quoted "{'a' : [1 , 2 ] }" ++ [10];
     65279 :: Json.quoted "{}"; Json.quoted "{}x"; Json.quoted "nul"; Json.quoted "[1,]"; Json.quoted "'\u12'"; Json.quoted "'\ud83d'"; Json.quoted "'\x'";
     11 :: Json.quoted "1"; Json.quoted "{'a':'\/'}"; [34; 128512; 34]; Json.quoted "[[[]],{}]"; Json.quoted "-0"; Json.quoted "0.0e-3"]
  = [Json.JSONDecodeError; Json.JSONDecodeError; Json.Loaded (Json.PList [Json.PInt 1]);
     Json.Loaded (Json.PInt 3);
     Json.Loaded (Json.PDict [(Py.str "action", Json.PStr (Py.str "open_new_tab"))]);
     Json.JSONDecodeError; Json.Loaded (Json.PFloat Json.FNan);
     Json.Loaded (Json.PDict [(Py.str "a", Json.PFloat Json.FNan)]);
     Json.JSONDecodeError;
     Json.Loaded (Json.PDict [(Py.str "action", Json.PInt 1)]);
     Json.JSONDecodeError; Json.JSONDecodeError; Json.JSONDecodeError; Json.JSONDecodeError;
     Json.Loaded (Json.PFloat (Json.FDec false 1 5));
     Json.Loaded (Json.PFloat (Json.FInf true));
     Json.Loaded (Json.PDict [(Py.str "a", Json.PList [Json.PInt 1; Json.PInt 2])]);
     Json.JSONDecodeError; Json.JSONDecodeError; Json.JSONDecodeError; Json.JSONDecodeError;
     Json.JSONDecodeError; Json.Loaded (Json.PStr [55357]); Json.JSONDecodeError;
     Json.JSONDecodeError; Json.Loaded (Json.PDict [(Py.str "a", Json.PStr [47])]);
     Json.Loaded (Json.PStr [128512]);
     Json.Loaded (Json.PList [Json.PList [Json.PList []]; Json.PDict []]);
     Json.Loaded (Json.PInt 0); Json.Loaded (Json.PFloat (Json.FDec false 0 (-4)))].
Proof. vm_compute. reflexivity. Qed.

(* ================================================================== *)
(** * [json.loads] always answers *)
(* ================================================================== *)

Module JsonFacts.
Import Py Json.

Local Open Scope nat_scope.

Lemma skip_ws_length (s : pystr) : length (skip_ws s) <= length s.
Proof.
  induction s as [|c s IH]; cbn [skip_ws]; [lia|].
  destruct (is_ws c); cbn [length]; lia.
Qed.

Lemma strip_prefix_length (p s rest : pystr) :
  strip_prefix p s = Some rest -> length rest + length p = length s.
Proof.
  revert s. induction p as [|a p IH]; intros [|b s]; cbn [strip_prefix length];
    try discriminate; try (intros [= <-]; cbn [length]; lia).
  destruct (Z.eqb a b); [|discriminate]. intros H. apply IH in H. lia.
Qed.

Lemma named_constant_length (s : pystr) v rest :
  named_constant s = Some (v, rest) -> length rest < length s.
Proof.
  unfold named_constant.
  repeat match goal with
         | |- context [strip_prefix ?p s] =>
             let E := fresh "E" in
             destruct (strip_prefix p s) eqn:E;
             [apply strip_prefix_length in E; cbn [length str map
                 list_byte_of_string] in E;
              intros [= <- <-]; cbn in E; lia|]
         end.
  discriminate.
Qed.

Lemma take_digits_length (s d rest : pystr) :
  take_digits s = (d, rest) -> length rest <= length s.
Proof.
  revert d rest. induction s as [|c s IH]; intros d rest;
    cbn [take_digits]; [intros [= <- <-]; cbn; lia|].
  destruct (is_digit c); [|intros [= <- <-]; cbn; lia].
  destruct (take_digits s) as [d' rest'] eqn:E. intros [= <- <-].
  specialize (IH _ _ eq_refl). cbn [length]. lia.
Qed.

Lemma scanstring_length (n : nat) :
  forall s k rest,
    length s <= n -> scanstring s = Some (k, rest) -> length rest < length s.
Proof.
  induction n as [|n IH]; intros s k rest Hn H.
  - destruct s; [discriminate|cbn [length] in Hn; lia].
  - destruct s as [|c r]; [discriminate|]. cbn [scanstring] in H.
    unfold push in H.
    repeat match type of H with
           | context [match ?x with _ => _ end] =>
               let E := fresh "E" in destruct x eqn:E; try discriminate
           | context [if ?x then _ else _] =>
               let E := fresh "E" in destruct x eqn:E; try discriminate
           end;
      repeat match goal with
             | p : (pystr * pystr)%type |- _ => destruct p
             end;
      injection H as <- <-;
      cbn [length] in *;
      try lia;
      match goal with
      | E : scanstring ?r = Some (_, ?x) |- length ?x < _ =>
          apply IH in E; [cbn [length] in *; lia | cbn [length] in *; lia]
      end.
Qed.

Lemma number_sign_length (s : pystr) neg rest :
  number_sign s = (neg, rest) -> length rest <= length s.
Proof.
  destruct s as [|c r]; cbn [number_sign]; [intros [= <- <-]; lia|].
  destruct (Z.eqb c 45); intros [= <- <-]; cbn [length]; lia.
Qed.

Lemma number_int_length (s : pystr) ip rest :
  number_int s = Some (ip, rest) -> length rest < length s.
Proof.
  destruct s as [|c r]; cbn [number_int]; [discriminate|].
  destruct ((49 <=? c)%Z && (c <=? 57)%Z).
  - destruct (take_digits r) as [d rest'] eqn:E. intros [= <- <-].
    apply take_digits_length in E. cbn [length]. lia.
  - destruct (Z.eqb c 48); [|discriminate].
    intros [= <- <-]. cbn [length]. lia.
Qed.

Lemma number_frac_length (s : pystr) frac rest :
  number_frac s = (frac, rest) -> length rest <= length s.
Proof.
  destruct s as [|dot [|d1 r]]; cbn [number_frac];
    try (intros [= <- <-]; lia).
  destruct ((dot =? 46)%Z && is_digit d1); [|intros [= <- <-]; lia].
  destruct (take_digits r) as [d rest'] eqn:E. intros [= <- <-].
  apply take_digits_length in E. cbn [length]. lia.
Qed.

Lemma exponent_sign_length (r : pystr) eneg r' :
  exponent_sign r = (eneg, r') -> length r' <= length r.
Proof.
  destruct r as [|sg [|x r1]]; cbn [exponent_sign];
    try (intros [= <- <-]; lia).
  destruct ((sg =? 43)%Z || (sg =? 45)%Z); intros [= <- <-];
    cbn [length]; lia.
Qed.

Lemma number_exp_length (s : pystr) ex rest :
  number_exp s = (ex, rest) -> length rest <= length s.
Proof.
  destruct s as [|e r]; cbn [number_exp]; [intros [= <- <-]; lia|].
  destruct ((e =? 101)%Z || (e =? 69)%Z); [|intros [= <- <-]; lia].
  destruct (exponent_sign r) as [eneg r'] eqn:E.
  apply exponent_sign_length in E.
  destruct (take_digits r') as [ed rest'] eqn:Ed.
  apply take_digits_length in Ed.
  destruct ed; intros [= <- <-]; cbn [length]; lia.
Qed.

Lemma match_number_length (s : pystr) v rest :
  match_number s = Some (v, rest) -> length rest < length s.
Proof.
  unfold match_number.
  destruct (number_sign s) as [neg s1] eqn:E1.
  destruct (number_int s1) as [[ip s2]|] eqn:E2; [|discriminate].
  destruct (number_frac s2) as [frac s3] eqn:E3.
  destruct (number_exp s3) as [ex s4] eqn:E4.
  apply number_sign_length in E1. apply number_int_length in E2.
  apply number_frac_length in E3. apply number_exp_length in E4.
  destruct frac, ex; intros [= <- <-]; lia.
Qed.

Ltac break H :=
  repeat match type of H with
         | context [match ?x with _ => _ end] =>
             let E := fresh "E" in destruct x eqn:E; try discriminate H
         | context [if ?x then _ else _] =>
             let E := fresh "E" in destruct x eqn:E; try discriminate H
         end.

Ltac lengths :=
  repeat match goal with
         | E : skip_ws ?x = _ |- _ =>
             let L := fresh "L" in
             pose proof (skip_ws_length x) as L; rewrite E in L; clear E
         | E : scanstring ?r = Some (_, _) |- _ =>
             apply (scanstring_length (length r)) in E; [|lia]
         | E : named_constant _ = Some (_, _) |- _ =>
             apply named_constant_length in E
         | E : match_number _ = Some (_, _) |- _ =>
             apply match_number_length in E
         | H : context [length (skip_ws ?x)] |- _ =>
             let L := fresh "L" in
             pose proof (skip_ws_length x) as L;
             generalize dependent (skip_ws x); intros
         | |- context [length (skip_ws ?x)] =>
             let L := fresh "L" in
             pose proof (skip_ws_length x) as L;
             generalize dependent (skip_ws x); intros
         end;
  cbn [length] in *.

(** A successful scan consumes at least one character. *)
Lemma scan_length (f : nat) :
  forall s,
    (forall v rest, scan_once f s = Ok v rest -> length rest < length s)
    /\ (forall acc v rest,
           parse_object f s acc = Ok v rest -> length rest < length s)
    /\ (forall acc v rest,
           parse_array f s acc = Ok v rest -> length rest < length s).
Proof.
  induction f as [|f IH]; intros s; [repeat split; discriminate|].
  split; [|split].
  - intros v rest H. cbn [scan_once] in H. break H;
      try injection H as <- <-; subst;
      repeat match goal with
             | E : parse_object f ?x _ = Ok _ _ |- _ =>
                 apply (proj1 (proj2 (IH x))) in E
             | E : parse_array f ?x _ = Ok _ _ |- _ =>
                 apply (proj2 (proj2 (IH x))) in E
             end;
      lengths; lia.
  - intros acc v rest H. cbn [parse_object] in H. break H;
      try injection H as <- <-; subst;
      repeat match goal with
             | E : scan_once f ?x = Ok _ _ |- _ =>
                 apply (proj1 (IH x)) in E
             | E : parse_object f ?x _ = Ok _ _ |- _ =>
                 apply (proj1 (proj2 (IH x))) in E
             end;
      lengths; lia.
  - intros acc v rest H. cbn [parse_array] in H. break H;
      try injection H as <- <-; subst;
      repeat match goal with
             | E : scan_once f ?x = Ok _ _ |- _ =>
                 apply (proj1 (IH x)) in E
             | E : parse_array f ?x _ = Ok _ _ |- _ =>
                 apply (proj2 (proj2 (IH x))) in E
             end;
      lengths; lia.
Qed.

Ltac scanned :=
  repeat match goal with
         | E : scan_once ?f ?x = Ok _ _ |- _ =>
             apply (proj1 (scan_length f x)) in E
         end.

(** Two steps for each character, and one more, are enough for the descent:
    the bound is never reached. *)
Lemma scan_fuel (f : nat) :
  forall s,
    (2 * length s + 1 <= f -> scan_once f s <> Deep)
    /\ (forall acc, 2 * length s + 1 <= f -> parse_object f s acc <> Deep)
    /\ (forall acc, 2 * length s + 2 <= f -> parse_array f s acc <> Deep).
Proof.
  induction f as [|f IH]; intros s; [repeat split; intros; lia|].
  split; [|split].
  - intros Hle H. cbn [scan_once] in H. break H; subst.
    + revert H. apply (proj1 (proj2 (IH _))). lengths. lia.
    + revert H. apply (proj2 (proj2 (IH _))). lengths. lia.
  - intros acc Hle H. cbn [parse_object] in H. break H; subst.
    + revert H. apply (proj1 (proj2 (IH _))). scanned. lengths. lia.
    + revert E5. apply (proj1 (IH _)). lengths. lia.
  - intros acc Hle H. cbn [parse_array] in H. break H; subst.
    + revert H. apply (proj2 (proj2 (IH _))). scanned. lengths. lia.
    + revert E. apply (proj1 (IH _)). lia.
Qed.

(** [json.loads] in the model either returns a value or raises
    [JSONDecodeError]. *)
Lemma json_loads_total (s : pystr) : json_loads s <> RecursionError.
Proof.
  unfold json_loads. destruct (starts_with_bom s); [discriminate|].
  destruct (scan_once (2 * length s + 2) (skip_ws s)) as [v rest| |] eqn:E.
  - destruct (skip_ws rest); discriminate.
  - discriminate.
  - exfalso. revert E. apply (proj1 (scan_fuel _ _)).
    pose proof (skip_ws_length s). lia.
Qed.

End JsonFacts.

(* ================================================================== *)
(** * Facts about tab widgets *)
(* ================================================================== *)

Module QtFacts.
Import Py Qt.

Lemma pystr_eqb_refl (a : pystr) : pystr_eqb a a = true.
Proof.
  induction a as [|x a IH]; simpl; [reflexivity|].
  now rewrite Z.eqb_refl, IH.
Qed.

Lemma pystr_eqb_eq (a b : pystr) : pystr_eqb a b = true <-> a = b.
Proof.
  split.
  - revert b; induction a as [|x a IH]; destruct b as [|y b]; simpl;
      try discriminate; [reflexivity|].
    intros H. apply andb_prop in H as [Hx Hr].
    apply Z.eqb_eq in Hx. apply IH in Hr. now subst.
  - intros ->. apply pystr_eqb_refl.
Qed.

Section Pages.
Context {W : Type}.
Implicit Types (t : @pages W) (w : W).

Lemma firstn_length_app (l1 l2 : list (W * pystr)) :
  firstn (length l1) (l1 ++ l2) = l1.
Proof. induction l1; simpl; congruence. Qed.

Lemma skipn_S_length_app (l1 l2 : list (W * pystr)) p :
  skipn (S (length l1)) (l1 ++ p :: l2) = l2.
Proof. induction l1; simpl; auto. Qed.

(** A page that [widget] finds splits the list, and [removeTab] and
    [tabText] agree with the split. *)
Lemma widget_some t index w :
  widget t index = Some w ->
  exists before label after,
    t = before ++ (w, label) :: after
    /\ removeTab t index = before ++ after
    /\ tabText t index = label.
Proof.
  unfold widget, removeTab, tabText.
  destruct (index <? 0); [discriminate|].
  destruct (nth_error t (Z.to_nat index)) as [[w' label]|] eqn:E;
    [|discriminate].
  cbn [option_map fst snd]. intros [= ->].
  destruct (nth_error_split _ _ E) as (before & after & -> & Hlen).
  exists before, label, after. rewrite <- Hlen.
  rewrite firstn_length_app, skipn_S_length_app. auto.
Qed.

(** With no page at the index, [removeTab] leaves the list as it is. *)
Lemma widget_none t index :
  widget t index = None -> removeTab t index = t.
Proof.
  unfold widget, removeTab.
  destruct (index <? 0); [reflexivity|].
  destruct (nth_error t (Z.to_nat index)) eqn:E; [discriminate|].
  intros _. apply nth_error_None in E.
  rewrite firstn_all2 by lia. rewrite skipn_all2 by lia.
  apply app_nil_r.
Qed.

Lemma count_nonzero t : (count t =? 0) = false <-> t <> [].
Proof.
  unfold count. destruct t as [|p t]; cbn [length].
  - split; intros H; [discriminate | contradiction].
  - split; intros H; [discriminate | apply Z.eqb_neq; lia].
Qed.

Lemma count_zero t : (count t =? 0) = true <-> t = [].
Proof.
  unfold count. destruct t as [|p t]; cbn [length].
  - split; reflexivity.
  - split; intros H; [apply Z.eqb_eq in H; lia | discriminate].
Qed.
End Pages.

End QtFacts.

(* ================================================================== *)
(** * Facts about the pane manager *)
(* ================================================================== *)

Module PaneFacts.
Import Py Json Qt Terminal QtFacts.

Lemma main_is_main : pystr_eqb (str "main") (str "main") = true.
Proof. reflexivity. Qed.

Lemma main_not_second : pystr_eqb (str "main") (str "second") = false.
Proof. reflexivity. Qed.

Lemma second_not_main : pystr_eqb (str "second") (str "main") = false.
Proof. reflexivity. Qed.

Lemma second_is_second : pystr_eqb (str "second") (str "second") = true.
Proof. reflexivity. Qed.

(** Reduce the projections of a window built with the setters. *)
Ltac fields :=
  cbn [initial_directory command tab_counter command_executed main_tab_widget
       second_tab_widget splitter dialogs detached next_wid startup_sessions
       main_refills with_flags with_main with_second with_dialog with_detached
       with_bookkeeping wid x_command x_initial_directory launches running
       start_uxterm terminate restart_uxterm apply_settings XTermWidget_init
       fst snd] in *.

Section WithWorld.
Variable world : World.

Lemma add_terminal_tab_spec directory cmd pane s :
  let s' := add_terminal_tab world directory cmd pane s in
  exists x label,
    placed pane s s' x label
    /\ wid x = next_wid s
    /\ next_wid s' = S (next_wid s)
    /\ splitter s' = splitter s
    /\ main_refills s' = main_refills s
    /\ dialogs s' = dialogs s
    /\ ((startup_sessions s' = startup_sessions s
         /\ command_executed s' = command_executed s)
        \/ (command_executed s = false /\ truthy (command s) = true
            /\ pane <> str "second"
            /\ x_command x = command s
            /\ startup_sessions s' = S (startup_sessions s)
            /\ command_executed s' = true)).
Proof.
  unfold add_terminal_tab, addTab.
  destruct (pystr_eqb pane (str "main")) eqn:Em.
  - apply pystr_eqb_eq in Em. subst pane.
    rewrite main_is_main.
    destruct (negb (command_executed s) && truthy (command s)) eqn:Ex;
      eexists; eexists; fields;
      (split; [apply to_main; fields; auto; discriminate|]);
      repeat (split; [reflexivity|]).
    + right. apply andb_prop in Ex as [E1 E2].
      apply negb_true_iff in E1. repeat split; auto. discriminate.
    + left; auto.
  - destruct (pystr_eqb pane (str "second")) eqn:Es.
    + apply pystr_eqb_eq in Es. subst pane.
      rewrite second_not_main, second_is_second.
      destruct (second_tab_widget s) as [t|] eqn:E2; fields; rewrite E2.
      * eexists; eexists; fields.
        split; [eapply to_second; fields; eauto|].
        repeat (split; [reflexivity|]). left; auto.
      * eexists; exists []; fields.
        split; [eapply to_nowhere; fields; eauto|].
        repeat (split; [reflexivity|]). left; auto.
    + rewrite main_is_main.
      assert (Hne : pane <> str "second").
      { intros ->. rewrite second_is_second in Es. discriminate. }
      destruct (negb (command_executed s) && truthy (command s)) eqn:Ex;
        eexists; eexists; fields;
        (split; [apply to_main; fields; auto|]);
        repeat (split; [reflexivity|]).
      * right. apply andb_prop in Ex as [E1 E2].
        apply negb_true_iff in E1. repeat split; auto.
      * left; auto.
Qed.


(** ** Sessions are neither lost nor copied *)

Lemma conserved_same s s' :
  next_wid s' = next_wid s ->
  (forall i, total s' i = total s i) ->
  conserved s s'.
Proof.
  intros Hn Ht. split; [lia|]. intros i. rewrite Ht, Hn.
  destruct (Nat.leb_spec (next_wid s) i), (Nat.ltb_spec i (next_wid s));
    simpl; lia.
Qed.

Lemma conserved_refl s : conserved s s.
Proof. now apply conserved_same. Qed.

Lemma conserved_trans a b c :
  conserved a b -> conserved b c -> conserved a c.
Proof.
  intros [Hab Tab] [Hbc Tbc]. split; [lia|]. intros i.
  rewrite Tbc, Tab.
  destruct (Nat.leb_spec (next_wid a) i), (Nat.ltb_spec i (next_wid b)),
    (Nat.leb_spec (next_wid b) i), (Nat.ltb_spec i (next_wid c));
    simpl; lia.
Qed.

Lemma conserved_ids_ok s s' : ids_ok s -> conserved s s' -> ids_ok s'.
Proof.
  intros H [Hle Hc] i. fold (total s' i). rewrite Hc.
  destruct (H i) as [H1 H2]. fold (total s i) in H1, H2.
  destruct (Nat.leb_spec (next_wid s) i), (Nat.ltb_spec i (next_wid s'));
    simpl; lia.
Qed.

Lemma count_one (x i : nat) :
  count_occ Nat.eq_dec [x] i = if Nat.eqb x i then 1%nat else 0%nat.
Proof.
  simpl. destruct (Nat.eq_dec x i), (Nat.eqb_spec x i); congruence.
Qed.

Lemma born_one (n i : nat) :
  (if (n <=? i)%nat && (i <? S n)%nat then 1 else 0)%nat
  = if Nat.eqb n i then 1%nat else 0%nat.
Proof.
  destruct (Nat.leb_spec n i), (Nat.ltb_spec i (S n)), (Nat.eqb_spec n i);
    simpl; lia.
Qed.

Lemma add_terminal_tab_conserved directory cmd pane s :
  conserved s (add_terminal_tab world directory cmd pane s).
Proof.
  destruct (add_terminal_tab_spec directory cmd pane s)
    as (x & label & Hp & Hw & Hn & _).
  split; [lia|]. intros i. rewrite Hn, born_one, <- Hw.
  unfold total, panes_of, in_main, in_second, in_detached, second_pages,
    page_ids.
  destruct Hp as [_ Hm Hs Hd | t _ Hs0 Hm Hs Hd | _ Hs0 Hm Hs Hd];
    rewrite Hm, Hs, Hd; try rewrite Hs0;
    rewrite ?map_app, ?count_occ_app; cbn [map fst]; rewrite count_one;
    simpl; lia.
Qed.


Ltac counting :=
  unfold total, panes_of, in_main, in_second, in_detached, second_pages,
    page_ids;
  fields;
  repeat (rewrite ?map_app, ?count_occ_app; cbn [map fst wid terminate]);
  rewrite ?count_one;
  cbn [count_occ];
  repeat match goal with
         | |- context [Nat.eq_dec ?a ?b] => destruct (Nat.eq_dec a b)
         | |- context [Nat.eqb ?a ?b] => destruct (Nat.eqb_spec a b)
         end;
  try lia.

Lemma terminate_and_remove_counts t index d t' d' (i : nat) :
  terminate_and_remove t index d = (t', d') ->
  (count_occ Nat.eq_dec (page_ids t') i + count_occ Nat.eq_dec (map wid d') i
   = count_occ Nat.eq_dec (page_ids t) i + count_occ Nat.eq_dec (map wid d) i)%nat.
Proof.
  unfold terminate_and_remove.
  destruct (widget t index) as [tab|] eqn:E.
  - destruct (widget_some _ _ _ E) as (before & label & after & -> & -> & _).
    intros [= <- <-]. counting.
  - rewrite (widget_none _ _ E). intros [= <- <-]. reflexivity.
Qed.

Lemma move_all_to_main_app second main :
  move_all_to_main second main = main ++ second.
Proof.
  revert main. induction second as [|[tab label] rest IH]; intros main.
  - simpl. now rewrite app_nil_r.
  - simpl. rewrite IH. unfold addTab. now rewrite <- app_assoc.
Qed.

Lemma close_main_tab_conserved index s :
  conserved s (close_main_tab world index s).
Proof.
  unfold close_main_tab.
  destruct (terminate_and_remove (main_tab_widget s) index (detached s))
    as [m d] eqn:E.
  assert (Hc : conserved s (with_detached (with_main s m) d)).
  { apply conserved_same; [reflexivity|]. intros i.
    pose proof (terminate_and_remove_counts _ _ _ _ _ i E) as H.
    unfold total, panes_of, in_main, in_second, in_detached, second_pages
      in *. fields. lia. }
  fields.
  destruct (count m =? 0); [|exact Hc].
  eapply conserved_trans; [exact Hc|].
  eapply conserved_trans; [|apply add_terminal_tab_conserved].
  apply conserved_same; reflexivity.
Qed.

Lemma move_tab_to_second_pane_conserved tw index s :
  conserved s (move_tab_to_second_pane world tw index s).
Proof.
  unfold move_tab_to_second_pane.
  destruct tw; [|apply conserved_same; reflexivity].
  destruct (widget (main_tab_widget s) index) as [tab|] eqn:E;
    [|apply conserved_refl].
  destruct (widget_some _ _ _ E) as (before & label & after & Hm & Hr & Hl).
  rewrite Hr, Hl.
  match goal with
  | |- conserved s (if _ then add_terminal_tab _ _ _ _ ?s3 else _) =>
      assert (Hc : conserved s s3)
  end.
  { unfold create_second_pane, addTab. fields.
    destruct (second_tab_widget s) as [t|] eqn:E2; fields; rewrite ?E2;
      fields; (apply conserved_same; [reflexivity|]); intros i;
      unfold total, panes_of, in_main, in_second, in_detached,
        second_pages; fields; rewrite ?E2, Hm; counting. }
  match goal with
  | |- conserved s (if ?c then _ else _) => destruct c
  end; [|exact Hc].
  eapply conserved_trans; [exact Hc|apply add_terminal_tab_conserved].
Qed.

Lemma drop_second_pane_pages s emptied :
  second_pages (drop_second_pane s emptied) = [] \/
  second_pages (drop_second_pane s emptied) = emptied.
Proof.
  unfold drop_second_pane, second_pages.
  destruct (nth_error (splitter s) 1); fields; auto.
Qed.

Lemma drop_second_pane_rest s emptied :
  main_tab_widget (drop_second_pane s emptied) = main_tab_widget s
  /\ detached (drop_second_pane s emptied) = detached s
  /\ next_wid (drop_second_pane s emptied) = next_wid s
  /\ startup_sessions (drop_second_pane s emptied) = startup_sessions s
  /\ main_refills (drop_second_pane s emptied) = main_refills s
  /\ command_executed (drop_second_pane s emptied) = command_executed s.
Proof.
  unfold drop_second_pane.
  destruct (nth_error (splitter s) 1); fields; auto 10.
Qed.

Lemma close_second_half_conserved s :
  conserved s (close_second_half s).
Proof.
  unfold close_second_half.
  destruct (second_tab_widget s) as [second|] eqn:E2;
    [|apply conserved_same; reflexivity].
  rewrite move_all_to_main_app.
  match goal with |- conserved s (drop_second_pane ?s1 ?e) =>
    destruct (drop_second_pane_rest s1 e) as (Hm & Hd & Hn & _);
    pose proof (drop_second_pane_pages s1 e) as Hp;
    set (s2 := drop_second_pane s1 e) in *
  end.
  assert (Hp' : second_pages s2 = []) by (destruct Hp; assumption).
  apply conserved_same; [rewrite Hn; reflexivity|].
  intros i. unfold total, panes_of, in_main, in_second, in_detached.
  rewrite Hm, Hd, Hp'. unfold second_pages. rewrite E2. counting.
Qed.

Lemma close_second_tab_conserved index s :
  conserved s (close_second_tab index s).
Proof.
  unfold close_second_tab.
  destruct (second_tab_widget s) as [second|] eqn:E2;
    [|apply conserved_same; reflexivity].
  destruct (terminate_and_remove second index (detached s)) as [t d] eqn:E.
  assert (Hc : forall i,
             total (with_detached (with_second s (Some t) (splitter s)) d) i
             = total s i).
  { intros i.
    pose proof (terminate_and_remove_counts _ _ _ _ _ i E) as H.
    unfold total, panes_of, in_main, in_second, in_detached, second_pages
      in *. fields. rewrite E2. lia. }
  destruct (count t =? 0) eqn:Ez; [|apply conserved_same; auto].
  apply count_zero in Ez. subst t.
  match goal with |- conserved s (drop_second_pane ?s1 ?e) =>
    destruct (drop_second_pane_rest s1 e) as (Hm & Hd & Hn & _);
    pose proof (drop_second_pane_pages s1 e) as Hp;
    set (s2 := drop_second_pane s1 e) in *
  end.
  assert (Hp' : second_pages s2 = []) by (destruct Hp; assumption).
  apply conserved_same; [rewrite Hn; reflexivity|].
  intros i. rewrite <- Hc.
  unfold total, panes_of, in_main, in_second, in_detached.
  rewrite Hm, Hd, Hp'. reflexivity.
Qed.

Lemma initialize_double_pane_conserved s :
  conserved s (initialize_double_pane world s).
Proof.
  unfold initialize_double_pane.
  match goal with
  | |- conserved s (match second_tab_widget ?s1 with _ => _ end) =>
      assert (Hc : conserved s s1)
  end.
  { destruct (count (main_tab_widget s) =? 0);
      [apply add_terminal_tab_conserved | apply conserved_refl]. }
  match goal with
  | |- conserved s (match second_tab_widget ?s1 with _ => _ end) =>
      destruct (second_tab_widget s1) eqn:E2; [exact Hc|];
      eapply conserved_trans; [exact Hc|];
      eapply conserved_trans; [|apply add_terminal_tab_conserved];
      apply conserved_same; [reflexivity|];
      intros i; unfold create_second_pane, total, panes_of, in_main,
        in_second, in_detached, second_pages; fields; rewrite E2; reflexivity
  end.
Qed.

Lemma handle_new_instance_message_conserved message s :
  conserved s (fst (handle_new_instance_message world message s)).
Proof.
  unfold handle_new_instance_message.
  destruct (json_loads message) as [v| |]; cbn [fst];
    try apply conserved_refl; try apply add_terminal_tab_conserved.
  destruct v; cbn [fst]; try apply conserved_refl.
  destruct (dict_get d (str "action")); cbn [fst]; try apply conserved_refl.
  destruct (pystr_eqb s0 (str "open_new_tab")); cbn [fst];
    try apply conserved_refl.
  destruct (truthy (dict_get d (str "folder")));
    [destruct (os_path_isdir world (dict_get d (str "folder")))
       as [[|]|] |];
    cbn [fst]; try apply conserved_refl; apply add_terminal_tab_conserved.
Qed.

Lemma step_conserved o s : conserved s (step world o s).
Proof.
  destruct o; cbn [step].
  - apply add_terminal_tab_conserved.
  - apply initialize_double_pane_conserved.
  - apply close_main_tab_conserved.
  - apply move_tab_to_second_pane_conserved.
  - apply close_second_half_conserved.
  - apply close_second_tab_conserved.
  - apply handle_new_instance_message_conserved.
Qed.

Lemma run_conserved ops s : conserved s (run world ops s).
Proof.
  revert s. induction ops as [|o ops IH]; intros s; cbn [run fold_left].
  - apply conserved_refl.
  - eapply conserved_trans; [apply step_conserved|apply IH].
Qed.


(** ** The pane layout and the startup flag *)

Lemma main_ne_second : str "main" <> str "second".
Proof. discriminate. Qed.

(** A tab for a pane other than 'second' lands at the end of the main
    pane. *)
Lemma add_to_main pane directory cmd s :
  pane <> str "second" ->
  let s' := add_terminal_tab world directory cmd pane s in
  exists x label,
    main_tab_widget s' = main_tab_widget s ++ [(x, label)]
    /\ wid x = next_wid s
    /\ second_tab_widget s' = second_tab_widget s
    /\ splitter s' = splitter s
    /\ detached s' = detached s.
Proof.
  intros Hne.
  destruct (add_terminal_tab_spec directory cmd pane s)
    as (x & label & Hp & Hw & _ & Hsp & _).
  exists x, label.
  destruct Hp as [_ Hm Hs Hd | t Hc | Hc]; try contradiction. auto.
Qed.

(** A tab for 'second' lands at the end of the second pane when there is
    one. *)
Lemma add_to_second directory cmd s t :
  second_tab_widget s = Some t ->
  let s' := add_terminal_tab world directory cmd (str "second") s in
  exists x label,
    second_tab_widget s' = Some (t ++ [(x, label)])
    /\ wid x = next_wid s
    /\ main_tab_widget s' = main_tab_widget s
    /\ splitter s' = splitter s
    /\ detached s' = detached s.
Proof.
  intros E2.
  destruct (add_terminal_tab_spec directory cmd (str "second") s)
    as (x & label & Hp & Hw & _ & Hsp & _).
  exists x, label.
  destruct Hp as [Hc | t' _ E2' Hm Hs Hd | _ E2'];
    try congruence.
  rewrite E2 in E2'. injection E2' as <-. auto.
Qed.

Lemma add_terminal_tab_panes_ok directory cmd pane s :
  panes_ok s -> panes_ok (add_terminal_tab world directory cmd pane s).
Proof.
  intros [Hmain Hsec].
  destruct (add_terminal_tab_spec directory cmd pane s)
    as (x & label & Hp & _ & _ & Hsp & _).
  unfold panes_ok. rewrite Hsp.
  destruct Hp as [_ Hm Hs Hd | t _ E2 Hm Hs Hd | _ E2 Hm Hs Hd];
    rewrite Hm, Hs; split; auto.
  - now destruct (main_tab_widget s).
  - rewrite E2 in Hsec. destruct Hsec as [_ Hsp']. split; [|exact Hsp'].
    now destruct t.
  - now rewrite E2 in Hsec.
Qed.

Lemma add_terminal_tab_startup_ok directory cmd pane s :
  startup_ok s -> startup_ok (add_terminal_tab world directory cmd pane s).
Proof.
  unfold startup_ok. intros H.
  destruct (add_terminal_tab_spec directory cmd pane s)
    as (x & label & _ & _ & _ & _ & Hrf & _ & Hst).
  rewrite Hrf.
  destruct Hst as [[-> ->] | (E & _ & _ & _ & -> & ->)]; [exact H|].
  rewrite E in H. lia.
Qed.

Lemma drop_second_pane_ok s emptied :
  main_tab_widget s <> [] ->
  splitter s = [MainTabWidget; SecondTabWidget] ->
  panes_ok (drop_second_pane s emptied).
Proof.
  intros Hm Hsp. unfold drop_second_pane, panes_ok. rewrite Hsp.
  cbn [nth_error]. fields. auto.
Qed.

Lemma close_main_tab_panes_ok index s :
  panes_ok s -> panes_ok (close_main_tab world index s).
Proof.
  intros [Hmain Hsec]. unfold close_main_tab.
  destruct (terminate_and_remove (main_tab_widget s) index (detached s))
    as [m d]. fields.
  destruct (count m =? 0) eqn:Ez.
  - match goal with |- panes_ok (add_terminal_tab _ _ _ _ ?s1) =>
      destruct (add_to_main (str "main") PNone PNone s1 main_ne_second)
        as (x & label & Hm & _ & Hs & Hsp & _)
    end.
    unfold panes_ok. rewrite Hm, Hs, Hsp. fields. split; [|exact Hsec].
    now destruct m.
  - apply count_nonzero in Ez. split; fields; assumption.
Qed.

Lemma close_main_tab_startup_ok index s :
  startup_ok s -> startup_ok (close_main_tab world index s).
Proof.
  intros H. unfold close_main_tab.
  destruct (terminate_and_remove (main_tab_widget s) index (detached s))
    as [m d]. fields.
  destruct (count m =? 0); [|exact H].
  apply add_terminal_tab_startup_ok. unfold startup_ok in *. fields.
  destruct (command_executed s); lia.
Qed.

Lemma move_tab_to_second_pane_panes_ok tw index s :
  panes_ok s -> panes_ok (move_tab_to_second_pane world tw index s).
Proof.
  intros [Hmain Hsec]. unfold move_tab_to_second_pane.
  destruct tw; [|split; fields; assumption].
  destruct (widget (main_tab_widget s) index) as [tab|] eqn:E;
    [|split; assumption].
  unfold create_second_pane, addTab. fields.
  set (m := removeTab (main_tab_widget s) index).
  set (label := tabText (main_tab_widget s) index).
  destruct (second_tab_widget s) as [t|] eqn:E2; fields; rewrite ?E2; fields.
  - destruct Hsec as [Ht Hsp].
    destruct (count m =? 0) eqn:Ez.
    + match goal with |- panes_ok (add_terminal_tab _ _ _ _ ?s1) =>
        destruct (add_to_main (str "main") PNone PNone s1 main_ne_second)
          as (x & lbl & Hm & _ & Hs & Hsp' & _)
      end.
      unfold panes_ok. rewrite Hm, Hs, Hsp'. fields.
      split; [now destruct m|]. split; [now destruct t|exact Hsp].
    + apply count_nonzero in Ez. split; fields; [assumption|].
      split; [now destruct t|exact Hsp].
  - destruct (count m =? 0) eqn:Ez.
    + match goal with |- panes_ok (add_terminal_tab _ _ _ _ ?s1) =>
        destruct (add_to_main (str "main") PNone PNone s1 main_ne_second)
          as (x & lbl & Hm & _ & Hs & Hsp' & _)
      end.
      unfold panes_ok. rewrite Hm, Hs, Hsp'. fields. rewrite Hsec.
      split; [now destruct m|]. split; [discriminate|reflexivity].
    + apply count_nonzero in Ez. split; fields; [assumption|].
      rewrite Hsec. split; [discriminate|reflexivity].
Qed.

Lemma move_tab_to_second_pane_startup_ok tw index s :
  startup_ok s -> startup_ok (move_tab_to_second_pane world tw index s).
Proof.
  intros H. unfold move_tab_to_second_pane.
  destruct tw; [|exact H].
  destruct (widget (main_tab_widget s) index) as [tab|]; [|exact H].
  unfold create_second_pane. fields.
  destruct (second_tab_widget s) eqn:E2; fields; rewrite ?E2; fields;
    match goal with |- startup_ok (if ?c then _ else _) => destruct c end;
    try apply add_terminal_tab_startup_ok; unfold startup_ok in *; fields;
    exact H.
Qed.

Lemma close_second_half_panes_ok s :
  panes_ok s -> panes_ok (close_second_half s).
Proof.
  intros [Hmain Hsec]. unfold close_second_half.
  destruct (second_tab_widget s) as [second|] eqn:E2.
  - destruct Hsec as [_ Hsp]. apply drop_second_pane_ok; fields; auto.
    rewrite move_all_to_main_app. now destruct (main_tab_widget s).
  - split; fields; [assumption|now rewrite E2].
Qed.

Lemma close_second_half_startup_ok s :
  startup_ok s -> startup_ok (close_second_half s).
Proof.
  intros H. unfold close_second_half.
  destruct (second_tab_widget s); [|exact H].
  match goal with |- startup_ok (drop_second_pane ?s1 ?e) =>
    destruct (drop_second_pane_rest s1 e) as (_ & _ & _ & H1 & H2 & H3)
  end.
  unfold startup_ok. rewrite H1, H2, H3. exact H.
Qed.

Lemma close_second_tab_panes_ok index s :
  panes_ok s -> panes_ok (close_second_tab index s).
Proof.
  intros [Hmain Hsec]. unfold close_second_tab.
  destruct (second_tab_widget s) as [second|] eqn:E2.
  - destruct Hsec as [_ Hsp].
    destruct (terminate_and_remove second index (detached s)) as [t d].
    destruct (count t =? 0) eqn:Ez.
    + apply drop_second_pane_ok; fields; auto.
    + apply count_nonzero in Ez. split; fields; auto.
  - split; fields; [assumption|now rewrite E2].
Qed.

Lemma close_second_tab_startup_ok index s :
  startup_ok s -> startup_ok (close_second_tab index s).
Proof.
  intros H. unfold close_second_tab.
  destruct (second_tab_widget s) as [second|]; [|exact H].
  destruct (terminate_and_remove second index (detached s)) as [t d].
  destruct (count t =? 0); [|exact H].
  match goal with |- startup_ok (drop_second_pane ?s1 ?e) =>
    destruct (drop_second_pane_rest s1 e) as (_ & _ & _ & H1 & H2 & H3)
  end.
  unfold startup_ok. rewrite H1, H2, H3. exact H.
Qed.

Lemma initialize_double_pane_panes_ok s :
  panes_ok s -> panes_ok (initialize_double_pane world s).
Proof.
  intros H. unfold initialize_double_pane.
  match goal with
  | |- panes_ok (match second_tab_widget ?s1 with _ => _ end) =>
      assert (H1 : panes_ok s1)
        by (destruct (count (main_tab_widget s) =? 0);
            [apply add_terminal_tab_panes_ok|]; exact H);
      set (s2 := s1) in *
  end.
  destruct (second_tab_widget s2) as [t|] eqn:E2; [exact H1|].
  destruct H1 as [Hmain Hsec]. rewrite E2 in Hsec.
  destruct (add_to_second PNone PNone (create_second_pane s2) [])
    as (x & label & Hs & _ & Hm & Hsp & _); [reflexivity|].
  unfold panes_ok. rewrite Hs, Hm, Hsp. unfold create_second_pane. fields.
  rewrite Hsec. split; [assumption|]. split; [discriminate|reflexivity].
Qed.

Lemma initialize_double_pane_startup_ok s :
  startup_ok s -> startup_ok (initialize_double_pane world s).
Proof.
  intros H. unfold initialize_double_pane.
  match goal with
  | |- startup_ok (match second_tab_widget ?s1 with _ => _ end) =>
      assert (H1 : startup_ok s1)
        by (destruct (count (main_tab_widget s) =? 0);
            [apply add_terminal_tab_startup_ok|]; exact H);
      set (s2 := s1) in *
  end.
  destruct (second_tab_widget s2); [exact H1|].
  apply add_terminal_tab_startup_ok. exact H1.
Qed.

(** Whatever the message, the handler leaves the window as it was or adds
    one tab to the main pane. *)
Lemma handle_new_instance_message_cases message s :
  fst (handle_new_instance_message world message s) = s
  \/ exists directory cmd,
      fst (handle_new_instance_message world message s)
      = add_terminal_tab world directory cmd (str "main") s.
Proof.
  unfold handle_new_instance_message.
  destruct (json_loads message) as [v| |]; cbn [fst]; eauto.
  destruct v; cbn [fst]; eauto.
  destruct (dict_get d (str "action")); cbn [fst]; eauto.
  destruct (pystr_eqb s0 (str "open_new_tab")); cbn [fst]; eauto.
  destruct (truthy (dict_get d (str "folder")));
    [destruct (os_path_isdir world (dict_get d (str "folder")))
       as [[|]|] |];
    cbn [fst]; eauto.
Qed.

Lemma step_sound o s : sound s -> sound (step world o s).
Proof.
  intros (Hp & Hs & Hi).
  split; [|split; [|eapply conserved_ids_ok; [exact Hi|apply step_conserved]]].
  - destruct o; cbn [step].
    + now apply add_terminal_tab_panes_ok.
    + now apply initialize_double_pane_panes_ok.
    + now apply close_main_tab_panes_ok.
    + now apply move_tab_to_second_pane_panes_ok.
    + now apply close_second_half_panes_ok.
    + now apply close_second_tab_panes_ok.
    + destruct (handle_new_instance_message_cases message s)
        as [-> | (directory & cmd & ->)];
        [assumption|now apply add_terminal_tab_panes_ok].
  - destruct o; cbn [step].
    + now apply add_terminal_tab_startup_ok.
    + now apply initialize_double_pane_startup_ok.
    + now apply close_main_tab_startup_ok.
    + now apply move_tab_to_second_pane_startup_ok.
    + now apply close_second_half_startup_ok.
    + now apply close_second_tab_startup_ok.
    + destruct (handle_new_instance_message_cases message s)
        as [-> | (directory & cmd & ->)];
        [assumption|now apply add_terminal_tab_startup_ok].
Qed.

Lemma init_sound folder cmd : sound (TerminalEmulator_init world folder cmd).
Proof.
  unfold TerminalEmulator_init.
  set (blank := blank_window world folder cmd).
  split; [|split].
  - destruct (add_to_main (str "main") PNone PNone blank main_ne_second)
      as (x & label & Hm & _ & Hs & Hsp & _).
    unfold panes_ok. rewrite Hm, Hs, Hsp. cbn. split; [discriminate|reflexivity].
  - apply add_terminal_tab_startup_ok. unfold startup_ok. cbn. lia.
  - eapply conserved_ids_ok; [|apply add_terminal_tab_conserved].
    intros i. cbn. split; [lia|reflexivity].
Qed.

Lemma run_sound ops s : sound s -> sound (run world ops s).
Proof.
  revert s. induction ops as [|o ops IH]; intros s H; cbn [run fold_left].
  - exact H.
  - apply IH. now apply step_sound.
Qed.


(** ** The claims about panes and tabs *)

Lemma reachable_sound folder cmd ops :
  sound (run world ops (TerminalEmulator_init world folder cmd)).
Proof. apply run_sound, init_sound. Qed.

(** C3. Whatever operations the window has run since it was built, its main
    pane holds at least one tab; and closing the only tab of the main pane
    puts a fresh tab there within the same call, the closed widget being
    detached with its process stopped. *)
Theorem primary_pane_never_empty :
  (forall folder cmd ops,
      1 <= count (main_tab_widget
                    (run world ops (TerminalEmulator_init world folder cmd))))
  /\ (forall s tab label,
         let s' := close_main_tab world 0 (with_main s [(tab, label)]) in
         exists x l,
           main_tab_widget s' = [(x, l)]
           /\ wid x = next_wid s
           /\ detached s' = detached s ++ [terminate tab]).
Proof.
  split.
  - intros folder cmd ops.
    destruct (reachable_sound folder cmd ops) as ((Hm & _) & _).
    unfold count. destruct (main_tab_widget _); [contradiction|].
    cbn [length]. lia.
  - intros s tab label. cbv zeta. unfold close_main_tab.
    replace (terminate_and_remove
               (main_tab_widget (with_main s [(tab, label)])) 0
               (detached (with_main s [(tab, label)])))
      with (@nil (XTermWidget * pystr), detached s ++ [terminate tab])
      by reflexivity.
    fields.
    change (count (@nil (XTermWidget * pystr)) =? 0) with true. cbv iota.
    match goal with |- context [add_terminal_tab _ _ _ _ ?s1] =>
      destruct (add_to_main (str "main") PNone PNone s1 main_ne_second)
        as (x & l & Hm & Hw & _ & _ & Hd)
    end.
    exists x, l. rewrite Hm, Hd. fields. auto.
Qed.


(** C4, as amended. Between operations the second pane exists exactly when
    it holds a tab; a close that leaves it without a tab destroys it in the
    same call; [initialize_double_pane] on a window without second pane
    leaves a second pane with exactly one, new tab, and on a window that
    has one it changes nothing. *)
Theorem second_pane_exists_iff_it_has_a_tab folder cmd ops :
  let s := run world ops (TerminalEmulator_init world folder cmd) in
  (second_tab_widget s <> None <-> 1 <= count (second_pages s))
  /\ (forall index,
         second_tab_widget (close_second_tab index s) = None
         \/ 1 <= count (second_pages (close_second_tab index s)))
  /\ match second_tab_widget s with
     | None =>
         exists x label,
           second_tab_widget (initialize_double_pane world s)
           = Some [(x, label)]
           /\ wid x = next_wid s
     | Some _ => initialize_double_pane world s = s
     end.
Proof.
  cbv zeta.
  pose proof (reachable_sound folder cmd ops) as Hs.
  set (s := run world ops (TerminalEmulator_init world folder cmd)) in *.
  assert (Hiff : forall s0, panes_ok s0 ->
             second_tab_widget s0 <> None <-> 1 <= count (second_pages s0)).
  { intros s0 [_ H2]. unfold second_pages, count.
    destruct (second_tab_widget s0) as [t|].
    - destruct H2 as [Ht _]. split; [|discriminate].
      intros _. destruct t; [contradiction|]. cbn [length]. lia.
    - split; [contradiction|]. cbn. lia. }
  split; [apply Hiff, Hs|]. split.
  - intros index.
    assert (Hp : panes_ok (close_second_tab index s))
      by (apply close_second_tab_panes_ok, Hs).
    destruct (second_tab_widget (close_second_tab index s)) eqn:E;
      [right|left; reflexivity].
    apply Hiff; [exact Hp|]. rewrite E. discriminate.
  - destruct Hs as ((Hm & _) & _).
    unfold initialize_double_pane.
    apply count_nonzero in Hm. rewrite Hm.
    destruct (second_tab_widget s) as [t|] eqn:E2; [reflexivity|].
    destruct (add_to_second PNone PNone (create_second_pane s) [])
      as (x & label & Hsec & Hw & _); [reflexivity|].
    exists x, label. rewrite Hsec. split; [reflexivity|exact Hw].
Qed.

Lemma move_tab_to_second_pane_spec tw index s :
  let s' := move_tab_to_second_pane world tw index s in
  detached s' = detached s
  /\ match tw, widget (main_tab_widget s) index with
     | MainTabWidget, Some tab =>
         exists label,
           second_tab_widget s' = Some (second_pages s ++ [(tab, label)])
     | _, _ =>
         main_tab_widget s' = main_tab_widget s
         /\ second_tab_widget s' = second_tab_widget s
     end.
Proof.
  cbv zeta. unfold move_tab_to_second_pane.
  destruct tw; [|fields; destruct (widget (main_tab_widget s) index); auto].
  destruct (widget (main_tab_widget s) index) as [tab|] eqn:E; [|auto].
  unfold create_second_pane, addTab, second_pages. fields.
  set (m := removeTab (main_tab_widget s) index).
  set (label := tabText (main_tab_widget s) index).
  destruct (second_tab_widget s) as [t|] eqn:E2; fields; rewrite ?E2; fields;
    (destruct (count m =? 0);
     [ match goal with |- context [add_terminal_tab _ _ _ _ ?s1] =>
         destruct (add_to_main (str "main") PNone PNone s1 main_ne_second)
           as (x & l & _ & _ & Hs & _ & Hd)
       end;
       rewrite Hs, Hd; fields; split; [reflexivity|]; exists label;
       reflexivity
     | fields; split; [reflexivity|]; exists label; reflexivity ]).
Qed.

(** C5. After [move_tab_to_second_pane], from any state the window can
    reach: no session is in two panes, every session that was in a pane
    still is, and the moved page is no longer in the main pane but is the
    last page of the second pane, which exists afterwards; a call that
    moves nothing leaves both panes as they were. *)
Theorem move_keeps_each_session_in_one_pane folder cmd ops tw index :
  let s := run world ops (TerminalEmulator_init world folder cmd) in
  let s' := move_tab_to_second_pane world tw index s in
  (forall i, panes_of s' i <= 1)%nat
  /\ (forall i, panes_of s i <= panes_of s' i)%nat
  /\ match tw, widget (main_tab_widget s) index with
     | MainTabWidget, Some tab =>
         in_main s' (wid tab) = 0%nat
         /\ in_second s' (wid tab) = 1%nat
         /\ exists label,
             second_tab_widget s' = Some (second_pages s ++ [(tab, label)])
     | _, _ =>
         main_tab_widget s' = main_tab_widget s
         /\ second_tab_widget s' = second_tab_widget s
     end.
Proof.
  cbv zeta.
  pose proof (reachable_sound folder cmd ops) as Hs.
  set (s := run world ops (TerminalEmulator_init world folder cmd)) in *.
  pose proof (step_sound (MoveTabToSecondPane tw index) s Hs)
    as (_ & _ & Hi').
  cbn [step] in Hi'.
  pose proof (move_tab_to_second_pane_conserved tw index s) as [_ Hc].
  destruct (move_tab_to_second_pane_spec tw index s) as [Hd Hm].
  set (s' := move_tab_to_second_pane world tw index s) in *.
  assert (Hle : forall i, (panes_of s' i <= 1)%nat).
  { intros i. destruct (Hi' i) as [H _]. lia. }
  split; [exact Hle|]. split.
  - intros i. specialize (Hc i). unfold total, in_detached in Hc.
    rewrite Hd in Hc. lia.
  - destruct tw; [|exact Hm].
    destruct (widget (main_tab_widget s) index) as [tab|]; [|exact Hm].
    destruct Hm as [label Hsec].
    assert (H2 : (1 <= in_second s' (wid tab))%nat).
    { unfold in_second, second_pages, page_ids. rewrite Hsec.
      rewrite map_app, count_occ_app. cbn [map fst]. rewrite count_one.
      rewrite Nat.eqb_refl. lia. }
    specialize (Hle (wid tab)). unfold panes_of in Hle.
    repeat split; try lia. exists label. exact Hsec.
Qed.

(** C6. [close_second_half] on a window whose second pane holds any pages
    puts them, in their order, after the pages of the main pane and
    destroys the second pane.  In particular, after the first tab T1 was
    closed and replaced by T2, opening the second pane (which creates T3)
    and closing it again leaves the main pane with T2, T3 and no second
    pane. *)
Theorem close_second_half_appends_in_order :
  (forall s second,
      let s0 := with_second s (Some second) [MainTabWidget; SecondTabWidget] in
      main_tab_widget (close_second_half s0) = main_tab_widget s ++ second
      /\ second_tab_widget (close_second_half s0) = None
      /\ splitter (close_second_half s0) = [MainTabWidget])
  /\ (forall folder cmd ops,
         let s := run world ops (TerminalEmulator_init world folder cmd) in
         main_tab_widget (close_second_half s)
         = main_tab_widget s ++ second_pages s
         /\ second_tab_widget (close_second_half s) = None)
  /\ (forall folder cmd,
         let s' := run world [CloseMainTab 0; InitializeDoublePane;
                              CloseSecondHalf]
                       (TerminalEmulator_init world folder cmd) in
         page_ids (main_tab_widget s') = [2; 3]%nat
         /\ second_tab_widget s' = None).
Proof.
  split; [|split].
  - intros s second. cbv zeta. unfold close_second_half, drop_second_pane.
    fields. cbn [nth_error firstn skipn app]. fields.
    rewrite move_all_to_main_app. auto.
  - intros folder cmd ops. cbv zeta.
    destruct (reachable_sound folder cmd ops) as ((_ & H2) & _).
    set (s := run world ops (TerminalEmulator_init world folder cmd)) in *.
    unfold close_second_half, second_pages.
    destruct (second_tab_widget s) as [t|] eqn:E2.
    + destruct H2 as [_ Hsp]. unfold drop_second_pane. fields. rewrite Hsp.
      cbn [nth_error]. fields. rewrite move_all_to_main_app. auto.
    + fields. rewrite app_nil_r. auto.
  - intros folder cmd. vm_compute. auto.
Qed.

(** C2, as amended. The startup command is handed to at most one session
    for each time the main pane was filled: once when the window is built
    and once more each time closing a tab emptied the main pane, which
    resets the flag.  Adding a tab never counts as such a refill. *)
Theorem startup_command_once_per_refill folder cmd ops :
  let s := run world ops (TerminalEmulator_init world folder cmd) in
  (startup_sessions s <= 1 + main_refills s)%nat
  /\ forall directory c pane,
      main_refills (add_terminal_tab world directory c pane s)
      = main_refills s.
Proof.
  cbv zeta.
  destruct (reachable_sound folder cmd ops) as (_ & H & _).
  set (s := run world ops (TerminalEmulator_init world folder cmd)) in *.
  split.
  - unfold startup_ok in H. destruct (command_executed s); lia.
  - intros directory c pane.
    destruct (add_terminal_tab_spec directory c pane s)
      as (x & label & _ & _ & _ & _ & Hrf & _). exact Hrf.
Qed.

(** A tab asked for the second pane of a window that has none is created
    and launched but becomes a page of no pane. *)
Lemma add_to_missing_second_pane directory cmd s :
  second_tab_widget s = None ->
  let s' := add_terminal_tab world directory cmd (str "second") s in
  exists x,
    detached s' = detached s ++ [x]
    /\ wid x = next_wid s
    /\ launches x = 2%nat
    /\ main_tab_widget s' = main_tab_widget s
    /\ second_tab_widget s' = None.
Proof.
  intros E2. cbv zeta. unfold add_terminal_tab.
  rewrite second_not_main, second_is_second. fields.
  rewrite second_not_main, second_is_second, E2.
  eexists. fields. repeat split; try reflexivity. exact E2.
Qed.

(** ** Detached widgets are closed tabs *)

Lemma add_terminal_tab_stopped directory cmd pane s :
  (pane = str "second" -> second_tab_widget s <> None) ->
  stopped s -> stopped (add_terminal_tab world directory cmd pane s).
Proof.
  intros Hpane H.
  destruct (add_terminal_tab_spec directory cmd pane s)
    as (x & label & Hp & _).
  unfold stopped.
  destruct Hp as [_ _ _ Hd | t _ _ _ _ Hd | Hc E2 _ _ _];
    [rewrite Hd; exact H | rewrite Hd; exact H |].
  now apply Hpane in Hc.
Qed.

Lemma terminate_and_remove_stopped t index d t' d' :
  terminate_and_remove t index d = (t', d') ->
  Forall (fun x => running x = false) d ->
  Forall (fun x => running x = false) d'.
Proof.
  unfold terminate_and_remove.
  destruct (widget t index) as [tab|]; intros [= <- <-] H; [|exact H].
  apply Forall_app. split; [exact H|]. constructor; [reflexivity|constructor].
Qed.

Lemma step_stopped o s :
  targets_existing_pane o s -> stopped s -> stopped (step world o s).
Proof.
  intros Ht H. destruct o; cbn [step targets_existing_pane] in *.
  - now apply add_terminal_tab_stopped.
  - unfold initialize_double_pane.
    match goal with
    | |- stopped (match second_tab_widget ?s1 with _ => _ end) =>
        assert (H1 : stopped s1)
          by (destruct (count (main_tab_widget s) =? 0);
              [apply add_terminal_tab_stopped;
               [intros E; discriminate E|]|]; exact H);
        set (s2 := s1) in *
    end.
    destruct (second_tab_widget s2); [exact H1|].
    apply add_terminal_tab_stopped; [|exact H1].
    intros _. discriminate.
  - unfold close_main_tab.
    destruct (terminate_and_remove (main_tab_widget s) index (detached s))
      as [m d] eqn:E.
    pose proof (terminate_and_remove_stopped _ _ _ _ _ E H) as Hd.
    fields. destruct (count m =? 0); [|exact Hd].
    apply add_terminal_tab_stopped; [intros E'; discriminate E'|exact Hd].
  - unfold stopped.
    destruct (move_tab_to_second_pane_spec tab_widget index s) as [-> _].
    exact H.
  - unfold close_second_half.
    destruct (second_tab_widget s); [|exact H].
    match goal with |- stopped (drop_second_pane ?s1 ?e) =>
      destruct (drop_second_pane_rest s1 e) as (_ & Hd & _)
    end.
    unfold stopped. rewrite Hd. exact H.
  - unfold close_second_tab.
    destruct (second_tab_widget s) as [second|]; [|exact H].
    destruct (terminate_and_remove second index (detached s)) as [t d] eqn:E.
    pose proof (terminate_and_remove_stopped _ _ _ _ _ E H) as Hd.
    destruct (count t =? 0); [|exact Hd].
    match goal with |- stopped (drop_second_pane ?s1 ?e) =>
      destruct (drop_second_pane_rest s1 e) as (_ & Hd' & _)
    end.
    unfold stopped. rewrite Hd'. exact Hd.
  - destruct (handle_new_instance_message_cases message s)
      as [-> | (directory & cmd & ->)]; [exact H|].
    apply add_terminal_tab_stopped; [intros E; discriminate E|exact H].
Qed.

Lemma run_stopped ops :
  forall s, well_targeted world ops s -> stopped s ->
            stopped (run world ops s).
Proof.
  induction ops as [|o ops IH]; intros s Hw H; cbn [run fold_left];
    [exact H|].
  destruct Hw as [Ho Hrest]. apply IH; [exact Hrest|].
  now apply step_stopped.
Qed.

(** Every identity handed out so far names exactly one widget, which is a
    page of a pane or detached. *)
Lemma every_session_is_somewhere folder cmd ops (i : nat) :
  let s := run world ops (TerminalEmulator_init world folder cmd) in
  (1 <= i < next_wid s)%nat -> total s i = 1%nat.
Proof.
  cbv zeta. intros Hi.
  assert (Hc : conserved (blank_window world folder cmd)
                 (run world ops (TerminalEmulator_init world folder cmd))).
  { eapply conserved_trans; [|apply run_conserved].
    apply add_terminal_tab_conserved. }
  destruct Hc as [_ Hc]. rewrite Hc.
  change (next_wid (blank_window world folder cmd)) with 1%nat.
  change (total (blank_window world folder cmd) i) with 0%nat.
  destruct (Nat.leb_spec 1 i), (Nat.ltb_spec i
    (next_wid (run world ops (TerminalEmulator_init world folder cmd))));
    cbn; lia.
Qed.

(** C9, as amended. When tabs are asked for the second pane only while it
    exists, then after any operations every session ever created is either a
    page of exactly one pane or a detached widget, every detached widget has
    its terminal stopped, and a new tab whose pane exists is a page of
    exactly one pane when [add_terminal_tab] returns. *)
Theorem sessions_stay_attached folder cmd ops
        (Hops : well_targeted world ops
                  (TerminalEmulator_init world folder cmd)) :
  let s := run world ops (TerminalEmulator_init world folder cmd) in
  (forall i, (1 <= i < next_wid s)%nat ->
             (panes_of s i = 1 /\ in_detached s i = 0)%nat
             \/ (panes_of s i = 0 /\ in_detached s i = 1)%nat)
  /\ Forall (fun x => running x = false) (detached s)
  /\ forall directory c pane,
      (pane = str "second" -> second_tab_widget s <> None) ->
      panes_of (add_terminal_tab world directory c pane s) (next_wid s)
      = 1%nat.
Proof.
  cbv zeta.
  pose proof (reachable_sound folder cmd ops) as (_ & _ & Hids).
  split; [|split].
  - intros i Hi.
    pose proof (every_session_is_somewhere folder cmd ops i Hi) as H.
    unfold total in H. lia.
  - apply run_stopped; [exact Hops|].
    unfold stopped, TerminalEmulator_init.
    destruct (add_to_main (str "main") PNone PNone
                (blank_window world folder cmd) main_ne_second)
      as (x & label & _ & _ & _ & _ & ->).
    constructor.
  - intros directory c pane Hpane.
    set (s := run world ops (TerminalEmulator_init world folder cmd)) in *.
    destruct (Hids (next_wid s)) as [_ Hfresh].
    specialize (Hfresh (Nat.le_refl _)).
    destruct (add_terminal_tab_spec directory c pane s)
      as (x & label & Hp & Hw & _).
    unfold panes_of, in_main, in_second, in_detached, second_pages, page_ids
      in *.
    destruct Hp as [_ Hm Hs _ | t _ E2 Hm Hs _ | Hc E2 _ _ _].
    + rewrite Hm, Hs, map_app, count_occ_app. cbn [map fst].
      rewrite count_one, Hw, Nat.eqb_refl. lia.
    + rewrite Hm, Hs. rewrite E2 in Hfresh.
      rewrite map_app, count_occ_app. cbn [map fst].
      rewrite count_one, Hw, Nat.eqb_refl. lia.
    + now apply Hpane in Hc.
Qed.

End WithWorld.

(** Counterexample to C2 as stated: with a startup command, closing the
    only tab of the main pane hands the command to the replacement tab too. *)
Lemma startup_command_runs_again_after_last_tab_closed :
  let s := run calm [CloseMainTab 0]
             (TerminalEmulator_init calm PNone
                (PStr (str "htop"))) in
  startup_sessions s = 2%nat
  /\ map (fun p => x_command (fst p)) (main_tab_widget s)
     = [PStr (str "htop")]
  /\ ~ (startup_sessions s <= 1)%nat.
Proof. vm_compute. repeat split. intros H. inversion H as [|? H1]. inversion H1. Qed.

(** Counterexample to C4 as stated: [initialize_double_pane] on a window
    whose second pane already has two tabs leaves it with two. *)
Lemma open_second_pane_twice_keeps_two_tabs :
  let s := run calm
             [InitializeDoublePane;
              AddTerminalTab PNone PNone (str "second");
              InitializeDoublePane]
             (TerminalEmulator_init calm PNone PNone) in
  page_ids (second_pages s) = [2; 3]%nat
  /\ count (second_pages s) = 2.
Proof. vm_compute. split; reflexivity. Qed.

(** A run that respects the panes: the second pane is opened, gets a second
    tab, and its first tab is closed. *)
Lemma sessions_stay_attached_witness :
  let ops := [InitializeDoublePane;
              AddTerminalTab PNone PNone (str "second");
              CloseSecondTab 0] in
  let s := run calm ops (TerminalEmulator_init calm PNone PNone) in
  well_targeted calm ops (TerminalEmulator_init calm PNone PNone)
  /\ Forall (fun x => running x = false) (detached s)
  /\ panes_of (add_terminal_tab calm PNone PNone (str "second") s)
              (next_wid s) = 1%nat.
Proof.
  cbv zeta.
  assert (Hw : well_targeted calm
                 [InitializeDoublePane;
                  AddTerminalTab PNone PNone (str "second");
                  CloseSecondTab 0]
                 (TerminalEmulator_init calm PNone PNone)).
  { cbn [well_targeted targets_existing_pane]. repeat split.
    intros _. vm_compute. discriminate. }
  split; [exact Hw|].
  pose proof (sessions_stay_attached calm PNone PNone _ Hw) as (_ & H2 & H3).
  split; [exact H2|].
  apply H3. intros _. vm_compute. discriminate.
Defined.

(** Counterexample to C9 as stated: asking for a tab in the second pane
    of a window that has no second pane creates session 2 and starts its
    terminal, but the session is a page of neither pane. *)
Lemma session_without_pane :
  let s := TerminalEmulator_init calm PNone PNone in
  let s' := add_terminal_tab calm PNone PNone
              (str "second") s in
  second_tab_widget s = None
  /\ map wid (detached s') = [2%nat]
  /\ map running (detached s') = [true]
  /\ panes_of s' 2 = 0%nat
  /\ page_ids (main_tab_widget s') = [1%nat]
  /\ second_tab_widget s' = None.
Proof. vm_compute. repeat split. Qed.

End PaneFacts.

(* ================================================================== *)
(** * Facts about the single-instance protocol *)
(* ================================================================== *)

Module IpcFacts.
Import Py Json Qt Terminal Ipc.

Lemma utf8_encode_ascii (s : pystr) :
  ascii_only s = true -> utf8_encode s = Some (map octet s).
Proof.
  induction s as [|c s IH]; [reflexivity|].
  cbn [ascii_only forallb]. intros H.
  apply andb_prop in H as [Hc Hs]. apply andb_prop in Hc as [H0 H1].
  cbn [utf8_encode]. rewrite (IH Hs). unfold utf8_encode_cp.
  apply Z.leb_le in H0.
  destruct (Z.ltb_spec c 0); [lia|]. rewrite H1. reflexivity.
Qed.

Lemma ascii_only_app (a b : pystr) :
  ascii_only (a ++ b) = ascii_only a && ascii_only b.
Proof. apply forallb_app. Qed.

Lemma hex_digit_ascii (n : Z) :
  (0 <=? hex_digit (n mod 16)) && (hex_digit (n mod 16) <? 128) = true.
Proof.
  pose proof (Z.mod_pos_bound n 16 ltac:(lia)) as H.
  unfold hex_digit. destruct (Z.ltb_spec (n mod 16) 10);
    apply andb_true_intro; split; try apply Z.leb_le; try apply Z.ltb_lt; lia.
Qed.

Lemma u_escape_ascii (n : Z) : ascii_only (u_escape n) = true.
Proof.
  unfold u_escape, ascii_only. cbn [forallb].
  rewrite !hex_digit_ascii. reflexivity.
Qed.

Lemma escape_char_ascii (c : Z) : ascii_only (escape_char c) = true.
Proof.
  unfold escape_char.
  repeat match goal with
         | |- context [if ?b then _ else _] =>
             let E := fresh "E" in destruct b eqn:E; try reflexivity
         end;
    rewrite ?ascii_only_app, ?u_escape_ascii; try reflexivity.
  apply andb_prop in E6 as [Hlo Hhi].
  apply Z.leb_le in Hlo. apply Z.leb_le in Hhi.
  unfold ascii_only. cbn [forallb].
  apply andb_true_intro; split; [|reflexivity].
  apply andb_true_intro; split; [apply Z.leb_le|apply Z.ltb_lt]; lia.
Qed.

Lemma encode_basestring_ascii_ascii (s : pystr) :
  ascii_only (encode_basestring_ascii s) = true.
Proof.
  unfold encode_basestring_ascii. rewrite !ascii_only_app.
  replace (ascii_only (flat_map escape_char s)) with true; [reflexivity|].
  induction s as [|c s IH]; [reflexivity|].
  cbn [flat_map]. now rewrite ascii_only_app, escape_char_ascii, <- IH.
Qed.

Lemma dumps_request_ascii action folder cmd :
  ascii_only (dumps_request action folder cmd) = true.
Proof.
  unfold dumps_request, dumps_field.
  rewrite !ascii_only_app, !encode_basestring_ascii_ascii.
  destruct folder, cmd; rewrite ?encode_basestring_ascii_ascii; reflexivity.
Qed.

Lemma decimal_digits_ascii fuel n acc :
  ascii_only acc = true -> ascii_only (decimal_digits fuel n acc) = true.
Proof.
  revert n acc. induction fuel as [|f IH]; intros n acc H; [exact H|].
  cbn [decimal_digits].
  assert (H' : ascii_only ((48 + n mod 10) :: acc) = true).
  { pose proof (Z.mod_pos_bound n 10 ltac:(lia)).
    cbn [ascii_only forallb]. fold (ascii_only acc). rewrite H.
    apply andb_true_intro; split; [|reflexivity].
    apply andb_true_intro; split; [apply Z.leb_le|apply Z.ltb_lt]; lia. }
  destruct (n <? 10); [exact H'|]. now apply IH.
Qed.

Lemma format_08_ascii n : ascii_only (format_08 n) = true.
Proof.
  unfold format_08. rewrite ascii_only_app.
  apply andb_true_intro; split.
  - induction (8 - length (py_str_int n))%nat; [reflexivity|].
    cbn [repeat ascii_only forallb]. exact IHn0.
  - apply decimal_digits_ascii. reflexivity.
Qed.

(** ** The header written by the client is read back by the primary *)

Lemma digit_of_mod (n : Z) : is_digit (48 + n mod 10) = true.
Proof.
  pose proof (Z.mod_pos_bound n 10 ltac:(lia)). unfold is_digit.
  apply andb_true_intro; split; apply Z.leb_le; lia.
Qed.

Lemma decimal_digits_digits fuel n acc :
  digits_only acc = true -> digits_only (decimal_digits fuel n acc) = true.
Proof.
  revert n acc. induction fuel as [|f IH]; intros n acc H; [exact H|].
  cbn [decimal_digits].
  assert (H' : digits_only ((48 + n mod 10) :: acc) = true)
    by (cbn [digits_only forallb]; fold (digits_only acc);
        now rewrite digit_of_mod, H).
  destruct (n <? 10); [exact H'|]. now apply IH.
Qed.

Lemma digits_only_app (a b : pystr) :
  digits_only (a ++ b) = digits_only a && digits_only b.
Proof. apply forallb_app. Qed.

Lemma format_08_digits n : digits_only (format_08 n) = true.
Proof.
  unfold format_08. rewrite digits_only_app.
  apply andb_true_intro; split.
  - induction (8 - length (py_str_int n))%nat as [|k IH]; [reflexivity|].
    cbn [repeat digits_only forallb]. exact IH.
  - apply decimal_digits_digits. reflexivity.
Qed.

Lemma decimal_digits_value fuel n acc :
  0 <= n < 10 ^ Z.of_nat fuel ->
  value 0 (decimal_digits fuel n acc) = value n acc.
Proof.
  revert n acc. induction fuel as [|f IH]; intros n acc Hn.
  - cbn [decimal_digits]. change (10 ^ Z.of_nat 0) with 1 in Hn.
    now replace n with 0 by lia.
  - cbn [decimal_digits].
    rewrite Nat2Z.inj_succ, Z.pow_succ_r in Hn by lia.
    destruct (Z.ltb_spec n 10).
    + unfold value. cbn [fold_left]. f_equal.
      rewrite Z.mod_small by lia. lia.
    + rewrite IH.
      * unfold value. cbn [fold_left]. f_equal.
        pose proof (Z.div_mod n 10 ltac:(lia)). lia.
      * split; [apply Z.div_pos; lia|].
        apply Z.div_lt_upper_bound; lia.
Qed.

Lemma py_str_int_value n : 0 <= n -> value 0 (py_str_int n) = n.
Proof.
  intros Hn. unfold py_str_int. rewrite decimal_digits_value; [reflexivity|].
  split; [exact Hn|].
  rewrite Nat2Z.inj_succ, Z2Nat.id by apply Z.log2_nonneg.
  destruct (Z.eq_dec n 0) as [->|Hne]; [reflexivity|].
  pose proof (Z.log2_spec n ltac:(lia)) as [_ Hlt].
  eapply Z.lt_le_trans; [exact Hlt|].
  apply Z.pow_le_mono_l. pose proof (Z.log2_nonneg n). lia.
Qed.

Lemma format_08_value n : 0 <= n -> value 0 (format_08 n) = n.
Proof.
  intros Hn. unfold format_08.
  induction (8 - length (py_str_int n))%nat as [|k IH].
  - now apply py_str_int_value.
  - cbn [repeat app]. unfold value in *. cbn [fold_left]. exact IH.
Qed.

Lemma decimal_digits_length fuel :
  forall (k : nat) n acc,
    0 <= n < 10 ^ Z.of_nat k -> (1 <= k)%nat ->
    (length (decimal_digits fuel n acc) <= k + length acc)%nat.
Proof.
  induction fuel as [|f IH]; intros k n acc Hn Hk; cbn [decimal_digits];
    [lia|].
  destruct (Z.ltb_spec n 10); [cbn [length]; lia|].
  destruct k as [|[|k]]; [lia| change (10 ^ Z.of_nat 1) with 10 in Hn; lia |].
  specialize (IH (S k) (n / 10) ((48 + n mod 10) :: acc)).
  cbn [length] in IH.
  assert (0 <= n / 10 < 10 ^ Z.of_nat (S k)).
  { rewrite (Nat2Z.inj_succ (S k)), Z.pow_succ_r in Hn by lia.
    split; [apply Z.div_pos; lia|apply Z.div_lt_upper_bound; lia]. }
  specialize (IH ltac:(assumption) ltac:(lia)). lia.
Qed.

Lemma format_08_length n :
  0 <= n < 10 ^ 8 -> length (format_08 n) = 8%nat.
Proof.
  intros Hn. unfold format_08. rewrite length_app, repeat_length.
  pose proof (decimal_digits_length (S (Z.to_nat (Z.log2 n))) 8 n [] Hn
                ltac:(lia)) as H.
  cbn [length] in H. unfold py_str_int. lia.
Qed.

Lemma digit_facts c :
  is_digit c = true ->
  (c <? 127) = true /\ py_isspace c = false /\ (c =? 43) = false
  /\ (c =? 45) = false /\ (c =? 95) = false.
Proof.
  unfold is_digit, py_isspace. intros H.
  apply andb_prop in H as [H1 H2].
  apply Z.leb_le in H1. apply Z.leb_le in H2.
  repeat split;
    repeat match goal with
           | |- context [?a <? ?b] => destruct (Z.ltb_spec a b)
           | |- context [?a <=? ?b] => destruct (Z.leb_spec a b)
           | |- context [?a =? ?b] => destruct (Z.eqb_spec a b)
           end; cbn; try reflexivity; lia.
Qed.

Lemma transform_digits ds :
  digits_only ds = true -> transform_decimal_and_space ds = ds.
Proof.
  induction ds as [|c ds IH]; [reflexivity|].
  cbn [digits_only forallb]. intros H.
  apply andb_prop in H as [Hc Hs].
  destruct (digit_facts c Hc) as (H127 & _).
  cbn [transform_decimal_and_space]. rewrite H127. f_equal. now apply IH.
Qed.

Lemma scan_digits_all ds :
  forall prev acc,
    digits_only ds = true -> (prev =? 95) = false ->
    scan_digits ds prev acc = Some (value acc ds, []).
Proof.
  induction ds as [|c ds IH]; intros prev acc H Hp.
  - cbn [scan_digits]. now rewrite Hp.
  - cbn [digits_only forallb] in H. apply andb_prop in H as [Hc Hs].
    cbn [scan_digits]. rewrite Hc.
    destruct (digit_facts c Hc) as (_ & _ & _ & _ & H95).
    rewrite (IH c _ Hs H95). reflexivity.
Qed.

(** [int] reads a non-empty string of ASCII digits as the number it
    denotes. *)
Lemma py_int_digits ds :
  ds <> [] -> digits_only ds = true -> py_int ds = Some (value 0 ds).
Proof.
  intros Hne Hd. unfold py_int. rewrite (transform_digits _ Hd).
  destruct ds as [|c ds]; [contradiction|].
  pose proof Hd as Hd'. cbn [digits_only forallb] in Hd'.
  apply andb_prop in Hd' as [Hc _].
  destruct (digit_facts c Hc) as (_ & Hsp & H43 & H45 & _).
  cbn [lstrip]. rewrite Hsp. cbn [int_sign]. rewrite H43, H45, Hc.
  rewrite (scan_digits_all _ 0 0 Hd eq_refl). cbn [forallb].
  f_equal. lia.
Qed.

Lemma py_int_format_08 n : 0 <= n < 10 ^ 8 -> py_int (format_08 n) = Some n.
Proof.
  intros Hn. rewrite py_int_digits.
  - now rewrite format_08_value.
  - intros E. pose proof (format_08_length n Hn) as H. rewrite E in H.
    discriminate.
  - apply format_08_digits.
Qed.

Lemma ord_octet c : 0 <= c < 256 -> ord (octet c) = c.
Proof.
  intros Hc. unfold ord, octet.
  destruct (Byte.of_N (Z.to_N c)) as [b|] eqn:E.
  - apply Byte.to_of_N in E. rewrite E. lia.
  - apply Byte.of_N_None_iff in E. lia.
Qed.

Lemma utf8_decode_ascii (s : pystr) :
  ascii_only s = true -> utf8_decode (map octet s) = Some s.
Proof.
  unfold utf8_decode. induction s as [|c s IH]; [reflexivity|].
  cbn [ascii_only forallb]. intros H.
  apply andb_prop in H as [Hc Hs]. apply andb_prop in Hc as [H0 H1].
  apply Z.leb_le in H0. pose proof H1 as H1'. apply Z.ltb_lt in H1'.
  cbn [map]. rewrite ord_octet by lia.
  cbn [utf8_decode_octets]. rewrite H1. rewrite (IH Hs). reflexivity.
Qed.

(** [send_message] never raises: it shows the warning exactly when the
    connection cannot be made, and otherwise writes the header and the
    body. *)
Lemma send_message_total link args :
  exists written,
    send_message link args
    = Some (if waitForConnected link then []
            else ["Unable to connect to the running instance."%string],
            written).
Proof.
  unfold send_message, message_json.
  destruct (waitForConnected link); cbn [negb]; [|eauto].
  rewrite (utf8_encode_ascii _ (dumps_request_ascii _ _ _)).
  rewrite (utf8_encode_ascii _ (format_08_ascii _)). eauto.
Qed.

(** C10, as amended. A process started without [--new] that finds the server
    name taken always exits with status 0.  It shows a warning exactly when
    the connection to the primary cannot be made; whether the bytes were
    written in time is not looked at, so a failed write shows nothing. *)
Theorem client_exits_with_status_zero link args :
  (exists written,
      SingleInstanceApplication_init false link args
      = Exits 0 (if waitForConnected link then []
                 else ["Unable to connect to the running instance."%string])
              written)
  /\ SingleInstanceApplication_init false link args
     = SingleInstanceApplication_init false
         {| waitForConnected := waitForConnected link; write_ok := true;
            waitForBytesWritten := true |} args.
Proof.
  split; [|reflexivity].
  unfold SingleInstanceApplication_init.
  destruct (send_message_total link args) as [written ->]. eauto.
Qed.

Section WithWorld.
Variable world : World.

(** The defect of [read_socket]: when the header is there but the body is not yet
    complete, [read_socket] returns with the header already taken out of
    the buffer, and keeps the length nowhere. *)
Lemma header_is_consumed_on_partial_body app k n :
  8 <= bytesAvailable k ->
  parse_length (firstn 8 (unread k)) = Some n ->
  bytesAvailable k - 8 < n ->
  read_socket world app k
  = (app, {| unread := skipn 8 (unread k); connected := connected k |}, None).
Proof.
  intros H8 Hp Hn. unfold read_socket.
  destruct (Z.ltb_spec (bytesAvailable k) 8); [lia|].
  change (read 8 k)
    with (firstn 8 (unread k),
          {| unread := skipn 8 (unread k); connected := connected k |}).
  cbv iota. rewrite Hp.
  assert (Hb : bytesAvailable
                 {| unread := skipn 8 (unread k); connected := connected k |}
               = bytesAvailable k - 8).
  { unfold bytesAvailable in *. cbn [unread]. rewrite length_skipn. lia. }
  rewrite Hb. destruct (Z.ltb_spec (bytesAvailable k - 8) n); [|lia].
  reflexivity.
Qed.

(** A header that [int] rejects: warning, connection closed, window
    untouched. *)
Lemma invalid_header_is_dropped app k :
  8 <= bytesAvailable k ->
  parse_length (firstn 8 (unread k)) = None ->
  read_socket world app k
  = ({| main_window := main_window app;
        warnings := warnings app
                    ++ ["Received invalid message length."%string] |},
     {| unread := skipn 8 (unread k); connected := false |}, None).
Proof.
  intros H8 Hp. unfold read_socket.
  destruct (Z.ltb_spec (bytesAvailable k) 8); [lia|].
  change (read 8 k)
    with (firstn 8 (unread k),
          {| unread := skipn 8 (unread k); connected := connected k |}).
  cbv iota. rewrite Hp. reflexivity.
Qed.

(** A complete request, whatever its body: the handler gets the decoded
    text, and the connection is closed unless the handler raised. *)
Lemma complete_request_is_handled app k n message window :
  8 <= bytesAvailable k ->
  parse_length (firstn 8 (unread k)) = Some n ->
  0 < n -> n <= bytesAvailable k - 8 ->
  utf8_decode (firstn (Z.to_nat n) (skipn 8 (unread k))) = Some message ->
  main_window app = Some window ->
  read_socket world app k
  = (let '(window', raised) :=
       handle_new_instance_message world message window in
     let k2 := {| unread := skipn (Z.to_nat n) (skipn 8 (unread k));
                  connected := connected k |} in
     match raised with
     | Some e =>
         ({| main_window := Some window'; warnings := warnings app |}, k2,
          Some e)
     | None =>
         ({| main_window := Some window'; warnings := warnings app |},
          disconnectFromServer k2, None)
     end).
Proof.
  intros H8 Hp Hpos Hn Hdec Hwin. unfold read_socket.
  destruct (Z.ltb_spec (bytesAvailable k) 8); [lia|].
  change (read 8 k)
    with (firstn 8 (unread k),
          {| unread := skipn 8 (unread k); connected := connected k |}).
  cbv iota. rewrite Hp.
  assert (Hb : bytesAvailable
                 {| unread := skipn 8 (unread k); connected := connected k |}
               = bytesAvailable k - 8).
  { unfold bytesAvailable in *. cbn [unread]. rewrite length_skipn. lia. }
  rewrite Hb. destruct (Z.ltb_spec (bytesAvailable k - 8) n); [lia|].
  unfold read. cbn [unread connected].
  destruct (firstn (Z.to_nat n) (skipn 8 (unread k))) as [|b bs] eqn:Ef.
  - apply (f_equal (@length byte)) in Ef. rewrite length_firstn in Ef.
    unfold bytesAvailable in *. rewrite length_skipn in Ef.
    cbn [length] in Ef. lia.
  - rewrite Hdec, Hwin.
    destruct (handle_new_instance_message world message window)
      as [window' [e|]]; reflexivity.
Qed.


Lemma firstn_exact {A} (l1 l2 : list A) : firstn (length l1) (l1 ++ l2) = l1.
Proof. induction l1; cbn; congruence. Qed.

Lemma skipn_exact {A} (l1 l2 : list A) : skipn (length l1) (l1 ++ l2) = l2.
Proof. induction l1; cbn; congruence. Qed.

Lemma request_header_length args :
  Z.of_nat (length (request_body args)) < 10 ^ 8 ->
  length (request_header args) = 8%nat.
Proof.
  intros H. unfold request_header. rewrite length_map.
  apply format_08_length. lia.
Qed.

Lemma request_header_parses args :
  Z.of_nat (length (request_body args)) < 10 ^ 8 ->
  parse_length (request_header args)
  = Some (Z.of_nat (length (request_body args))).
Proof.
  intros H. unfold parse_length, request_header.
  rewrite (utf8_decode_ascii _ (format_08_ascii _)).
  apply py_int_format_08. lia.
Qed.

(** Every body starts with the brace, the quote and the word action. *)
Lemma request_body_start args :
  firstn 8 (request_body args)
  = [x7b; x22; x61; x63; x74; x69; x6f; x6e].
Proof. reflexivity. Qed.

Lemma request_body_long args : 8 <= Z.of_nat (length (request_body args)).
Proof.
  pose proof (f_equal (@length byte) (request_body_start args)) as H.
  rewrite length_firstn in H. cbn [length] in H. lia.
Qed.

Lemma request_wire_is_header_and_body args :
  request_wire args = request_header args ++ request_body args.
Proof.
  unfold request_wire, send_message, message_json. cbn [waitForConnected negb].
  rewrite (utf8_encode_ascii _ (dumps_request_ascii _ _ _)).
  rewrite (utf8_encode_ascii _ (format_08_ascii _)). reflexivity.
Qed.

(** The framing in one piece: a request that arrives whole reaches
    [handle_new_instance_message] as the text [json.dumps] produced. *)
Lemma whole_request_reaches_the_handler app args window :
  Z.of_nat (length (request_body args)) < 10 ^ 8 ->
  main_window app = Some window ->
  read_socket world app
    {| unread := request_wire args; connected := true |}
  = (let '(window', raised) :=
       handle_new_instance_message world
         (dumps_request (str "open_new_tab") (or_none (args_folder args))
                        (or_none (args_command args))) window in
     match raised with
     | Some e =>
         ({| main_window := Some window'; warnings := warnings app |},
          {| unread := []; connected := true |}, Some e)
     | None =>
         ({| main_window := Some window'; warnings := warnings app |},
          {| unread := []; connected := false |}, None)
     end).
Proof.
  intros Hlen Hwin. rewrite request_wire_is_header_and_body.
  pose proof (request_header_length args Hlen) as Hh.
  pose proof (request_body_long args) as Hb.
  set (h := request_header args) in *. set (b := request_body args) in *.
  assert (H1 : firstn 8 (h ++ b) = h) by (rewrite <- Hh; apply firstn_exact).
  assert (H2 : skipn 8 (h ++ b) = b) by (rewrite <- Hh; apply skipn_exact).
  rewrite (complete_request_is_handled app _ (Z.of_nat (length b))
             (dumps_request (str "open_new_tab") (or_none (args_folder args))
                            (or_none (args_command args))) window).
  - cbn [unread connected]. rewrite H2, Nat2Z.id, skipn_all.
    destruct (handle_new_instance_message world _ window) as [w' [e|]];
      reflexivity.
  - unfold bytesAvailable. cbn [unread]. rewrite length_app. lia.
  - cbn [unread]. rewrite H1. now apply request_header_parses.
  - lia.
  - unfold bytesAvailable. cbn [unread]. rewrite length_app. lia.
  - cbn [unread]. rewrite H2, Nat2Z.id, firstn_all.
    apply utf8_decode_ascii, dumps_request_ascii.
  - exact Hwin.
Qed.

(** The same defect for every request: when the header arrives before
    the body, the request is dropped with the warning and the window is left
    as it was. *)
Lemma split_request_is_dropped app args :
  Z.of_nat (length (request_body args)) < 10 ^ 8 ->
  receive world [request_header args; request_body args] app
  = ({| main_window := main_window app;
        warnings := warnings app
                    ++ ["Received invalid message length."%string] |},
     {| unread := skipn 8 (request_body args); connected := false |}).
Proof.
  intros Hlen.
  pose proof (request_header_length args Hlen) as Hh.
  pose proof (request_header_parses args Hlen) as Hp.
  pose proof (request_body_long args) as Hb.
  pose proof (request_body_start args) as Hs.
  set (h := request_header args) in *. set (b := request_body args) in *.
  unfold receive. cbn [fold_left].
  assert (E1 : ready_read world h (app, {| unread := []; connected := true |})
               = (app, {| unread := []; connected := true |})).
  { unfold ready_read. destruct h as [|x h'] eqn:Eh; [discriminate|].
    set (hh := x :: h') in *. cbn [connected unread List.app].
    rewrite (header_is_consumed_on_partial_body app _
               (Z.of_nat (length b))).
    - cbn [fst unread connected]. f_equal. f_equal.
      rewrite <- Hh. apply skipn_all.
    - unfold bytesAvailable. cbn [unread]. lia.
    - cbn [unread]. replace (firstn 8 hh) with hh; [exact Hp|].
      rewrite <- Hh. symmetry. apply firstn_all.
    - unfold bytesAvailable. cbn [unread]. lia. }
  rewrite E1. unfold ready_read.
  destruct b as [|x b'] eqn:Eb; [cbn [length] in Hb; lia|].
  set (bb := x :: b') in *. cbn [connected unread List.app].
  rewrite invalid_header_is_dropped.
  - reflexivity.
  - unfold bytesAvailable. cbn [unread]. lia.
  - cbn [unread]. rewrite Hs. reflexivity.
Qed.

End WithWorld.



(** Counterexample to C10 as stated: when the connection is made and the
    write is not confirmed, the client exits with status 0 and has shown no
    warning. *)
Lemma failed_write_shows_no_warning :
  SingleInstanceApplication_init false
    {| waitForConnected := true; write_ok := false;
       waitForBytesWritten := false |} plain_args
  = Exits 0 [] (request_wire plain_args).
Proof. vm_compute. reflexivity. Qed.

(** C1: the request of a plain command line opens a second tab when its 67
    bytes arrive at once, and also when the first chunk is shorter than the
    header; but when the body arrives after the header, or the bytes arrive
    one by one, the second reading takes the first eight bytes of the body
    for a header, and the request is dropped with a warning. *)
Theorem request_in_chunks_is_dropped :
  let wire := request_wire plain_args in
  map ord wire
  = quoted "00000059{'action': 'open_new_tab', 'folder': null, 'command': null}"
  /\ observe (receive calm [wire] fresh_primary)
     = (Some [1%nat; 2%nat], [], false)
  /\ observe (receive calm [firstn 5 wire; skipn 5 wire] fresh_primary)
     = (Some [1%nat; 2%nat], [], false)
  /\ observe (receive calm [firstn 8 wire; skipn 8 wire] fresh_primary)
     = (Some [1%nat], ["Received invalid message length."%string], false)
  /\ observe (receive calm (map (fun b => [b]) wire) fresh_primary)
     = (Some [1%nat], ["Received invalid message length."%string], false).
Proof. vm_compute. repeat split. Qed.

End IpcFacts.

(* ================================================================== *)
(** * Facts about the resize debounce *)
(* ================================================================== *)

Module DebounceFacts.
Import Debounce.

Lemma resize_event_quiet t sz w :
  quiet_until t w ->
  resize_event t sz w
  = {| size := sz; resize_timer := Some (t + 50); resized := resized w |}.
Proof.
  unfold quiet_until, resize_event, advance.
  destruct (resize_timer w) as [d|]; [|reflexivity].
  intros H. destruct (Z.leb_spec d t); [lia|reflexivity].
Qed.

Lemma advance_due T w deadline :
  resize_timer w = Some deadline ->
  deadline <= T ->
  advance T w
  = {| size := size w; resize_timer := None;
       resized := resized w ++ [size w] |}.
Proof.
  intros E H. unfold advance. rewrite E.
  destruct (Z.leb_spec deadline T); [reflexivity|lia].
Qed.

Lemma last_default {A} (l : list A) (x d d' : A) :
  last (x :: l) d = last (x :: l) d'.
Proof.
  revert x. induction l as [|y l IH]; intros x; [reflexivity|].
  change (last (y :: l) d = last (y :: l) d'). apply IH.
Qed.

Lemma last_cons {A} (l : list A) (x d : A) : last (x :: l) d = last l x.
Proof.
  destruct l as [|y l]; [reflexivity|].
  change (last (y :: l) d = last (y :: l) x). apply last_default.
Qed.

(** A burst leaves the timer armed 50 ms after its last notification, the
    size of that notification in place, and has called nothing. *)
Lemma notify_all_burst events :
  forall w t0 sz0,
    quiet_until t0 w ->
    within_window t0 events ->
    notify_all ((t0, sz0) :: events) w
    = {| size := snd (last events (t0, sz0));
         resize_timer := Some (fst (last events (t0, sz0)) + 50);
         resized := resized w |}.
Proof.
  induction events as [|[t1 sz1] rest IH]; intros w t0 sz0 Hq Hw.
  - cbn [notify_all fold_left last fst snd]. now apply resize_event_quiet.
  - destruct Hw as [Ht Hrest]. cbn [fst] in Ht, Hrest.
    change (notify_all ((t0, sz0) :: (t1, sz1) :: rest) w)
      with (notify_all ((t1, sz1) :: rest) (resize_event t0 sz0 w)).
    rewrite (resize_event_quiet _ _ _ Hq).
    rewrite IH; [|unfold quiet_until; cbn [resize_timer]; lia|exact Hrest].
    cbn [resized].
    now rewrite last_cons.
Qed.

(** C8. On a surface with no timer due, a burst of notifications, each less
    than 50 ms after the one before, calls [resize_terminal] not at all
    while it lasts and exactly once when the loop reaches 50 ms after the
    last notification, with the size of the last notification; the timer is
    then idle, so nothing more fires however long the loop runs. *)
Theorem burst_gives_one_resize w t0 sz0 events T
        (Hquiet : quiet_until t0 w)
        (Hburst : within_window t0 events)
        (Hlate : fst (last events (t0, sz0)) + 50 <= T) :
  let w' := notify_all ((t0, sz0) :: events) w in
  resized w' = resized w
  /\ (forall t, t < fst (last events (t0, sz0)) + 50 -> advance t w' = w')
  /\ resized (advance T w') = resized w ++ [snd (last events (t0, sz0))]
  /\ resize_timer (advance T w') = None
  /\ (forall T', advance T' (advance T w') = advance T w').
Proof.
  cbv zeta. rewrite (notify_all_burst events w t0 sz0 Hquiet Hburst).
  split; [reflexivity|]. split.
  - intros t Ht. unfold advance. cbn [resize_timer].
    destruct (Z.leb_spec (fst (last events (t0, sz0)) + 50) t); [lia|].
    reflexivity.
  - rewrite (advance_due T
               {| size := snd (last events (t0, sz0));
                  resize_timer := Some (fst (last events (t0, sz0)) + 50);
                  resized := resized w |}
               (fst (last events (t0, sz0)) + 50) eq_refl Hlate).
    cbn [size resized resize_timer].
    split; [reflexivity|]. split; [reflexivity|]. intros T'. reflexivity.
Qed.

(** A burst of four notifications between 0 and 100 ms on an idle surface:
    one call, at or after 150 ms, with the last size. *)
Lemma burst_gives_one_resize_witness :
  let w := {| size := (800, 600); resize_timer := None; resized := [] |} in
  let events := [(10, (810, 600)); (55, (820, 610)); (100, (900, 700))] in
  quiet_until 0 w
  /\ within_window 0 events
  /\ fst (last events (0, (805, 600))) + 50 <= 150
  /\ resized (advance 150 (notify_all ((0, (805, 600)) :: events) w))
     = [(900, 700)].
Proof.
  cbv zeta.
  assert (Hq : quiet_until 0
                 {| size := (800, 600); resize_timer := None; resized := [] |})
    by exact I.
  assert (Hb : within_window 0
                 [(10, (810, 600)); (55, (820, 610)); (100, (900, 700))])
    by (cbn; lia).
  assert (Hl : fst (last [(10, (810, 600)); (55, (820, 610)); (100, (900, 700))]
                         (0, (805, 600))) + 50 <= 150)
    by (cbn; lia).
  split; [exact Hq|]. split; [exact Hb|]. split; [exact Hl|].
  exact (proj1 (proj2 (proj2
           (burst_gives_one_resize _ 0 (805, 600) _ 150 Hq Hb Hl)))).
Defined.

End DebounceFacts.

(* ================================================================== *)
(** * Facts about requests: from the command line to the new tab *)
(* ================================================================== *)

Module RequestFacts.
Import Py Json Qt Terminal Ipc Request QtFacts PaneFacts IpcFacts.

(** ** What [json.dumps] writes, [json.loads] reads *)

Lemma hexval_hex_digit d : 0 <= d < 16 -> hexval (hex_digit d) = Some d.
Proof.
  intros H. unfold hex_digit, hexval.
  destruct (Z.ltb_spec d 10).
  - replace ((48 <=? 48 + d) && (48 + d <=? 57)) with true
      by (symmetry; apply andb_true_intro; split; apply Z.leb_le; lia).
    f_equal. lia.
  - replace ((48 <=? 87 + d) && (87 + d <=? 57)) with false
      by (symmetry; apply andb_false_intro2; apply Z.leb_gt; lia).
    replace ((97 <=? 87 + d) && (87 + d <=? 102)) with true
      by (symmetry; apply andb_true_intro; split; apply Z.leb_le; lia).
    f_equal. lia.
Qed.

Lemma hex4_u_escape n :
  0 <= n < 65536 ->
  exists a b c d,
    u_escape n = [92; 117; a; b; c; d] /\ hex4 a b c d = Some n.
Proof.
  intros H. unfold u_escape. do 4 eexists. split; [reflexivity|].
  unfold hex4.
  rewrite !hexval_hex_digit by (apply Z.mod_pos_bound; lia).
  f_equal.
  pose proof (Z.div_mod n 16 ltac:(lia)).
  pose proof (Z.div_mod (n / 16) 16 ltac:(lia)).
  pose proof (Z.div_mod (n / 16 / 16) 16 ltac:(lia)).
  rewrite (Z.mod_small (n / 4096) 16)
    by (split; [apply Z.div_pos; lia|apply Z.div_lt_upper_bound; lia]).
  replace (n / 256) with (n / 16 / 16) by (rewrite Z.div_div by lia; reflexivity).
  replace (n / 4096) with (n / 16 / 16 / 16)
    by (rewrite !Z.div_div by lia; reflexivity).
  assert (n / 16 / 16 / 16 < 16).
  { rewrite !Z.div_div by lia. apply Z.div_lt_upper_bound; lia. }
  assert (0 <= n / 16 / 16 / 16) by (rewrite !Z.div_div by lia; apply Z.div_pos; lia).
  pose proof (Z.div_mod (n / 16 / 16) 16 ltac:(lia)).
  assert ((n / 16 / 16) mod 16 = n / 16 / 16 - 16 * (n / 16 / 16 / 16)) by lia.
  lia.
Qed.

Lemma scanstring_u u a b c d R :
  hex4 a b c d = Some u -> is_high_surrogate u = false ->
  scanstring (92 :: 117 :: a :: b :: c :: d :: R) = push u (scanstring R).
Proof.
  intros Hh Hs. cbn [scanstring]. 
  change (92 =? 34) with false. change (92 =? 92) with true.
  change (117 =? 117) with true. cbv iota. rewrite Hh, Hs.
  destruct R as [|x1 [|x2 [|x3 [|x4 [|x5 [|x6 R]]]]]]; try reflexivity.
  destruct (hex4 x3 x4 x5 x6); reflexivity.
Qed.

Lemma scanstring_pair hi lo a b c d e f g h R :
  hex4 a b c d = Some hi -> hex4 e f g h = Some lo ->
  is_high_surrogate hi = true -> is_low_surrogate lo = true ->
  scanstring (92 :: 117 :: a :: b :: c :: d :: 92 :: 117 :: e :: f :: g :: h :: R)
  = push (65536 + (hi - 55296) * 1024 + (lo - 56320)) (scanstring R).
Proof.
  intros H1 H2 H3 H4. cbn [scanstring].
  change (92 =? 34) with false. change (92 =? 92) with true.
  change (117 =? 117) with true. cbv iota. rewrite H1, H2, H3, H4.
  reflexivity.
Qed.

Ltac zbool :=
  repeat match goal with
         | H : (_ <=? _) = true |- _ => apply Z.leb_le in H
         | H : (_ <=? _) = false |- _ => apply Z.leb_gt in H
         | H : (_ <? _) = true |- _ => apply Z.ltb_lt in H
         | H : (_ <? _) = false |- _ => apply Z.ltb_ge in H
         | H : (_ =? _) = true |- _ => apply Z.eqb_eq in H
         | H : (_ =? _) = false |- _ => apply Z.eqb_neq in H
         | H : (_ && _) = true |- _ => apply andb_prop in H; destruct H
         | H : negb _ = true |- _ => apply negb_true_iff in H
         end.

(** One character written by [json.dumps] is read back by [scanstring]. *)
Lemma scanstring_escape_char c R :
  argv_char c = true ->
  scanstring (escape_char c ++ R) = push c (scanstring R).
Proof.
  unfold argv_char. intros H. zbool.
  rename H into Hhs. 
  unfold escape_char.
  destruct (Z.eqb_spec c 34) as [->|N34]; [reflexivity|].
  destruct (Z.eqb_spec c 92) as [->|N92]; [reflexivity|].
  destruct (Z.eqb_spec c 10) as [->|N10]; [reflexivity|].
  destruct (Z.eqb_spec c 13) as [->|N13]; [reflexivity|].
  destruct (Z.eqb_spec c 9) as [->|N9]; [reflexivity|].
  destruct (Z.eqb_spec c 8) as [->|N8]; [reflexivity|].
  destruct (Z.eqb_spec c 12) as [->|N12]; [reflexivity|].
  destruct ((32 <=? c) && (c <=? 126)) eqn:Ep.
  - zbool. cbn [app scanstring].
    destruct (Z.eqb_spec c 34); [lia|]. destruct (Z.eqb_spec c 92); [lia|].
    destruct (Z.leb_spec c 31); [lia|]. reflexivity.
  - destruct (Z.ltb_spec c 65536) as [Hb|Hb].
    + destruct (hex4_u_escape c ltac:(lia)) as (a & b & d & e & -> & Hh).
      cbn [app]. now apply scanstring_u.
    + set (n := c - 65536).
      assert (Hn : 0 <= n < 1048576) by (unfold n; lia).
      assert (Hq : 0 <= n / 1024 < 1024)
        by (split; [apply Z.div_pos; lia|apply Z.div_lt_upper_bound; lia]).
      pose proof (Z.mod_pos_bound n 1024 ltac:(lia)) as Hm.
      rewrite (Z.mod_small (n / 1024) 1024) by lia.
      destruct (hex4_u_escape (55296 + n / 1024) ltac:(lia))
        as (a1 & b1 & c1 & d1 & -> & Hh1).
      destruct (hex4_u_escape (56320 + n mod 1024) ltac:(lia))
        as (a2 & b2 & c2 & d2 & -> & Hh2).
      cbn [app].
      rewrite (scanstring_pair _ _ _ _ _ _ _ _ _ _ R Hh1 Hh2).
      * f_equal. pose proof (Z.div_mod n 1024 ltac:(lia)). unfold n in *. lia.
      * unfold is_high_surrogate. apply andb_true_intro; split; apply Z.leb_le; lia.
      * unfold is_low_surrogate. apply andb_true_intro; split; apply Z.leb_le; lia.
Qed.

(** A string literal written by [json.dumps] is read back by [scanstring]
    up to its closing quote. *)
Lemma scanstring_flat_map s rest :
  argv_text s = true ->
  scanstring (flat_map escape_char s ++ 34 :: rest) = Some (s, rest).
Proof.
  induction s as [|c s IH]; intros H.
  - reflexivity.
  - cbn [argv_text forallb] in H. apply andb_prop in H as [Hc Hs].
    cbn [flat_map]. rewrite <- app_assoc.
    rewrite scanstring_escape_char by exact Hc.
    rewrite IH by exact Hs. reflexivity.
Qed.

Lemma encode_basestring_ascii_cons s rest :
  encode_basestring_ascii s ++ rest
  = 34 :: flat_map escape_char s ++ 34 :: rest.
Proof.
  unfold encode_basestring_ascii. cbn [app]. now rewrite <- app_assoc.
Qed.

Lemma scan_once_field f v rest :
  field_text v = true ->
  scan_once (S f) (dumps_field v ++ rest) = Ok (of_optional v) rest.
Proof.
  destruct v as [s|]; cbn [field_text dumps_field of_optional]; intros H.
  - rewrite encode_basestring_ascii_cons. cbn [scan_once].
    change (34 =? 34) with true. cbv iota.
    now rewrite scanstring_flat_map.
  - reflexivity.
Qed.

Lemma skip_ws_field v rest :
  skip_ws (dumps_field v ++ rest) = dumps_field v ++ rest.
Proof.
  destruct v as [s|]; [|reflexivity].
  cbn [dumps_field]. rewrite encode_basestring_ascii_cons. reflexivity.
Qed.

Lemma skip_ws_keep c r : is_ws c = false -> skip_ws (c :: r) = c :: r.
Proof. intros H. cbn [skip_ws]. now rewrite H. Qed.

Lemma skip_ws_drop c r : is_ws c = true -> skip_ws (c :: r) = skip_ws r.
Proof. intros H. cbn [skip_ws]. now rewrite H. Qed.

(** One member of the request object: its key, a colon and a space, its
    value; what follows decides how the scan goes on. *)
Lemma parse_object_member f key v tail acc :
  argv_text key = true -> field_text v = true ->
  parse_object (S (S f))
    (encode_basestring_ascii key ++ str ": " ++ dumps_field v ++ tail) acc
  = match skip_ws tail with
    | [] => Bad
    | d :: s4 =>
        if d =? 125 then Ok (PDict (dict_set acc key (of_optional v))) s4
        else if d =? 44
             then parse_object (S f) (skip_ws s4)
                    (dict_set acc key (of_optional v))
             else Bad
    end.
Proof.
  intros Hk Hv. rewrite encode_basestring_ascii_cons.
  remember (S f) as g eqn:Eg.
  cbn [parse_object]. change (34 =? 34) with true. cbv iota.
  rewrite scanstring_flat_map by exact Hk.
  change (str ": " ++ ?x) with (58 :: 32 :: x).
  rewrite (skip_ws_keep 58) by reflexivity.
  change (58 =? 58) with true. cbv iota.
  rewrite (skip_ws_drop 32) by reflexivity.
  subst g. rewrite skip_ws_field, scan_once_field by exact Hv.
  reflexivity.
Qed.

Lemma scan_once_dumps_request k action folder cmd :
  argv_text action = true -> field_text folder = true ->
  field_text cmd = true ->
  scan_once (5 + k) (dumps_request action folder cmd)
  = Ok (PDict [(str "action", PStr action);
               (str "folder", of_optional folder);
               (str "command", of_optional cmd)]) [].
Proof.
  intros Ha Hf Hc. unfold dumps_request.
  change (str "{" ++ ?x) with (123 :: x).
  change (5 + k)%nat with (S (S (S (S (S k))))).
  remember (S (S (S (S k)))) as g eqn:Eg.
  cbn [scan_once]. change (123 =? 34) with false. change (123 =? 123) with true.
  cbv iota.
  change (encode_basestring_ascii (str "action") ++ ?x)
    with (34 :: str "action" ++ 34 :: x).
  rewrite (skip_ws_keep 34) by reflexivity.
  change (34 =? 125) with false. cbv iota.
  change (34 :: str "action" ++ 34 :: ?x)
    with (encode_basestring_ascii (str "action") ++ x).
  change (encode_basestring_ascii action) with (dumps_field (Some action)).
  subst g.
  rewrite parse_object_member by (exact Ha || reflexivity).
  change (str ", " ++ ?x) with (44 :: 32 :: x).
  rewrite (skip_ws_keep 44) by reflexivity.
  change (44 =? 125) with false. change (44 =? 44) with true. cbv iota.
  rewrite (skip_ws_drop 32) by reflexivity.
  change (encode_basestring_ascii (str "folder") ++ ?x)
    with (34 :: str "folder" ++ 34 :: x).
  rewrite (skip_ws_keep 34) by reflexivity.
  change (34 :: str "folder" ++ 34 :: ?x)
    with (encode_basestring_ascii (str "folder") ++ x).
  rewrite parse_object_member by (exact Hf || reflexivity).
  change (str ", " ++ ?x) with (44 :: 32 :: x).
  rewrite (skip_ws_keep 44) by reflexivity.
  change (44 =? 125) with false. change (44 =? 44) with true. cbv iota.
  rewrite (skip_ws_drop 32) by reflexivity.
  change (encode_basestring_ascii (str "command") ++ ?x)
    with (34 :: str "command" ++ 34 :: x).
  rewrite (skip_ws_keep 34) by reflexivity.
  change (34 :: str "command" ++ 34 :: ?x)
    with (encode_basestring_ascii (str "command") ++ x).
  rewrite parse_object_member by (exact Hc || reflexivity).
  reflexivity.
Qed.

(** [json.loads] reads the request [json.dumps] wrote: the same three keys
    in the same order, each text value as it was and [None] for null. *)
Lemma json_loads_dumps_request action folder cmd :
  argv_text action = true -> field_text folder = true ->
  field_text cmd = true ->
  json_loads (dumps_request action folder cmd)
  = Loaded (PDict [(str "action", PStr action);
                   (str "folder", of_optional folder);
                   (str "command", of_optional cmd)]).
Proof.
  intros Ha Hf Hc. unfold json_loads.
  assert (Hs : exists r, dumps_request action folder cmd = 123 :: 34 :: r)
    by (eexists; reflexivity).
  destruct Hs as [r Hs].
  assert (Hk : exists k,
             (2 * length (dumps_request action folder cmd) + 2 = 5 + k)%nat).
  { rewrite Hs. cbn [length]. exists (2 * length r + 1)%nat. lia. }
  destruct Hk as [k ->].
  replace (starts_with_bom (dumps_request action folder cmd)) with false
    by (rewrite Hs; reflexivity).
  replace (skip_ws (dumps_request action folder cmd))
    with (dumps_request action folder cmd)
    by (rewrite Hs; reflexivity).
  rewrite scan_once_dumps_request by assumption. reflexivity.
Qed.

(** ** One connection *)

Section WithWorld.
Variable world : World.

(** What [read_socket] can do to the window: leave it, or run the handler,
    and then the connection is closed unless the handler raised. *)
Lemma handler_raised_keeps_window message s e :
  snd (handle_new_instance_message world message s) = Some e ->
  fst (handle_new_instance_message world message s) = s.
Proof.
  unfold handle_new_instance_message.
  destruct (json_loads message) as [v| |]; cbn [fst snd]; try discriminate;
    [|reflexivity].
  destruct v; cbn [fst snd]; try reflexivity.
  destruct (dict_get d (str "action")); cbn [fst snd]; try discriminate.
  destruct (pystr_eqb s0 (str "open_new_tab")); cbn [fst snd];
    [|discriminate].
  destruct (truthy (dict_get d (str "folder"))); cbn [fst snd];
    [|discriminate].
  destruct (os_path_isdir world (dict_get d (str "folder"))) as [[|]|];
    cbn [fst snd]; try discriminate. reflexivity.
Qed.

Lemma read_socket_cases app k window :
  main_window app = Some window ->
  let '(app', k', raised) := read_socket world app k in
  (main_window app' = Some window /\ (connected k = false -> connected k' = false))
  \/ (exists directory cmd,
         main_window app'
         = Some (add_terminal_tab world directory cmd (str "main") window)
         /\ connected k' = false).
Proof.
  intros Hw. unfold read_socket.
  destruct (bytesAvailable k <? 8); [left; auto|].
  unfold read. cbn [unread connected].
  destruct (parse_length (firstn (Z.to_nat 8) (unread k))) as [n|];
    [|left; cbn [main_window connected disconnectFromServer]; auto].
  cbn [bytesAvailable unread connected].
  destruct (_ <? n); [left; cbn; auto|].
  cbn [unread connected].
  destruct (firstn (Z.to_nat n) _) as [|b bs] eqn:Ef;
    [left; cbn; auto|].
  destruct (utf8_decode (b :: bs)) as [message|]; [|left; cbn; auto].
  rewrite Hw.
  destruct (handle_new_instance_message world message window)
    as [window' raised] eqn:Eh.
  destruct raised as [e|].
  - left. cbn [main_window connected]. split; [|auto].
    pose proof (handler_raised_keeps_window message window e) as H.
    rewrite Eh in H. cbn [fst snd] in H. now rewrite H.
  - destruct (handle_new_instance_message_cases world message window)
      as [H | (directory & cmd & H)]; rewrite Eh in H; cbn [fst] in H.
    + left. cbn. subst. auto.
    + right. exists directory, cmd. cbn. subst. auto.
Qed.

Lemma ready_read_served window chunk st :
  served world window st -> served world window (ready_read world chunk st).
Proof.
  intros H. destruct st as [app k]. unfold ready_read.
  destruct chunk as [|b chunk]; [exact H|].
  destruct (connected k) eqn:Ek; [|exact H].
  destruct H as [H | (directory & cmd & _ & H)];
    [|cbn [snd] in H; congruence].
  cbn [fst] in H.
  pose proof (read_socket_cases app
                {| unread := unread k ++ b :: chunk; connected := true |}
                window H) as C.
  destruct (read_socket world app _) as [[app' k'] raised].
  cbn [fst]. destruct C as [[C _] | (directory & cmd & C1 & C2)].
  - left. exact C.
  - right. exists directory, cmd. auto.
Qed.

Lemma receive_served window chunks :
  forall st, served world window st ->
             served world window
               (fold_left (fun st chunk => ready_read world chunk st) chunks st).
Proof.
  induction chunks as [|c chunks IH]; intros st H; cbn [fold_left];
    [exact H|].
  apply IH. now apply ready_read_served.
Qed.

(** X4. Whatever bytes one connection delivers, in whatever pieces, the
    window gets at most one tab from it, in its main pane. *)
Theorem one_connection_opens_at_most_one_tab chunks app window
        (Hwin : main_window app = Some window) :
  let st := receive world chunks app in
  main_window (fst st) = Some window
  \/ (exists directory cmd,
         main_window (fst st)
         = Some (add_terminal_tab world directory cmd (str "main") window)
         /\ connected (snd st) = false).
Proof.
  cbv zeta. unfold receive.
  apply (receive_served window chunks). left. exact Hwin.
Qed.

(** Pieces that together are shorter than the header wait in the buffer. *)
Lemma short_pieces_wait pieces :
  forall app buffer,
    (length buffer + length (concat pieces) < 8)%nat ->
    fold_left (fun st chunk => ready_read world chunk st) pieces
      (app, {| unread := buffer; connected := true |})
    = (app, {| unread := buffer ++ concat pieces; connected := true |}).
Proof.
  induction pieces as [|p pieces IH]; intros app buffer H;
    cbn [fold_left concat] in *.
  - now rewrite app_nil_r.
  - rewrite length_app in H.
    assert (E : ready_read world p
                  (app, {| unread := buffer; connected := true |})
                = (app, {| unread := buffer ++ p; connected := true |})).
    { unfold ready_read. destruct p as [|b p]; [now rewrite app_nil_r|].
      cbn [connected unread]. unfold read_socket, bytesAvailable.
      cbn [unread].
      destruct (Z.ltb_spec (Z.of_nat (length (buffer ++ b :: p))) 8);
        [reflexivity|].
      rewrite length_app in *. lia. }
    rewrite E, IH by (rewrite length_app; lia).
    now rewrite <- app_assoc.
Qed.

(** X3. A connection whose first pieces together are shorter than the eight
    header bytes is served as if those pieces and the next one had come as
    one. *)
Theorem pieces_before_the_header_are_harmless pieces chunk rest app
        (Hshort : (length (concat pieces) < 8)%nat) :
  receive world (pieces ++ chunk :: rest) app
  = receive world ((concat pieces ++ chunk) :: rest) app.
Proof.
  unfold receive. rewrite fold_left_app.
  rewrite short_pieces_wait by (cbn [length]; lia).
  cbn [fold_left List.app]. f_equal.
  unfold ready_read. cbn [connected unread List.app].
  destruct chunk as [|b chunk].
  - rewrite app_nil_r. destruct (concat pieces) as [|c cs] eqn:E;
      [reflexivity|].
    unfold read_socket, bytesAvailable. cbn [unread].
    destruct (Z.ltb_spec (Z.of_nat (length (c :: cs))) 8); [reflexivity|].
    cbn [length] in *. lia.
  - destruct (concat pieces ++ b :: chunk) as [|c cs] eqn:E.
    + destruct (concat pieces); discriminate.
    + reflexivity.
Qed.

End WithWorld.

(** ** The request of a command line *)

Section Requests.
Variable world : World.

Lemma field_text_or_none v : field_text v = true -> field_text (or_none v) = true.
Proof. destruct v as [[|c s]|]; auto. Qed.

Lemma escape_char_length c : (length (escape_char c) <= 12)%nat.
Proof.
  unfold escape_char.
  repeat match goal with
         | |- context [if ?b then _ else _] => destruct b
         end; cbn; lia.
Qed.

Lemma flat_map_escape_length s :
  (length (flat_map escape_char s) <= 12 * length s)%nat.
Proof.
  induction s as [|c s IH]; [cbn; lia|].
  cbn [flat_map]. rewrite length_app. pose proof (escape_char_length c).
  cbn [length]. lia.
Qed.

Lemma dumps_field_length v :
  (length (dumps_field v) <= 4 + 12 * text_length v)%nat.
Proof.
  destruct v as [s|]; cbn [dumps_field text_length]; [|cbn; lia].
  unfold encode_basestring_ascii. rewrite !length_app.
  pose proof (flat_map_escape_length s). cbn [length]. lia.
Qed.

Lemma text_length_or_none v : (text_length (or_none v) <= text_length v)%nat.
Proof. destruct v as [[|c s]|]; cbn; lia. Qed.

(** The body of a request is at most 59 bytes and twelve for each character
    of the folder and of the command. *)
Lemma request_body_length args :
  (length (request_body args)
   <= 59 + 12 * (text_length (args_folder args)
                 + text_length (args_command args)))%nat.
Proof.
  unfold request_body, dumps_request. rewrite length_map, !length_app.
  pose proof (dumps_field_length (or_none (args_folder args))).
  pose proof (dumps_field_length (or_none (args_command args))).
  pose proof (text_length_or_none (args_folder args)).
  pose proof (text_length_or_none (args_command args)).
  change (length (str "{")) with 1%nat.
  change (length (encode_basestring_ascii (str "action"))) with 8%nat.
  change (length (str ": ")) with 2%nat.
  change (length (encode_basestring_ascii (str "open_new_tab"))) with 14%nat.
  change (length (str ", ")) with 2%nat.
  change (length (encode_basestring_ascii (str "folder"))) with 8%nat.
  change (length (encode_basestring_ascii (str "command"))) with 9%nat.
  change (length (str "}")) with 1%nat.
  lia.
Qed.

Lemma handle_request_text args window :
  field_text (args_folder args) = true ->
  field_text (args_command args) = true ->
  (forall f, os_path_isdir world (PStr f) <> None) ->
  handle_new_instance_message world
    (dumps_request (str "open_new_tab") (or_none (args_folder args))
                   (or_none (args_command args))) window
  = (add_terminal_tab world (requested_directory world args)
       (requested_command args) (str "main") window, None).
Proof.
  intros Hf Hc Hisdir. unfold handle_new_instance_message.
  rewrite json_loads_dumps_request
    by (try reflexivity; now apply field_text_or_none).
  change (dict_get _ (str "action")) with (PStr (str "open_new_tab")).
  change (dict_get _ (str "folder"))
    with (of_optional (or_none (args_folder args))).
  change (dict_get _ (str "command"))
    with (of_optional (or_none (args_command args))).
  change (pystr_eqb (str "open_new_tab") (str "open_new_tab")) with true.
  cbv iota. unfold requested_directory, requested_command.
  destruct (args_folder args) as [[|c f]|]; cbn [or_none of_optional truthy];
    try reflexivity.
  specialize (Hisdir (c :: f)).
  destruct (os_path_isdir world (PStr (c :: f))) as [[|]|];
    [reflexivity|reflexivity|contradiction].
Qed.

End Requests.

(** X1. The request a client builds from its command line is read back by
    the primary field by field: encoded to bytes and decoded again, then
    parsed, it is an object whose action is open_new_tab and whose folder
    and command are the texts given, or [None] for one that is missing or
    empty. *)
Theorem request_round_trip args
        (Hfolder : field_text (args_folder args) = true)
        (Hcommand : field_text (args_command args) = true) :
  exists body text data,
    message_json args = Some body
    /\ utf8_decode body = Some text
    /\ json_loads text = Loaded (PDict data)
    /\ dict_get data (str "action") = PStr (str "open_new_tab")
    /\ dict_get data (str "folder") = of_optional (or_none (args_folder args))
    /\ dict_get data (str "command")
       = of_optional (or_none (args_command args)).
Proof.
  unfold message_json.
  set (text := dumps_request (str "open_new_tab") (or_none (args_folder args))
                             (or_none (args_command args))).
  exists (map octet text), text. eexists.
  split; [apply utf8_encode_ascii, dumps_request_ascii|].
  split; [apply utf8_decode_ascii, dumps_request_ascii|].
  split; [apply json_loads_dumps_request;
          try reflexivity; now apply field_text_or_none|].
  repeat split.
Qed.

Lemma request_round_trip_witness :
  field_text (args_folder tmp_ls_args) = true
  /\ field_text (args_command tmp_ls_args) = true
  /\ exists body text data,
       message_json tmp_ls_args = Some body
       /\ utf8_decode body = Some text
       /\ json_loads text = Loaded (PDict data)
       /\ dict_get data (str "action") = PStr (str "open_new_tab")
       /\ dict_get data (str "folder") = PStr (str "/tmp")
       /\ dict_get data (str "command") = PStr (str "ls").
Proof.
  split; [reflexivity|]. split; [reflexivity|].
  exact (request_round_trip tmp_ls_args eq_refl eq_refl).
Defined.

Section Delivered.
Variable world : World.

(** X2. A request that reaches the primary in one piece opens exactly the
    tab the command line asked for: in the folder when it is a directory,
    with the command when one was given; the connection is then closed and
    nothing is left unread. *)
Theorem request_opens_the_requested_tab app window args
        (Hfolder : field_text (args_folder args) = true)
        (Hcommand : field_text (args_command args) = true)
        (Hshort : Z.of_nat (text_length (args_folder args)
                            + text_length (args_command args)) <= 8000000)
        (Hisdir : forall f, os_path_isdir world (PStr f) <> None)
        (Hwin : main_window app = Some window) :
  receive world [request_wire args] app
  = ({| main_window :=
          Some (add_terminal_tab world (requested_directory world args)
                  (requested_command args) (str "main") window);
        warnings := warnings app |},
     {| unread := []; connected := false |}).
Proof.
  pose proof (request_body_length args) as Hb.
  assert (Hlen : Z.of_nat (length (request_body args)) < 10 ^ 8).
  { change (10 ^ 8) with 100000000. lia. }
  unfold receive. cbn [fold_left]. unfold ready_read.
  destruct (request_wire args) as [|b bs] eqn:Ew.
  - rewrite request_wire_is_header_and_body in Ew.
    apply (f_equal (@length byte)) in Ew. rewrite length_app in Ew.
    pose proof (request_body_long args). cbn [length] in Ew. lia.
  - cbn [connected unread List.app]. rewrite <- Ew.
    rewrite (whole_request_reaches_the_handler world app args window Hlen Hwin).
    rewrite (handle_request_text world args window Hfolder Hcommand Hisdir).
    reflexivity.
Qed.

End Delivered.

Lemma request_opens_the_requested_tab_witness :
  field_text (args_folder tmp_ls_args) = true
  /\ field_text (args_command tmp_ls_args) = true
  /\ Z.of_nat (text_length (args_folder tmp_ls_args)
               + text_length (args_command tmp_ls_args)) <= 8000000
  /\ (forall f, os_path_isdir with_tmp (PStr f) <> None)
  /\ receive with_tmp [request_wire tmp_ls_args] tmp_primary
     = ({| main_window :=
             Some (add_terminal_tab with_tmp (PStr (str "/tmp"))
                     (PStr (str "ls")) (str "main")
                     (TerminalEmulator_init with_tmp PNone PNone));
           warnings := [] |},
        {| unread := []; connected := false |}).
Proof.
  assert (H3 : Z.of_nat (text_length (args_folder tmp_ls_args)
                         + text_length (args_command tmp_ls_args)) <= 8000000)
    by (vm_compute; discriminate).
  assert (H4 : forall f, os_path_isdir with_tmp (PStr f) <> None)
    by (intros f; discriminate).
  split; [reflexivity|]. split; [reflexivity|]. split; [exact H3|].
  split; [exact H4|].
  exact (request_opens_the_requested_tab with_tmp tmp_primary
           (TerminalEmulator_init with_tmp PNone PNone) tmp_ls_args
           eq_refl eq_refl H3 H4 eq_refl).
Defined.

(** Two pieces of three and four bytes, and then the rest of a request. *)
Lemma pieces_before_the_header_are_harmless_witness :
  let wire := request_wire plain_args in
  (length (concat [firstn 3 wire; firstn 4 (skipn 3 wire)]) < 8)%nat
  /\ receive calm ([firstn 3 wire; firstn 4 (skipn 3 wire)]
                   ++ skipn 7 wire :: []) fresh_primary
     = receive calm ((concat [firstn 3 wire; firstn 4 (skipn 3 wire)]
                      ++ skipn 7 wire) :: []) fresh_primary.
Proof.
  cbv zeta.
  assert (H : (length (concat [firstn 3 (request_wire plain_args);
                               firstn 4 (skipn 3 (request_wire plain_args))])
               < 8)%nat)
    by (vm_compute; repeat constructor).
  split; [exact H|].
  exact (pieces_before_the_header_are_harmless calm _ _ [] fresh_primary H).
Defined.

(** A connection that delivers a request one byte at a time. *)
Lemma one_connection_opens_at_most_one_tab_witness :
  let window := TerminalEmulator_init calm PNone PNone in
  let st := receive calm (map (fun b => [b]) (request_wire plain_args))
                    fresh_primary in
  main_window fresh_primary = Some window
  /\ (main_window (fst st) = Some window
      \/ exists directory cmd,
          main_window (fst st)
          = Some (add_terminal_tab calm directory cmd (str "main") window)
          /\ connected (snd st) = false).
Proof.
  cbv zeta. split; [reflexivity|].
  exact (one_connection_opens_at_most_one_tab calm
           (map (fun b => [b]) (request_wire plain_args)) fresh_primary
           (TerminalEmulator_init calm PNone PNone) eq_refl).
Defined.

(** ** The length header *)

Lemma value_bound ds :
  forall a, 0 <= a -> digits_only ds = true ->
            0 <= value a ds < (a + 1) * 10 ^ Z.of_nat (length ds).
Proof.
  induction ds as [|c ds IH]; intros a Ha Hd.
  - cbn [value fold_left length]. change (10 ^ Z.of_nat 0) with 1. lia.
  - cbn [digits_only forallb] in Hd. apply andb_prop in Hd as [Hc Hd].
    unfold is_digit in Hc. apply andb_prop in Hc as [H1 H2].
    apply Z.leb_le in H1. apply Z.leb_le in H2.
    change (value a (c :: ds)) with (value (10 * a + (c - 48)) ds).
    specialize (IH (10 * a + (c - 48)) ltac:(lia) Hd).
    cbn [length]. rewrite Nat2Z.inj_succ, Z.pow_succ_r by lia.
    assert (0 < 10 ^ Z.of_nat (length ds)) by (apply Z.pow_pos_nonneg; lia).
    nia.
Qed.

Lemma digits_only_firstn k ds :
  digits_only ds = true -> digits_only (firstn k ds) = true.
Proof.
  revert ds. induction k as [|k IH]; intros [|c ds] H; try reflexivity.
  cbn [digits_only forallb firstn] in *.
  apply andb_prop in H as [Hc Hd]. rewrite Hc. now apply IH.
Qed.

Lemma py_str_int_digits n : digits_only (py_str_int n) = true.
Proof. apply decimal_digits_digits. reflexivity. Qed.

Lemma py_str_int_long n : 10 ^ 8 <= n -> (9 <= length (py_str_int n))%nat.
Proof.
  intros Hn.
  pose proof (value_bound (py_str_int n) 0 ltac:(lia) (py_str_int_digits n))
    as [_ Hb].
  rewrite py_str_int_value in Hb by lia.
  destruct (Nat.le_gt_cases 9 (length (py_str_int n))) as [|Hlt]; [assumption|].
  exfalso.
  assert (10 ^ Z.of_nat (length (py_str_int n)) <= 10 ^ 8)
    by (apply Z.pow_le_mono_r; lia).
  lia.
Qed.

Lemma parse_length_digits ds :
  ds <> [] -> digits_only ds = true ->
  parse_length (map octet ds) = Some (value 0 ds).
Proof.
  intros Hne Hd. unfold parse_length.
  assert (Ha : ascii_only ds = true).
  { clear Hne. induction ds as [|c ds IH]; [reflexivity|].
    cbn [digits_only forallb] in Hd. apply andb_prop in Hd as [Hc Hd].
    cbn [ascii_only forallb]. fold (ascii_only ds). rewrite (IH Hd).
    unfold is_digit in Hc. apply andb_prop in Hc as [H1 H2].
    apply Z.leb_le in H1. apply Z.leb_le in H2.
    apply andb_true_intro; split; [|reflexivity].
    apply andb_true_intro; split; [apply Z.leb_le|apply Z.ltb_lt]; lia. }
  rewrite (utf8_decode_ascii _ Ha). now apply py_int_digits.
Qed.

(** X6. The header carries the length of a body of less than 10^8 bytes in
    exactly eight bytes, and [read_socket] reads that length back.  From 10^8
    bytes on the header is longer than the eight bytes [read_socket] takes,
    and what it reads from them is a smaller number. *)
Theorem header_carries_lengths_below_10e8 (len : nat) :
  let n := Z.of_nat len in
  exists header,
    utf8_encode (format_08 n) = Some header
    /\ (n < 10 ^ 8 ->
        length header = 8%nat /\ parse_length (firstn 8 header) = Some n)
    /\ (10 ^ 8 <= n ->
        (8 < length header)%nat
        /\ exists m, parse_length (firstn 8 header) = Some m /\ m < n).
Proof.
  cbv zeta. set (n := Z.of_nat len). assert (Hn : 0 <= n) by (unfold n; lia).
  clearbody n. exists (map octet (format_08 n)).
  split; [apply utf8_encode_ascii, format_08_ascii|]. split.
  - intros Hlt. pose proof (format_08_length n ltac:(lia)) as Hl.
    rewrite length_map. split; [exact Hl|].
    rewrite <- (length_map octet) in Hl. rewrite <- Hl, firstn_all.
    unfold parse_length. rewrite (utf8_decode_ascii _ (format_08_ascii n)).
    apply py_int_format_08. lia.
  - intros Hge. pose proof (py_str_int_long n Hge) as Hl.
    assert (E : format_08 n = py_str_int n).
    { unfold format_08. replace (8 - length (py_str_int n))%nat with 0%nat by lia.
      reflexivity. }
    rewrite E, length_map. split; [lia|].
    rewrite firstn_map.
    assert (Hd : digits_only (firstn 8 (py_str_int n)) = true)
      by (apply digits_only_firstn, py_str_int_digits).
    assert (Hlen : length (firstn 8 (py_str_int n)) = 8%nat)
      by (rewrite length_firstn; lia).
    exists (value 0 (firstn 8 (py_str_int n))). split.
    + apply parse_length_digits; [|exact Hd].
      intros E0. rewrite E0 in Hlen. discriminate.
    + pose proof (value_bound _ 0 ltac:(lia) Hd) as [_ Hb].
      rewrite Hlen in Hb. change (Z.of_nat 8) with 8 in Hb. lia.
Qed.

Section Edges.
Variable world : World.

(** X5. A header that announces no bytes, or fewer: nothing is read, no tab
    is opened and the connection is closed. *)
Theorem empty_request_opens_nothing app k n
        (Hfull : 8 <= bytesAvailable k)
        (Hheader : parse_length (firstn 8 (unread k)) = Some n)
        (Hempty : n <= 0) :
  read_socket world app k
  = (app, {| unread := skipn 8 (unread k); connected := false |}, None).
Proof.
  unfold read_socket.
  destruct (Z.ltb_spec (bytesAvailable k) 8); [lia|].
  change (read 8 k)
    with (firstn 8 (unread k),
          {| unread := skipn 8 (unread k); connected := connected k |}).
  cbv iota. rewrite Hheader.
  destruct (Z.ltb_spec
              (bytesAvailable
                 {| unread := skipn 8 (unread k); connected := connected k |})
              n) as [Hlt|_].
  - unfold bytesAvailable in Hlt. lia.
  - unfold read. cbn [unread connected].
    replace (Z.to_nat n) with 0%nat by lia. reflexivity.
Qed.


End Edges.

Lemma empty_request_opens_nothing_witness :
  let k := {| unread := lit "00000000{}"; connected := true |} in
  8 <= bytesAvailable k
  /\ parse_length (firstn 8 (unread k)) = Some 0
  /\ read_socket calm fresh_primary k
     = (fresh_primary, {| unread := lit "{}"; connected := false |}, None).
Proof.
  cbv zeta.
  assert (H1 : 8 <= bytesAvailable
                      {| unread := lit "00000000{}"; connected := true |})
    by (vm_compute; discriminate).
  split; [exact H1|]. split; [reflexivity|].
  exact (empty_request_opens_nothing calm fresh_primary
           {| unread := lit "00000000{}"; connected := true |} 0 H1 eq_refl
           ltac:(lia)).
Defined.


End RequestFacts.

(* ================================================================== *)
(** * Facts about tabs: commands, indices, closing and moving *)
(* ================================================================== *)

Module TabFacts.
Import Py Json Qt Terminal Ui QtFacts PaneFacts.

Section WithWorld.
Variable world : World.

(** What [add_terminal_tab] does to the fields that decide who gets the
    startup command. *)
Lemma add_terminal_tab_flags directory cmd pane s :
  let s' := add_terminal_tab world directory cmd pane s in
  command s' = command s
  /\ initial_directory s' = initial_directory s
  /\ (command_executed s = true -> command_executed s' = true)
  /\ (pane <> str "second" -> truthy (command s) = true ->
      command_executed s' = true).
Proof.
  cbv zeta. unfold add_terminal_tab.
  destruct (pystr_eqb pane (str "main")) eqn:Em.
  - apply pystr_eqb_eq in Em. subst pane. rewrite main_is_main.
    destruct (command_executed s), (truthy (command s)); cbn [negb andb];
      fields; repeat split; auto.
  - destruct (pystr_eqb pane (str "second")) eqn:Es.
    + apply pystr_eqb_eq in Es. subst pane.
      rewrite second_not_main, second_is_second.
      destruct (second_tab_widget _) eqn:E2; fields;
        repeat split; auto; intros H; now contradiction H.
    + rewrite main_is_main.
      destruct (command_executed s), (truthy (command s)); cbn [negb andb];
        fields; repeat split; auto.
Qed.

Lemma add_terminal_tab_startup_done directory cmd pane s :
  startup_done s -> startup_done (add_terminal_tab world directory cmd pane s).
Proof.
  intros H.
  destruct (add_terminal_tab_flags directory cmd pane s) as (Hc & _ & He & _).
  unfold startup_done in *. rewrite Hc. auto.
Qed.

Lemma refill_startup_done s :
  command_executed s = false ->
  startup_done (add_terminal_tab world PNone PNone (str "main") s).
Proof.
  intros _.
  destruct (add_terminal_tab_flags PNone PNone (str "main") s)
    as (Hc & _ & _ & He).
  unfold startup_done. rewrite Hc. apply He, main_ne_second.
Qed.

Lemma drop_second_pane_flags s emptied :
  command (drop_second_pane s emptied) = command s
  /\ command_executed (drop_second_pane s emptied) = command_executed s.
Proof.
  unfold drop_second_pane. destruct (nth_error (splitter s) 1); fields; auto.
Qed.

Lemma step_startup_done o s : startup_done s -> startup_done (step world o s).
Proof.
  intros H. destruct o; cbn [step].
  - now apply add_terminal_tab_startup_done.
  - unfold initialize_double_pane.
    match goal with
    | |- startup_done (match second_tab_widget ?s1 with _ => _ end) =>
        assert (H1 : startup_done s1)
          by (destruct (count (main_tab_widget s) =? 0);
              [now apply add_terminal_tab_startup_done|exact H]);
        set (s2 := s1) in *
    end.
    destruct (second_tab_widget s2); [exact H1|].
    apply add_terminal_tab_startup_done. exact H1.
  - unfold close_main_tab.
    destruct (terminate_and_remove (main_tab_widget s) index (detached s))
      as [m d].
    fields. destruct (count m =? 0); [|exact H].
    apply refill_startup_done. reflexivity.
  - unfold move_tab_to_second_pane. destruct tab_widget; [|exact H].
    destruct (widget (main_tab_widget s) index) as [tab|]; [|exact H].
    unfold create_second_pane. fields.
    destruct (second_tab_widget s) as [t|] eqn:E2; fields; rewrite ?E2;
      fields;
      (destruct (count _ =? 0);
       [apply add_terminal_tab_startup_done|]; exact H).
  - unfold close_second_half.
    destruct (second_tab_widget s); [|exact H].
    unfold startup_done.
    match goal with |- context [drop_second_pane ?s1 ?e] =>
      destruct (drop_second_pane_flags s1 e) as [-> ->]
    end. exact H.
  - unfold close_second_tab.
    destruct (second_tab_widget s) as [second|]; [|exact H].
    destruct (terminate_and_remove second index (detached s)) as [t d].
    destruct (count t =? 0); [|exact H].
    unfold startup_done.
    match goal with |- context [drop_second_pane ?s1 ?e] =>
      destruct (drop_second_pane_flags s1 e) as [-> ->]
    end. exact H.
  - destruct (handle_new_instance_message_cases world message s)
      as [-> | (directory & cmd & ->)];
      [exact H|now apply add_terminal_tab_startup_done].
Qed.

Lemma run_startup_done ops :
  forall s, startup_done s -> startup_done (run world ops s).
Proof.
  induction ops as [|o ops IH]; intros s H; cbn [run fold_left]; [exact H|].
  apply IH. now apply step_startup_done.
Qed.

Lemma reachable_startup_done folder cmd ops :
  startup_done (run world ops (TerminalEmulator_init world folder cmd)).
Proof.
  apply run_startup_done. unfold TerminalEmulator_init.
  apply refill_startup_done. reflexivity.
Qed.

(** X8. In every state the window can reach, the startup command is no
    longer pending.  A tab added to the main pane therefore runs the command
    it was asked to run (none for [None]), in the directory asked for or in
    the window's initial directory, at the end of the pane, and is labelled
    with the next tab number. *)
Theorem added_tab_runs_the_requested_command folder cmd ops directory c :
  let s := run world ops (TerminalEmulator_init world folder cmd) in
  let s' := add_terminal_tab world directory c (str "main") s in
  (truthy (command s) = true -> command_executed s = true)
  /\ main_tab_widget s'
     = main_tab_widget s
       ++ [(apply_settings world
              (XTermWidget_init world (next_wid s)
                 (if truthy directory then directory else initial_directory s)
                 c),
            str "Terminal " ++ py_str_int (tab_counter s + 1))]
  /\ startup_sessions s' = startup_sessions s.
Proof.
  cbv zeta.
  pose proof (reachable_startup_done folder cmd ops) as H.
  set (s := run world ops (TerminalEmulator_init world folder cmd)) in *.
  split; [exact H|].
  unfold add_terminal_tab. rewrite main_is_main.
  assert (E : negb (command_executed s) && truthy (command s) = false).
  { unfold startup_done in H. destruct (truthy (command s));
      [rewrite H by reflexivity; reflexivity|apply andb_false_r]. }
  rewrite E. fields. rewrite main_is_main. fields. split; reflexivity.
Qed.

End WithWorld.

Section Indices.
Context {W : Type}.
Implicit Types (t : @pages W).

Lemma widget_out_of_range t index :
  index < 0 \/ count t <= index -> widget t index = None.
Proof.
  unfold widget, count. intros [H|H].
  - destruct (Z.ltb_spec index 0); [reflexivity|lia].
  - destruct (Z.ltb_spec index 0); [reflexivity|].
    replace (nth_error t (Z.to_nat index)) with (@None (W * pystr));
      [reflexivity|].
    symmetry. apply nth_error_None. lia.
Qed.

Lemma widget_at (before : @pages W) (w : W) label (after : @pages W) :
  widget (before ++ (w, label) :: after) (Z.of_nat (length before)) = Some w
  /\ removeTab (before ++ (w, label) :: after) (Z.of_nat (length before))
     = before ++ after
  /\ tabText (before ++ (w, label) :: after) (Z.of_nat (length before))
     = label.
Proof.
  unfold widget, removeTab, tabText.
  destruct (Z.ltb_spec (Z.of_nat (length before)) 0); [lia|].
  rewrite Nat2Z.id, nth_error_app2, Nat.sub_diag by lia.
  cbn [nth_error option_map fst snd].
  rewrite firstn_length_app, skipn_S_length_app. auto.
Qed.
End Indices.

Lemma with_main_same s : with_main s (main_tab_widget s) = s.
Proof. now destruct s. Qed.

Lemma with_detached_same s : with_detached s (detached s) = s.
Proof. now destruct s. Qed.

Lemma with_second_same s :
  with_second s (second_tab_widget s) (splitter s) = s.
Proof. now destruct s. Qed.

Section Closing.
Variable world : World.

(** X9. An index that names no tab: in any state the window can reach,
    closing it in either pane or moving it to the second pane changes
    nothing. *)
Theorem index_out_of_range_changes_nothing folder cmd ops index :
  let s := run world ops (TerminalEmulator_init world folder cmd) in
  (index < 0 \/ count (main_tab_widget s) <= index ->
   close_main_tab world index s = s
   /\ move_tab_to_second_pane world MainTabWidget index s = s)
  /\ (forall t, second_tab_widget s = Some t ->
                index < 0 \/ count t <= index ->
                close_second_tab index s = s).
Proof.
  cbv zeta.
  destruct (reachable_sound world folder cmd ops) as ((Hm & H2) & _).
  set (s := run world ops (TerminalEmulator_init world folder cmd)) in *.
  split.
  - intros Hi. pose proof (widget_out_of_range _ _ Hi) as Hw.
    split.
    + unfold close_main_tab, terminate_and_remove.
      rewrite Hw, (widget_none _ _ Hw). fields.
      apply count_nonzero in Hm. rewrite Hm.
      now rewrite with_main_same, with_detached_same.
    + unfold move_tab_to_second_pane. now rewrite Hw.
  - intros t E Hi. pose proof (widget_out_of_range _ _ Hi) as Hw.
    unfold close_second_tab, terminate_and_remove. rewrite E in *.
    rewrite Hw, (widget_none _ _ Hw).
    destruct H2 as [Ht _]. apply count_nonzero in Ht. rewrite Ht.
    rewrite <- E, with_second_same. apply with_detached_same.
Qed.

(** X10. Closing a tab that is not the only one of the main pane removes
    that page and no other, stops its terminal and keeps the widget out of
    every pane; the tab counter, the startup flag and the second pane stay
    as they were.  The same holds in the second pane. *)
Theorem closing_a_tab_removes_that_page s before tab label after
        (Hothers : before ++ after <> []) :
  (main_tab_widget s = before ++ (tab, label) :: after ->
   close_main_tab world (Z.of_nat (length before)) s
   = with_detached (with_main s (before ++ after))
       (detached s ++ [terminate tab]))
  /\ (second_tab_widget s = Some (before ++ (tab, label) :: after) ->
      close_second_tab (Z.of_nat (length before)) s
      = with_detached (with_second s (Some (before ++ after)) (splitter s))
          (detached s ++ [terminate tab])).
Proof.
  apply count_nonzero in Hothers.
  destruct (widget_at before tab label after) as (Hw & Hr & _).
  split; intros E.
  - unfold close_main_tab, terminate_and_remove. rewrite E, Hw, Hr.
    fields. now rewrite Hothers.
  - unfold close_second_tab, terminate_and_remove. rewrite E, Hw, Hr.
    now rewrite Hothers.
Qed.

(** X11. Moving a tab to the second pane and then closing the second pane
    loses no tab and stops none: the main pane holds its other tabs, then
    the tabs the second pane had, then the moved tab, each with its label,
    and the second pane is gone. *)
Theorem moved_tab_comes_back_last folder cmd ops before tab label after
        (Hothers : before ++ after <> []) :
  let s := run world ops (TerminalEmulator_init world folder cmd) in
  main_tab_widget s = before ++ (tab, label) :: after ->
  let s' := close_second_half
              (move_tab_to_second_pane world MainTabWidget
                 (Z.of_nat (length before)) s) in
  main_tab_widget s' = before ++ after ++ second_pages s ++ [(tab, label)]
  /\ second_tab_widget s' = None
  /\ detached s' = detached s
  /\ tab_counter s' = tab_counter s.
Proof.
  cbv zeta.
  destruct (reachable_sound world folder cmd ops) as ((Hm & H2) & _).
  set (s := run world ops (TerminalEmulator_init world folder cmd)) in *.
  intros E. apply count_nonzero in Hothers.
  destruct (widget_at before tab label after) as (Hw & Hr & Hl).
  unfold move_tab_to_second_pane. rewrite E, Hw, Hr, Hl.
  unfold create_second_pane, addTab, second_pages in *. fields.
  destruct (second_tab_widget s) as [t|] eqn:E2; fields; rewrite ?E2;
    fields; rewrite Hothers; unfold close_second_half; fields;
    unfold drop_second_pane; fields.
  - destruct H2 as [_ ->]. cbn [nth_error]. fields.
    rewrite move_all_to_main_app, <- !app_assoc. auto.
  - rewrite H2. cbn [nth_error List.app]. fields.
    rewrite move_all_to_main_app, <- !app_assoc. auto.
Qed.

End Closing.

(** The first of two tabs is closed. *)
Lemma closing_a_tab_removes_that_page_witness :
  page_ids (main_tab_widget (close_main_tab calm 0 two_tabs)) = [2%nat]
  /\ map (fun x => (wid x, running x))
         (detached (close_main_tab calm 0 two_tabs))
     = [(1%nat, false)].
Proof.
  let m := eval vm_compute in (main_tab_widget two_tabs) in
  match m with
  | (?tab, ?label) :: ?after =>
      assert (Hothers : [] ++ after <> []) by discriminate;
      pose proof (proj1 (closing_a_tab_removes_that_page calm two_tabs
                           [] tab label after Hothers)) as P
  end.
  change (Z.of_nat (length (@nil (XTermWidget * pystr)))) with 0 in P.
  rewrite (P eq_refl). split; reflexivity.
Defined.

(** The first of two tabs is moved to the second pane, which is then
    closed. *)
Lemma moved_tab_comes_back_last_witness :
  page_ids (main_tab_widget
              (close_second_half
                 (move_tab_to_second_pane calm MainTabWidget 0 two_tabs)))
  = [2%nat; 1%nat].
Proof.
  let m := eval vm_compute in (main_tab_widget two_tabs) in
  match m with
  | (?tab, ?label) :: ?after =>
      assert (Hothers : [] ++ after <> []) by discriminate;
      pose proof (moved_tab_comes_back_last calm PNone PNone
                    [AddTerminalTab PNone PNone (str "main")]
                    [] tab label after Hothers) as P
  end.
  cbv zeta in P. specialize (P eq_refl).
  change (Z.of_nat (length (@nil (XTermWidget * pystr)))) with 0 in P.
  change (run calm [AddTerminalTab PNone PNone (str "main")]
              (TerminalEmulator_init calm PNone PNone)) with two_tabs in P.
  destruct P as (P & _). rewrite P. reflexivity.
Defined.

End TabFacts.

(* ================================================================== *)
(** * Facts about the context menus, renaming and quitting *)
(* ================================================================== *)

Module UiFacts.
Import Py Json Qt Terminal QtFacts PaneFacts Ui.

Section Pages.
Context {W : Type}.
Implicit Types (t : @pages W).

Lemma setTabText_fst t index text :
  map fst (setTabText t index text) = map fst t.
Proof.
  unfold setTabText. destruct (index <? 0); [reflexivity|].
  destruct (nth_error t (Z.to_nat index)) as [p|] eqn:E; [|reflexivity].
  destruct (nth_error_split _ _ E) as (before & after & -> & Hlen).
  rewrite <- Hlen, firstn_length_app.
  destruct p as [w l]. rewrite skipn_S_length_app.
  rewrite !map_app. reflexivity.
Qed.

Lemma rename_tab_fst t index answer :
  map fst (rename_tab t index answer) = map fst t.
Proof.
  unfold rename_tab. destruct answer as [text ok].
  destruct (ok && _); [apply setTabText_fst|reflexivity].
Qed.
End Pages.

Lemma map_fst_nil {A B} (l : list (A * B)) : map fst l = [] -> l = [].
Proof. destruct l; [reflexivity|discriminate]. Qed.

Lemma page_ids_fst (t : @pages XTermWidget) :
  page_ids t = map wid (map fst t).
Proof. unfold page_ids. now rewrite map_map. Qed.

Section WithWorld.
Variable world : World.

Lemma restart_pages_ids t : page_ids (restart_pages world t) = page_ids t.
Proof.
  unfold restart_pages, page_ids. rewrite map_map. reflexivity.
Qed.

Lemma stop_pages_ids t : page_ids (stop_pages t) = page_ids t.
Proof. unfold stop_pages, page_ids. rewrite map_map. reflexivity. Qed.

Lemma rename_tab_ids (t : @pages XTermWidget) index answer :
  page_ids (rename_tab t index answer) = page_ids t.
Proof. now rewrite !page_ids_fst, rename_tab_fst. Qed.

(** A change of the pages that keeps their identities in place keeps the
    window sound and its sessions where they are. *)
Lemma relabelled s s' :
  page_ids (main_tab_widget s') = page_ids (main_tab_widget s) ->
  page_ids (second_pages s') = page_ids (second_pages s) ->
  (second_tab_widget s' = None <-> second_tab_widget s = None) ->
  splitter s' = splitter s ->
  detached s' = detached s ->
  next_wid s' = next_wid s ->
  startup_sessions s' = startup_sessions s ->
  main_refills s' = main_refills s ->
  command_executed s' = command_executed s ->
  (sound s -> sound s') /\ conserved s s' /\ (stopped s -> stopped s').
Proof.
  intros Hm Hs Hn Hsp Hd Hw Hst Hrf Hex.
  assert (Hc : conserved s s').
  { apply conserved_same; [exact Hw|]. intros i.
    unfold total, panes_of, in_main, in_second, in_detached.
    now rewrite Hm, Hs, Hd. }
  split; [|split; [exact Hc|]].
  - intros (Hp & Hso & Hi). split; [|split].
    + destruct Hp as [Hmain Hsec]. split.
      * intros E. apply Hmain. rewrite E in Hm. cbn in Hm.
        unfold page_ids in Hm. symmetry in Hm. now apply map_eq_nil in Hm.
      * unfold second_pages in Hs.
        destruct (second_tab_widget s') as [t'|] eqn:E',
                 (second_tab_widget s) as [t|] eqn:E.
        -- destruct Hsec as [Ht Hspl]. split; [|congruence].
           intros ->. cbn in Hs. unfold page_ids in Hs. symmetry in Hs.
           apply map_eq_nil in Hs. contradiction.
        -- destruct Hn as [_ Hn]. discriminate (Hn eq_refl).
        -- destruct Hn as [Hn _]. discriminate (Hn eq_refl).
        -- congruence.
    + unfold startup_ok in *. now rewrite Hst, Hrf, Hex.
    + eapply conserved_ids_ok; eassumption.
  - unfold stopped. now rewrite Hd.
Qed.

Lemma apply_settings_to_tabs_relabelled s :
  (sound s -> sound (apply_settings_to_tabs world s))
  /\ conserved s (apply_settings_to_tabs world s)
  /\ (stopped s -> stopped (apply_settings_to_tabs world s)).
Proof.
  apply relabelled; unfold apply_settings_to_tabs, second_pages; fields;
    try reflexivity.
  - apply restart_pages_ids.
  - destruct (second_tab_widget s); cbn [option_map];
      [apply restart_pages_ids|reflexivity].
  - destruct (second_tab_widget s); cbn [option_map]; split; congruence.
Qed.

Lemma rename_in_relabelled tw index answer s :
  (sound s -> sound (rename_in tw index answer s))
  /\ conserved s (rename_in tw index answer s)
  /\ (stopped s -> stopped (rename_in tw index answer s)).
Proof.
  unfold rename_in. destruct tw.
  - apply relabelled; fields; try reflexivity. apply rename_tab_ids.
  - destruct (second_tab_widget s) as [t|] eqn:E.
    + apply relabelled; unfold second_pages; fields; rewrite ?E;
        try reflexivity; [apply rename_tab_ids|split; discriminate].
    + split; [auto|split; [apply conserved_refl|auto]].
Qed.

(** While a menu is open the second pane cannot go away. *)
Lemma background_keeps_second_pane b s :
  second_tab_widget s <> None ->
  second_tab_widget (background_step world b s) <> None.
Proof.
  intros H. destruct b as [message|]; cbn [background_step].
  - destruct (handle_new_instance_message_cases world message s)
      as [-> | (directory & cmd & ->)]; [exact H|].
    destruct (add_to_main world (str "main") directory cmd s main_ne_second)
      as (x & label & _ & _ & -> & _). exact H.
  - unfold initialize_double_pane.
    match goal with
    | |- second_tab_widget (match second_tab_widget ?s1 with _ => _ end)
         <> None =>
        assert (E : second_tab_widget s1 = second_tab_widget s)
          by (destruct (count (main_tab_widget s) =? 0); [|reflexivity];
              destruct (add_to_main world (str "main") PNone PNone s
                          main_ne_second)
                as (x & label & _ & _ & E & _); exact E);
        set (s2 := s1) in *
    end.
    destruct (second_tab_widget s2) eqn:E'; [rewrite E'; discriminate|].
    congruence.
Qed.

Lemma background_step_is_step b s :
  background_step world b s = step world (background_op b) s.
Proof. destruct b; reflexivity. Qed.

Lemma background_step_keeps b s :
  (sound s -> sound (background_step world b s))
  /\ conserved s (background_step world b s)
  /\ (stopped s -> stopped (background_step world b s)).
Proof.
  rewrite background_step_is_step. split; [apply step_sound|].
  split; [apply step_conserved|].
  apply step_stopped. destruct b; exact I.
Qed.

Lemma during_keeps during :
  forall s,
    let s1 := fold_left (fun st b => background_step world b st) during s in
    (sound s -> sound s1) /\ conserved s s1 /\ (stopped s -> stopped s1)
    /\ (second_tab_widget s <> None -> second_tab_widget s1 <> None).
Proof.
  induction during as [|b during IH]; intros s; cbn [fold_left].
  - split; [auto|]. split; [apply conserved_refl|auto].
  - destruct (background_step_keeps b s) as (H1 & H2 & H3).
    destruct (IH (background_step world b s)) as (I1 & I2 & I3 & I4).
    split; [auto|]. split; [eapply conserved_trans; eassumption|].
    split; [auto|]. intros H. apply I4.
    now apply background_keeps_second_pane.
Qed.

(** The entry "Add Tab" asks for the second pane only in the menu of the
    second pane. *)
Lemma menu_add_tab tw idx s pane :
  In (AddTab pane) (show_context_menu tw idx s) ->
  pane = str "second" -> tw = SecondTabWidget.
Proof.
  unfold show_context_menu. destruct (idx =? -1); [contradiction|].
  intros Hin Hp. subst pane. destruct tw; [|reflexivity].
  cbn [List.app In] in Hin. destruct Hin as [H|Hin]; [discriminate H|].
  exfalso.
  destruct (second_tab_widget s); cbn [List.app In] in Hin;
    repeat (destruct Hin as [H|Hin]; [discriminate H|]); exact Hin.
Qed.

Lemma trigger_keeps a answer accepted s :
  (forall pane, a = AddTab pane -> pane = str "second" ->
                second_tab_widget s <> None) ->
  (sound s -> sound (trigger world a answer accepted s))
  /\ conserved s (trigger world a answer accepted s)
  /\ (stopped s -> stopped (trigger world a answer accepted s)).
Proof.
  intros Ha. destruct a; cbn [trigger].
  - split; [apply (step_sound world (AddTerminalTab PNone PNone pane))|].
    split; [apply add_terminal_tab_conserved|].
    apply add_terminal_tab_stopped. now apply Ha.
  - split; [apply (step_sound world InitializeDoublePane)|].
    split; [apply initialize_double_pane_conserved|].
    apply (step_stopped world InitializeDoublePane). exact I.
  - split; [apply (step_sound world (MoveTabToSecondPane tab_widget index))|].
    split; [apply move_tab_to_second_pane_conserved|].
    apply (step_stopped world (MoveTabToSecondPane tab_widget index)). exact I.
  - split; [apply (step_sound world CloseSecondHalf)|].
    split; [apply close_second_half_conserved|].
    apply (step_stopped world CloseSecondHalf). exact I.
  - apply rename_in_relabelled.
  - split; [auto|split; [apply conserved_refl|auto]].
  - destruct accepted; [apply apply_settings_to_tabs_relabelled|].
    split; [auto|split; [apply conserved_refl|auto]].
  - split; [auto|split; [apply conserved_refl|auto]].
  - split; [auto|split; [apply conserved_refl|auto]].
Qed.

Lemma ui_step_keeps e s :
  (sound s -> sound (ui_step world e s))
  /\ conserved s (ui_step world e s)
  /\ (stopped s -> stopped (ui_step world e s)).
Proof.
  destruct e as [tw idx during choice answer accepted|tw index|b|accepted];
    cbn [ui_step].
  - destruct (pane_exists tw s) eqn:Ep;
      [|split; [auto|split; [apply conserved_refl|auto]]].
    destruct (during_keeps during s) as (D1 & D2 & D3 & D4).
    cbv zeta in *.
    set (s1 := fold_left (fun st b => background_step world b st) during s)
      in *.
    destruct (nth_error (show_context_menu tw idx s) choice) as [a|] eqn:En;
      [|auto].
    destruct (trigger_keeps a answer accepted s1) as (T1 & T2 & T3).
    { intros pane -> Hp. apply D4.
      apply nth_error_In in En.
      rewrite (menu_add_tab _ _ _ _ En Hp) in Ep. unfold pane_exists in Ep.
      destruct (second_tab_widget s); [discriminate|discriminate Ep]. }
    split; [auto|]. split; [eapply conserved_trans; eassumption|auto].
  - destruct tw.
    + split; [apply (step_sound world (CloseMainTab index))|].
      split; [apply close_main_tab_conserved|].
      apply (step_stopped world (CloseMainTab index)). exact I.
    + split; [apply (step_sound world (CloseSecondTab index))|].
      split; [apply close_second_tab_conserved|].
      apply (step_stopped world (CloseSecondTab index)). exact I.
  - apply background_step_keeps.
  - destruct accepted; [apply apply_settings_to_tabs_relabelled|].
    split; [auto|split; [apply conserved_refl|auto]].
Qed.

Lemma ui_run_keeps events :
  forall s,
    (sound s -> sound (ui_run world events s))
    /\ conserved s (ui_run world events s)
    /\ (stopped s -> stopped (ui_run world events s)).
Proof.
  induction events as [|e events IH]; intros s; cbn [ui_run fold_left].
  - split; [auto|split; [apply conserved_refl|auto]].
  - destruct (ui_step_keeps e s) as (H1 & H2 & H3).
    destruct (IH (ui_step world e s)) as (I1 & I2 & I3).
    split; [auto|]. split; [eapply conserved_trans; eassumption|auto].
Qed.

Lemma ui_reachable folder cmd events :
  let s := ui_run world events (TerminalEmulator_init world folder cmd) in
  sound s /\ stopped s
  /\ conserved (blank_window world folder cmd) s.
Proof.
  cbv zeta.
  destruct (ui_run_keeps events (TerminalEmulator_init world folder cmd))
    as (H1 & H2 & H3).
  split; [apply H1, init_sound|]. split.
  - apply H3. unfold stopped, TerminalEmulator_init.
    destruct (add_to_main world (str "main") PNone PNone
                (blank_window world folder cmd) main_ne_second)
      as (x & label & _ & _ & _ & _ & ->).
    constructor.
  - eapply conserved_trans; [|exact H2]. apply add_terminal_tab_conserved.
Qed.

(** X12. Whatever the user does with the context menus, the close buttons
    and the settings, and whatever requests and timers come in between:
    every session ever created is a page of exactly one pane, or is a
    closed tab whose terminal was stopped; and the main pane is never
    empty. *)
Theorem ui_keeps_every_session_attached folder cmd events :
  let s := ui_run world events (TerminalEmulator_init world folder cmd) in
  (forall i, (1 <= i < next_wid s)%nat ->
             (panes_of s i = 1 /\ in_detached s i = 0)%nat
             \/ (panes_of s i = 0 /\ in_detached s i = 1)%nat)
  /\ Forall (fun x => running x = false) (detached s)
  /\ 1 <= count (main_tab_widget s).
Proof.
  cbv zeta.
  destruct (ui_reachable folder cmd events) as (((Hm & _) & _) & Hst & Hc).
  set (s := ui_run world events (TerminalEmulator_init world folder cmd)) in *.
  split; [|split; [exact Hst|]].
  - intros i Hi. destruct Hc as [_ Hc]. specialize (Hc i).
    change (next_wid (blank_window world folder cmd)) with 1%nat in Hc.
    change (total (blank_window world folder cmd) i) with 0%nat in Hc.
    unfold total in Hc.
    destruct (Nat.leb_spec 1 i), (Nat.ltb_spec i (next_wid s));
      cbn in Hc; lia.
  - unfold count. destruct (main_tab_widget s); [contradiction|].
    cbn [length]. lia.
Qed.

Lemma stop_pages_stopped t :
  Forall (fun p => running (fst p) = false) (stop_pages t).
Proof.
  unfold stop_pages. apply Forall_map. apply Forall_forall. reflexivity.
Qed.

(** X13. Quitting: when the user confirms, the terminal of every tab of
    both panes is stopped, so that with the closed tabs no session is left
    with a running terminal; the tabs themselves stay where they are.  When
    the user declines, the event is ignored and the window is as before. *)
Theorem quitting_stops_every_terminal folder cmd events :
  let s := ui_run world events (TerminalEmulator_init world folder cmd) in
  let s' := fst (closeEvent true s) in
  Forall (fun p => running (fst p) = false)
         (main_tab_widget s' ++ second_pages s')
  /\ Forall (fun x => running x = false) (detached s')
  /\ page_ids (main_tab_widget s') = page_ids (main_tab_widget s)
  /\ page_ids (second_pages s') = page_ids (second_pages s)
  /\ snd (closeEvent true s) = true
  /\ closeEvent false s = (s, false).
Proof.
  cbv zeta.
  destruct (ui_reachable folder cmd events) as (_ & Hst & _).
  set (s := ui_run world events (TerminalEmulator_init world folder cmd)) in *.
  unfold closeEvent, second_pages. cbn [fst snd]. fields.
  split; [|split; [exact Hst|split; [apply stop_pages_ids|]]].
  - apply Forall_app. split; [apply stop_pages_stopped|].
    destruct (second_tab_widget s); cbn [option_map];
      [apply stop_pages_stopped|constructor].
  - split; [|auto].
    destruct (second_tab_widget s); cbn [option_map];
      [apply stop_pages_ids|reflexivity].
Qed.

End WithWorld.

Section Rename.
Context {W : Type}.
Implicit Types (t : @pages W).

Lemma tabText_setTabText t index text j :
  widget t index <> None ->
  tabText (setTabText t index text) j
  = if j =? index then text else tabText t j.
Proof.
  unfold widget, setTabText, tabText. intros Hw.
  destruct (Z.ltb_spec index 0); [contradiction|].
  destruct (nth_error t (Z.to_nat index)) as [p|] eqn:E; [|contradiction].
  destruct (nth_error_split _ _ E) as (before & after & -> & Hlen).
  rewrite <- Hlen, firstn_length_app. destruct p as [w l].
  rewrite skipn_S_length_app.
  destruct (Z.eqb_spec j index) as [->|Hne].
  - destruct (Z.ltb_spec index 0); [lia|].
    rewrite <- Hlen, nth_error_app2, Nat.sub_diag by lia. reflexivity.
  - destruct (Z.ltb_spec j 0); [reflexivity|].
    assert (Hj : Z.to_nat j <> length before) by lia.
    destruct (Nat.lt_ge_cases (Z.to_nat j) (length before)).
    + now rewrite !nth_error_app1 by assumption.
    + rewrite !nth_error_app2 by assumption.
      destruct (Z.to_nat j - length before)%nat as [|m] eqn:Em; [lia|].
      reflexivity.
Qed.

(** X14. Renaming a tab: the pages keep their widgets and their order
    whatever the answer; a cancelled dialog, an empty name or an index that
    names no tab change nothing; otherwise the tab at the index, and no
    other, gets the new text. *)
Theorem rename_changes_one_label t index text ok :
  map fst (rename_tab t index (text, ok)) = map fst t
  /\ (ok = false \/ text = [] \/ widget t index = None ->
      rename_tab t index (text, ok) = t)
  /\ (ok = true -> text <> [] -> widget t index <> None ->
      forall j, tabText (rename_tab t index (text, ok)) j
                = if j =? index then text else tabText t j).
Proof.
  split; [apply rename_tab_fst|]. split.
  - intros [-> | [-> | Hw]]; [reflexivity|now destruct ok|].
    unfold rename_tab. destruct (ok && _); [|reflexivity].
    unfold widget, setTabText in *.
    destruct (index <? 0); [reflexivity|].
    destruct (nth_error t (Z.to_nat index)); [discriminate|reflexivity].
  - intros -> Ht Hw j. unfold rename_tab. cbn [andb].
    destruct text; [contradiction|]. now apply tabText_setTabText.
Qed.
End Rename.

End UiFacts.

(* ================================================================== *)
(** * Facts about the settings: colours, the dialog and the store *)
(* ================================================================== *)

Module SettingsFacts.
Import Py Settings QtFacts.

Section Tables.
Variable unicode_lower : pystr -> pystr.

(** The loop of [get_color_name] finds the first entry whose code is the
    given one up to case. *)
Lemma get_color_name_first color_dict hex_code before name code after :
  color_dict = before ++ (name, code) :: after ->
  lower unicode_lower code = lower unicode_lower hex_code ->
  Forall (fun entry => lower unicode_lower (snd entry) <> lower unicode_lower hex_code) before ->
  get_color_name unicode_lower color_dict hex_code = name.
Proof.
  intros -> Hc. induction before as [|[n c] before IH]; intros Hb;
    cbn [List.app get_color_name].
  - rewrite Hc, pystr_eqb_refl. reflexivity.
  - inversion Hb as [|? ? Hn Hrest]; subst. cbn [snd] in Hn.
    destruct (pystr_eqb (lower unicode_lower c) (lower unicode_lower hex_code)) eqn:E;
      [apply pystr_eqb_eq in E; contradiction|].
    now apply IH.
Qed.

Lemma get_color_name_none color_dict hex_code :
  Forall (fun entry => lower unicode_lower (snd entry) <> lower unicode_lower hex_code) color_dict ->
  get_color_name unicode_lower color_dict hex_code = [].
Proof.
  induction color_dict as [|[n c] rest IH]; intros H; [reflexivity|].
  inversion H as [|? ? Hn Hrest]; subst. cbn [snd] in Hn.
  cbn [get_color_name].
  destruct (pystr_eqb (lower unicode_lower c) (lower unicode_lower hex_code)) eqn:E;
    [apply pystr_eqb_eq in E; contradiction|].
  now apply IH.
Qed.

(** What [get_color_name] returns is a name of the table whose code is the
    given one up to case, or the empty text when no code is. *)
Lemma get_color_name_cases color_dict hex_code :
  (get_color_name unicode_lower color_dict hex_code = []
   /\ Forall (fun entry => lower unicode_lower (snd entry) <> lower unicode_lower hex_code) color_dict)
  \/ exists before code after,
      color_dict
      = before ++ (get_color_name unicode_lower color_dict hex_code, code) :: after
      /\ lower unicode_lower code = lower unicode_lower hex_code
      /\ Forall (fun entry => lower unicode_lower (snd entry) <> lower unicode_lower hex_code) before.
Proof.
  induction color_dict as [|[n c] rest IH]; [left; split; constructor|].
  cbn [get_color_name].
  destruct (pystr_eqb (lower unicode_lower c) (lower unicode_lower hex_code)) eqn:E.
  - apply pystr_eqb_eq in E. right. exists [], c, rest. auto.
  - assert (Hne : lower unicode_lower c <> lower unicode_lower hex_code).
    { intros H. rewrite H, pystr_eqb_refl in E. discriminate. }
    destruct IH as [[H1 H2] | (before & code & after & H1 & H2 & H3)].
    + left. split; [exact H1|]. constructor; assumption.
    + right. exists ((n, c) :: before), code, after.
      split; [cbn [List.app]; congruence|]. split; [exact H2|].
      constructor; assumption.
Qed.

End Tables.

(** ** Combo boxes *)

Lemma fill_items (color_dict : list (pystr * pystr)) :
  forall c,
    items (fold_left (fun c entry => addItem (fst entry) c) color_dict c)
    = items c ++ map fst color_dict.
Proof.
  induction color_dict as [|e rest IH]; intros c; cbn [fold_left map].
  - now rewrite app_nil_r.
  - rewrite IH. cbn [addItem items]. now rewrite <- app_assoc.
Qed.

Lemma fill_index (color_dict : list (pystr * pystr)) :
  forall c,
    items c <> [] ->
    currentIndex (fold_left (fun c entry => addItem (fst entry) c) color_dict c)
    = currentIndex c.
Proof.
  induction color_dict as [|e rest IH]; intros c Hc; cbn [fold_left];
    [reflexivity|].
  rewrite IH.
  - cbn [addItem currentIndex]. destruct (items c); [contradiction|reflexivity].
  - cbn [addItem items]. destruct (items c); discriminate.
Qed.

Lemma fill_new (e : pystr * pystr) color_dict :
  let box := fold_left (fun c entry => addItem (fst entry) c)
                       (e :: color_dict) new_combo in
  items box = map fst (e :: color_dict) /\ currentIndex box = 0.
Proof.
  cbv zeta. cbn [fold_left]. split.
  - rewrite fill_items. reflexivity.
  - rewrite fill_index; [reflexivity|discriminate].
Qed.

Lemma find_from_spec texts text :
  forall i,
    (find_from texts text i = -1 /\ ~ In text texts)
    \/ exists k,
        find_from texts text i = i + Z.of_nat k
        /\ nth_error texts k = Some text
        /\ forall j, (j < k)%nat -> nth_error texts j <> Some text.
Proof.
  induction texts as [|t rest IH]; intros i; cbn [find_from].
  - left. split; [reflexivity|intros []].
  - destruct (pystr_eqb t text) eqn:E.
    + apply pystr_eqb_eq in E. subst t. right. exists 0%nat.
      split; [lia|]. split; [reflexivity|]. intros j Hj. lia.
    + assert (Hne : t <> text).
      { intros ->. rewrite pystr_eqb_refl in E. discriminate. }
      destruct (IH (i + 1)) as [[H1 H2] | (k & H1 & H2 & H3)].
      * left. split; [exact H1|]. intros [H|H]; contradiction.
      * right. exists (S k). split; [lia|]. split; [exact H2|].
        intros [|j] Hj; cbn [nth_error]; [congruence|].
        apply H3. lia.
Qed.

(** The box of a colour table shows the given name when the table has it,
    and its first name otherwise; its current index always names an item. *)
Lemma color_combo_spec (e : pystr * pystr) color_dict current :
  let box := color_combo (e :: color_dict) current in
  items box = map fst (e :: color_dict)
  /\ 0 <= currentIndex box < Z.of_nat (length (e :: color_dict))
  /\ currentText box
     = if existsb (fun n => pystr_eqb n current) (map fst (e :: color_dict))
       then current else fst e.
Proof.
  cbv zeta. unfold color_combo.
  destruct (fill_new e color_dict) as [Hi Hc]. cbv zeta in Hi, Hc.
  set (box := fold_left (fun c entry => addItem (fst entry) c)
                        (e :: color_dict) new_combo) in *.
  unfold findText. rewrite Hi.
  destruct (find_from_spec (map fst (e :: color_dict)) current 0)
    as [[H1 H2] | (k & H1 & H2 & H3)].
  - rewrite H1. change (-1 =? -1) with true. cbv iota.
    split; [exact Hi|]. rewrite Hc.
    split; [cbn [length]; lia|].
    replace (existsb _ _) with false.
    + unfold currentText. rewrite Hc, Hi. reflexivity.
    + symmetry. apply not_true_is_false. intros H.
      apply existsb_exists in H as (n & Hn & He).
      apply pystr_eqb_eq in He. subst n. contradiction.
  - rewrite H1. assert (Hk : (k < length (map fst (e :: color_dict)))%nat)
      by (apply nth_error_Some; congruence).
    rewrite length_map in Hk.
    destruct (Z.eqb_spec (0 + Z.of_nat k) (-1)); [lia|].
    unfold setCurrentIndex, currentText. cbn [items currentIndex].
    rewrite Hi, length_map.
    replace ((0 <=? 0 + Z.of_nat k)
             && (0 + Z.of_nat k <? Z.of_nat (length (e :: color_dict))))
      with true
      by (symmetry; apply andb_true_intro; split;
          [apply Z.leb_le|apply Z.ltb_lt]; lia).
    split; [reflexivity|]. split; [lia|].
    destruct (Z.ltb_spec (0 + Z.of_nat k) 0); [lia|].
    replace (Z.to_nat (0 + Z.of_nat k)) with k by lia.
    rewrite (nth_error_nth _ _ _ H2).
    replace (existsb _ _) with true; [reflexivity|].
    symmetry. apply existsb_exists. exists current.
    split; [eapply nth_error_In; exact H2|apply pystr_eqb_refl].
Qed.

Lemma pick_shows color_dict index c :
  shows color_dict c -> shows color_dict (pick index c).
Proof.
  intros [Hi Hc]. unfold pick.
  destruct ((0 <=? index) && (index <? Z.of_nat (length (items c)))) eqn:E;
    [|split; assumption].
  unfold setCurrentIndex, shows. cbn [items currentIndex]. rewrite E.
  split; [exact Hi|].
  apply andb_prop in E as [E1 E2]. apply Z.leb_le in E1.
  apply Z.ltb_lt in E2. rewrite Hi, length_map in E2. lia.
Qed.

Lemma shows_current color_dict c :
  shows color_dict c -> In (currentText c) (map fst color_dict).
Proof.
  intros [Hi Hc]. unfold currentText.
  destruct (Z.ltb_spec (currentIndex c) 0); [lia|].
  rewrite Hi. apply nth_In. rewrite length_map. lia.
Qed.

Lemma get_in color_dict name default :
  In name (map fst color_dict) ->
  In (get color_dict name default) (map snd color_dict).
Proof.
  induction color_dict as [|[k v] rest IH]; [intros []|].
  cbn [map fst snd get]. intros H.
  destruct (pystr_eqb k name) eqn:E; [left; reflexivity|].
  right. apply IH. destruct H as [->|H]; [|exact H].
  rewrite pystr_eqb_refl in E. discriminate.
Qed.

Lemma get_default color_dict name d1 d2 :
  In name (map fst color_dict) ->
  get color_dict name d1 = get color_dict name d2.
Proof.
  induction color_dict as [|[k v] rest IH]; [intros []|].
  cbn [map fst get]. intros H.
  destruct (pystr_eqb k name) eqn:E; [reflexivity|].
  apply IH. destruct H as [->|H]; [|exact H].
  rewrite pystr_eqb_refl in E. discriminate.
Qed.

Lemma get_missing color_dict name default :
  ~ In name (map fst color_dict) -> get color_dict name default = default.
Proof.
  induction color_dict as [|[k v] rest IH]; [reflexivity|].
  cbn [map fst get In]. intros H.
  destruct (pystr_eqb k name) eqn:E.
  - apply pystr_eqb_eq in E. subst k. exfalso. apply H. now left.
  - apply IH. intros Hin. apply H. now right.
Qed.

Section Dialog.
Variable unicode_lower : pystr -> pystr.
Variable fonts : Fonts.

(** X15. The colour tables and [get_color_name] agree: a code of a table,
    in any mix of upper and lower case, gives the name it is listed under,
    and that name gives the code back. *)
Theorem colour_names_round_trip :
  (forall name code hex_code,
      In (name, code) BACKGROUND_COLORS ->
      lower unicode_lower hex_code = lower unicode_lower code ->
      get_color_name unicode_lower BACKGROUND_COLORS hex_code = name
      /\ get BACKGROUND_COLORS name (background_color DEFAULT_SETTINGS) = code)
  /\ (forall name code hex_code,
         In (name, code) FOREGROUND_COLORS ->
         lower unicode_lower hex_code = lower unicode_lower code ->
         get_color_name unicode_lower FOREGROUND_COLORS hex_code = name
         /\ get FOREGROUND_COLORS name (foreground_color DEFAULT_SETTINGS)
            = code).
Proof.
  split; intros name code hex_code Hin Hl.
  - unfold BACKGROUND_COLORS in Hin. cbn [In] in Hin.
    repeat (destruct Hin as [[= <- <-]|Hin];
            [split; [unfold BACKGROUND_COLORS; cbn [get_color_name];
                     rewrite Hl; reflexivity|reflexivity]|]).
    contradiction.
  - unfold FOREGROUND_COLORS in Hin. cbn [In] in Hin.
    repeat (destruct Hin as [[= <- <-]|Hin];
            [split; [unfold FOREGROUND_COLORS; cbn [get_color_name];
                     rewrite Hl; reflexivity|reflexivity]|]).
    contradiction.
Qed.

Lemma bound_within lo hi v : lo <= hi -> lo <= bound lo hi v <= hi.
Proof. unfold bound. lia. Qed.

Lemma init_ui_spin st d :
  init_ui unicode_lower fonts st = Some d ->
  size_spin d = {| minimum := 8; maximum := 22;
                   value := bound 8 22 (font_size st) |}
  /\ background_color (dialog_settings d) = background_color st
  /\ foreground_color (dialog_settings d) = foreground_color st
  /\ bg_combo d
     = color_combo BACKGROUND_COLORS
         (get_color_name unicode_lower BACKGROUND_COLORS (background_color st))
  /\ fg_combo d
     = color_combo FOREGROUND_COLORS
         (get_color_name unicode_lower FOREGROUND_COLORS (foreground_color st)).
Proof.
  unfold init_ui.
  destruct (existsb _ _); cbv iota beta;
    cbn [font_size background_color foreground_color];
    unfold setValue, setRange; cbn [minimum maximum value];
    (destruct ((- 2 ^ 31 <=? font_size st) && (font_size st <? 2 ^ 31));
     [|discriminate]);
    intros [= <-]; cbn [size_spin dialog_settings bg_combo fg_combo
                        background_color foreground_color];
    repeat split.
Qed.

Lemma init_ui_within st d :
  init_ui unicode_lower fonts st = Some d -> within_offer d.
Proof.
  intros H. destruct (init_ui_spin st d H) as (Hs & _ & _ & Hb & Hf).
  unfold within_offer. rewrite Hs, Hb, Hf. cbn [minimum maximum value].
  split; [|split; [|split; [reflexivity|split; [reflexivity|]]]].
  - destruct (color_combo_spec (str "Solarized Dark", str "#002b36")
                (tl BACKGROUND_COLORS)
                (get_color_name unicode_lower BACKGROUND_COLORS
                   (background_color st))) as (H1 & H2 & _).
    split; assumption.
  - destruct (color_combo_spec (str "White", str "#ffffff")
                (tl FOREGROUND_COLORS)
                (get_color_name unicode_lower FOREGROUND_COLORS
                   (foreground_color st))) as (H1 & H2 & _).
    split; assumption.
  - apply bound_within. lia.
Qed.

Lemma apply_edit_within d e : within_offer d -> within_offer (apply_edit d e).
Proof.
  intros (Hb & Hf & Hlo & Hhi & Hv).
  destruct e; unfold within_offer;
    cbn [apply_edit bg_combo fg_combo size_spin minimum maximum value].
  - auto.
  - repeat (split; [assumption|]). rewrite Hlo, Hhi. apply bound_within. lia.
  - split; [now apply pick_shows|auto].
  - split; [assumption|]. split; [now apply pick_shows|auto].
Qed.

Lemma edits_within edits :
  forall d, within_offer d -> within_offer (fold_left apply_edit edits d).
Proof.
  induction edits as [|e edits IH]; intros d H; cbn [fold_left];
    [exact H|].
  apply IH. now apply apply_edit_within.
Qed.

(** X16. Whatever the settings the dialog is opened with and whatever the
    user does in it, the settings it is saved with hold a background and a
    foreground colour of the tables and a font size from 8 to 22. *)
Theorem saved_settings_are_on_offer st edits st'
        (Hsaved : exec unicode_lower fonts st edits SaveDefaults
                  = Some (Some st')) :
  In (background_color st') (map snd BACKGROUND_COLORS)
  /\ In (foreground_color st') (map snd FOREGROUND_COLORS)
  /\ 8 <= font_size st' <= 22.
Proof.
  unfold exec in Hsaved.
  destruct (init_ui unicode_lower fonts st) as [d0|] eqn:E; [|discriminate].
  injection Hsaved as <-.
  pose proof (edits_within edits d0 (init_ui_within st d0 E))
    as (Hb & Hf & _ & _ & Hv).
  unfold save_settings. cbn [background_color foreground_color font_size].
  split; [apply get_in, shows_current, Hb|].
  split; [apply get_in, shows_current, Hf|exact Hv].
Qed.

Lemma untouched_colour (e : pystr * pystr) color_dict hex_code default :
  ~ In [] (map fst (e :: color_dict)) ->
  get (e :: color_dict)
      (currentText
         (color_combo (e :: color_dict)
            (get_color_name unicode_lower (e :: color_dict) hex_code)))
      default
  = get (e :: color_dict)
        (get_color_name unicode_lower (e :: color_dict) hex_code) (snd e).
Proof.
  intros Hne.
  destruct (color_combo_spec e color_dict
              (get_color_name unicode_lower (e :: color_dict) hex_code))
    as (_ & _ & ->).
  destruct (get_color_name_cases unicode_lower (e :: color_dict) hex_code)
    as [[-> _] | (before & code & after & Hsplit & _)].
  - replace (existsb _ _) with false.
    + rewrite (get_missing _ [] (snd e) Hne).
      destruct e as [k v]. cbn [get fst snd]. now rewrite pystr_eqb_refl.
    + symmetry. apply not_true_is_false. intros H.
      apply existsb_exists in H as (n & Hn & He).
      apply pystr_eqb_eq in He. subst n. contradiction.
  - set (name := get_color_name unicode_lower (e :: color_dict) hex_code) in *.
    assert (Hin : In name (map fst (e :: color_dict))).
    { rewrite Hsplit, map_app. apply in_or_app. right. left. reflexivity. }
    replace (existsb _ _) with true.
    + now apply get_default.
    + symmetry. apply existsb_exists. exists name.
      split; [exact Hin|apply pystr_eqb_refl].
Qed.

(** X17. Saving a dialog that was not touched: a colour is kept, in the
    spelling of its table, when the table lists it, and is otherwise
    replaced by the first colour of the table; the font size is brought
    into 8 to 22.  The default foreground colour is not listed, so saving
    the default settings untouched changes it to white. *)
Theorem untouched_save_keeps_listed_colours :
  (forall st st',
      exec unicode_lower fonts st [] SaveDefaults = Some (Some st') ->
      background_color st'
      = get BACKGROUND_COLORS
            (get_color_name unicode_lower BACKGROUND_COLORS
               (background_color st)) (str "#002b36")
      /\ foreground_color st'
         = get FOREGROUND_COLORS
               (get_color_name unicode_lower FOREGROUND_COLORS
                  (foreground_color st)) (str "#ffffff")
      /\ font_size st' = bound 8 22 (font_size st))
  /\ (exists family,
         exec unicode_lower fonts DEFAULT_SETTINGS [] SaveDefaults
         = Some (Some {| font_family := family; font_size := 14;
                         background_color := str "#002b36";
                         foreground_color := str "#ffffff" |})
         /\ foreground_color DEFAULT_SETTINGS = str "#839496").
Proof.
  assert (Hgen : forall st st',
             exec unicode_lower fonts st [] SaveDefaults = Some (Some st') ->
             background_color st'
             = get BACKGROUND_COLORS
                   (get_color_name unicode_lower BACKGROUND_COLORS
                      (background_color st)) (str "#002b36")
             /\ foreground_color st'
                = get FOREGROUND_COLORS
                      (get_color_name unicode_lower FOREGROUND_COLORS
                         (foreground_color st)) (str "#ffffff")
             /\ font_size st' = bound 8 22 (font_size st)).
  { intros st st' H. unfold exec in H.
    destruct (init_ui unicode_lower fonts st) as [d0|] eqn:E; [|discriminate].
    injection H as <-. cbn [fold_left].
    destruct (init_ui_spin st d0 E) as (Hs & _ & _ & Hb & Hf).
    unfold save_settings. cbn [background_color foreground_color font_size].
    rewrite Hs, Hb, Hf. cbn [value].
    split; [|split; [|reflexivity]].
    - apply (untouched_colour (str "Solarized Dark", str "#002b36")
               (tl BACKGROUND_COLORS)).
      intros H; vm_compute in H;
        repeat (destruct H as [H|H]; [discriminate H|]); exact H.
    - apply (untouched_colour (str "White", str "#ffffff")
               (tl FOREGROUND_COLORS)).
      intros H; vm_compute in H;
        repeat (destruct H as [H|H]; [discriminate H|]); exact H. }
  split; [exact Hgen|].
  destruct (exec unicode_lower fonts DEFAULT_SETTINGS [] SaveDefaults)
    as [[st'|]|] eqn:E.
  - destruct (Hgen _ _ E) as (H1 & H2 & H3).
    exists (font_family st'). split; [|reflexivity].
    destruct st' as [f sz bg fg]. cbn [font_family background_color
      foreground_color font_size] in *.
    subst. reflexivity.
  - unfold exec in E. destruct (init_ui _ _ _); discriminate.
  - exfalso. unfold exec in E.
    destruct (init_ui unicode_lower fonts DEFAULT_SETTINGS) eqn:E'; [discriminate|].
    unfold init_ui in E'. destruct (existsb _ _); discriminate.
Qed.

End Dialog.

(** The default settings, the third background picked and the size set to
    30: saved with that background, the first foreground and size 22. *)
Lemma saved_settings_are_on_offer_witness :
  let st' := {| font_family := str "DejaVu Sans Mono"; font_size := 22;
                background_color := str "#282a36";
                foreground_color := str "#ffffff" |} in
  exec no_case two_fonts DEFAULT_SETTINGS [PickBackground 2; SpinTo 30]
       SaveDefaults = Some (Some st')
  /\ In (background_color st') (map snd BACKGROUND_COLORS)
  /\ In (foreground_color st') (map snd FOREGROUND_COLORS)
  /\ 8 <= font_size st' <= 22.
Proof.
  cbv zeta.
  assert (H : exec no_case two_fonts DEFAULT_SETTINGS
                   [PickBackground 2; SpinTo 30] SaveDefaults
              = Some (Some {| font_family := str "DejaVu Sans Mono";
                              font_size := 22;
                              background_color := str "#282a36";
                              foreground_color := str "#ffffff" |}))
    by reflexivity.
  split; [exact H|].
  exact (saved_settings_are_on_offer no_case two_fonts _ _ _ H).
Defined.

(** ** The settings in the store *)

Lemma decimal_digits_nonempty fuel :
  forall n acc, acc <> [] -> decimal_digits fuel n acc <> [].
Proof.
  induction fuel as [|f IH]; intros n acc H; cbn [decimal_digits];
    [exact H|].
  destruct (n <? 10); [discriminate|]. apply IH. discriminate.
Qed.

Lemma py_str_int_nonempty n : py_str_int n <> [].
Proof.
  unfold py_str_int. cbn [decimal_digits].
  destruct (n <? 10); [discriminate|].
  apply decimal_digits_nonempty. discriminate.
Qed.

(** [int] reads back what [str] wrote, for every integer. *)
Lemma py_int_py_str n : py_int (py_str n) = Some n.
Proof.
  unfold py_str. destruct (Z.ltb_spec n 0) as [Hn|Hn].
  - pose proof (IpcFacts.decimal_digits_digits
                  (S (Z.to_nat (Z.log2 (- n)))) (- n) [] eq_refl) as Hd.
    fold (py_str_int (- n)) in Hd.
    pose proof (IpcFacts.py_str_int_value (- n) ltac:(lia)) as Hv.
    pose proof (py_str_int_nonempty (- n)) as Hne.
    unfold py_int. cbn [transform_decimal_and_space].
    change (45 <? 127) with true. cbv iota.
    rewrite (IpcFacts.transform_digits _ Hd).
    cbn [lstrip]. change (py_isspace 45) with false. cbv iota.
    cbn [int_sign]. change (45 =? 43) with false. change (45 =? 45) with true.
    cbv iota.
    destruct (py_str_int (- n)) as [|c ds] eqn:E; [contradiction|].
    pose proof Hd as Hd'. cbn [digits_only forallb] in Hd'.
    apply andb_prop in Hd' as [Hc _]. rewrite Hc.
    rewrite (IpcFacts.scan_digits_all _ 0 0 Hd eq_refl). cbn [forallb].
    f_equal. lia.
  - rewrite IpcFacts.py_int_digits.
    + now rewrite IpcFacts.py_str_int_value.
    + apply py_str_int_nonempty.
    + apply IpcFacts.decimal_digits_digits. reflexivity.
Qed.

(** What was stored is loaded back after a restart. *)
Lemma load_reread_store st :
  load_settings (reread (store_settings st)) = Some st.
Proof.
  destruct st as [f n bg fg].
  unfold load_settings, reread, store_settings.
  cbn [q_font_size q_font_family q_background_color q_foreground_color
       font_family font_size background_color foreground_color value_or
       to_int].
  now rewrite py_int_py_str.
Qed.

(** X18. The settings survive being stored and loaded again, in the same
    run and after a restart, when the stored font size comes back as text;
    a store that holds nothing loads as the default settings; and a stored
    font size that [int] does not read makes [load_settings] raise. *)
Theorem stored_settings_are_loaded_back st :
  load_settings (store_settings st) = Some st
  /\ load_settings (reread (store_settings st)) = Some st
  /\ load_settings {| q_font_family := None; q_font_size := None;
                      q_background_color := None;
                      q_foreground_color := None |}
     = Some DEFAULT_SETTINGS
  /\ forall q text,
      q_font_size q = Some (QString text) -> py_int text = None ->
      load_settings q = None.
Proof.
  split; [now destruct st|]. split; [apply load_reread_store|].
  split; [reflexivity|].
  intros q text Hq Hint. unfold load_settings. rewrite Hq.
  cbn [value_or to_int]. now rewrite Hint.
Qed.

End SettingsFacts.

(* ================================================================== *)
(** * Facts about the start of the window and its settings dialog *)
(* ================================================================== *)

Module StartupFacts.
Import Py Json Qt Terminal Ipc Request Ui Settings Startup PaneFacts QtFacts
       SettingsFacts.

Section WithWorld.
Variable world : World.

Lemma initialize_double_pane_shown_emulator w :
  emulator (initialize_double_pane_shown world w)
  = initialize_double_pane world (emulator w).
Proof.
  unfold initialize_double_pane_shown, initialize_double_pane.
  destruct (count (main_tab_widget (emulator w)) =? 0);
    cbn [add_terminal_tab_shown show_normal on_emulator emulator];
    match goal with
    | |- context [match second_tab_widget ?s with _ => _ end] =>
        destruct (second_tab_widget s)
    end; reflexivity.
Qed.

Lemma open_window_running primary q args p w timer :
  open_window world primary q args = Running p w timer ->
  p = primary
  /\ timer = args_double args
  /\ emulator w
     = TerminalEmulator_init world (of_optional (args_folder args))
         (of_optional (args_command args))
  /\ visible w = negb (args_tray args) || args_max args
  /\ maximized w = args_max args
  /\ load_settings q = Some (window_settings w).
Proof.
  unfold open_window, TerminalEmulator_new.
  destruct (load_settings q) as [st|]; [|discriminate].
  destruct (args_tray args), (args_max args); intros [= <- <- <-];
    repeat split.
Qed.

(** X20. How the window starts.  When [main] reaches the event loop, the
    window holds the settings loaded from the store and one tab, and it is
    hidden exactly when [--tray] was given without [--max].  With [--double]
    the timer then opens the second pane with one tab that runs no command,
    and doing so shows the window, also one started with [--tray]. *)
Theorem window_at_start args listen_ok link q primary w timer
        (Hmain : main world args listen_ok link q = Running primary w timer) :
  primary = negb (args_new args)
  /\ load_settings q = Some (window_settings w)
  /\ emulator w
     = TerminalEmulator_init world (of_optional (args_folder args))
         (of_optional (args_command args))
  /\ visible w = negb (args_tray args) || args_max args
  /\ timer = args_double args
  /\ (timer = true ->
      let w' := after_timer world w timer in
      visible w' = true
      /\ map snd (main_tab_widget (emulator w')) = [str "Terminal 1"]
      /\ option_map (map (fun p => (x_command (fst p), snd p)))
           (second_tab_widget (emulator w'))
         = Some [(PNone, str "Terminal 2")]).
Proof.
  assert (H : exists p, open_window world p q args = Running primary w timer
                        /\ p = negb (args_new args)).
  { unfold main in Hmain. destruct (args_new args); [eauto|].
    destruct (SingleInstanceApplication_init listen_ok link args);
      [eauto|discriminate]. }
  destruct H as (p & H & ->).
  destruct (open_window_running _ _ _ _ _ _ H) as (Hp & Ht & He & Hv & _ & Hl).
  split; [exact Hp|]. split; [exact Hl|]. split; [exact He|].
  split; [exact Hv|]. split; [exact Ht|].
  intros ->. cbv zeta. unfold after_timer.
  assert (Hc : (count (main_tab_widget (emulator w)) =? 0) = false)
    by (rewrite He; reflexivity).
  assert (H2 : second_tab_widget (emulator w) = None)
    by (rewrite He; reflexivity).
  split.
  - unfold initialize_double_pane_shown. rewrite Hc, H2. reflexivity.
  - rewrite initialize_double_pane_shown_emulator, He.
    unfold TerminalEmulator_init, blank_window, initialize_double_pane.
    split; reflexivity.
Qed.

Section Dialog.
Variable unicode_lower : pystr -> pystr.
Variable fonts : Fonts.

Lemma restart_pages_restarts t :
  Forall2 (fun p p' =>
             snd p' = snd p
             /\ wid (fst p') = wid (fst p)
             /\ x_initial_directory (fst p') = x_initial_directory (fst p)
             /\ x_command (fst p') = x_command (fst p)
             /\ launches (fst p') = S (launches (fst p)))
          t (restart_pages world t).
Proof.
  unfold restart_pages.
  induction t as [|[x l] t IH]; cbn [map]; constructor;
    [repeat split|exact IH].
Qed.

(** X19. The settings dialog of the window.  When it is accepted, the new
    settings are the window's and are stored so that the next start loads
    them, and every tab of both panes is restarted exactly once, as the same
    widget with its label, directory and command; accepted by way of
    "Revert to Defaults" the settings are the defaults.  When it is
    rejected or raises, nothing changes. *)
Theorem settings_dialog_outcomes edits b w q :
  let '(w', q', result) :=
    open_settings_dialog world unicode_lower fonts edits b w q in
  match result with
  | Accepted =>
      b <> Cancel
      /\ (b = RevertToDefaults -> window_settings w' = DEFAULT_SETTINGS)
      /\ load_settings (reread q') = Some (window_settings w')
      /\ main_tab_widget (emulator w')
         = restart_pages world (main_tab_widget (emulator w))
      /\ second_tab_widget (emulator w')
         = option_map (restart_pages world) (second_tab_widget (emulator w))
      /\ forall t,
          Forall2 (fun p p' =>
                     snd p' = snd p
                     /\ wid (fst p') = wid (fst p)
                     /\ x_initial_directory (fst p')
                        = x_initial_directory (fst p)
                     /\ x_command (fst p') = x_command (fst p)
                     /\ launches (fst p') = S (launches (fst p)))
                  t (restart_pages world t)
  | Rejected => b = Cancel /\ w' = w /\ q' = q
  | Raised => w' = w /\ q' = q
  end.
Proof.
  unfold open_settings_dialog, exec.
  destruct (init_ui unicode_lower fonts (window_settings w)) as [d0|];
    [|split; reflexivity].
  destruct b; cbn [window_settings emulator];
    [| |repeat split; reflexivity];
    (split; [discriminate|]);
    (split; [try reflexivity; discriminate|]);
    (split; [apply load_reread_store|]);
    (split; [reflexivity|]); (split; [reflexivity|]);
    apply restart_pages_restarts.
Qed.

End Dialog.
End WithWorld.

(** A start with [--tray --double] as the primary: hidden at first, shown
    when the timer has opened the second pane. *)
Lemma window_at_start_witness :
  exists w,
    main calm tray_double_args true good_link empty_store = Running true w true
    /\ visible w = false
    /\ visible (after_timer calm w true) = true
    /\ option_map (map (fun p => (x_command (fst p), snd p)))
         (second_tab_widget (emulator (after_timer calm w true)))
       = Some [(PNone, str "Terminal 2")].
Proof.
  let r := eval vm_compute in
             (main calm tray_double_args true good_link empty_store) in
  match r with
  | Running _ ?w _ =>
      exists w;
      assert (H : main calm tray_double_args true good_link empty_store
                  = Running true w true) by reflexivity
  end.
  split; [exact H|].
  destruct (window_at_start calm _ _ _ _ _ _ _ H)
    as (_ & _ & _ & Hv & _ & Ht).
  split; [exact Hv|].
  destruct (Ht eq_refl) as (H1 & _ & H3).
  split; [exact H1|exact H3].
Defined.

End StartupFacts.

(* ================================================================== *)
(** * Facts about launching uxterm *)
(* ================================================================== *)

Module LaunchFacts.
Import Py Settings Launch.

(** [merge_xresources] ends in one of three ways: the process is told to
    exit with status 1, when an executable is missing; an exception that
    [except Exception] catches; or a merge. *)
Lemma merge_xresources_cases host :
  let '(did, r) := merge_xresources host in
  match r with
  | Some (SystemExit status) =>
      status = 1
      /\ exists missing,
          did = [MissingDependencies (error_message missing)]
          /\ missing <> []
          /\ (forall name, In name missing ->
                           In name required
                           /\ check_executable_exists host name = Some false)
  | Some _ => spawned did = [] /\ criticals did = []
  | None =>
      spawned did = [] /\ criticals did = []
      /\ xrdb_merge host = Succeeded
      /\ forall name, In name required ->
                      check_executable_exists host name = Some true
  end.
Proof.
  unfold merge_xresources.
  destruct (check_executable_exists host (str "xdotool")) as [[|]|] eqn:E1;
    [| |split; reflexivity];
    (destruct (check_executable_exists host (str "uxterm")) as [[|]|] eqn:E2;
     [| |split; reflexivity]);
    (destruct (check_executable_exists host (str "xrdb")) as [[|]|] eqn:E3;
     [| |split; reflexivity]);
    cbn [List.app];
    try (split; [reflexivity|]; eexists; split; [reflexivity|];
         split; [discriminate|];
         intros name Hin; cbn [In] in Hin;
         repeat (destruct Hin as [<-|Hin];
                 [split; [cbn; auto|assumption]|]);
         contradiction).
  destruct (xresources_exists host), (touch host); cbn [negb andb];
    try (split; reflexivity);
    (destruct (xrdb_merge host) eqn:Ex; cbn;
     [|split; reflexivity|split; reflexivity|split; reflexivity];
     repeat (split; [reflexivity|]);
     intros name Hin; cbn [In required] in Hin;
     repeat (destruct Hin as [<-|Hin]; [assumption|]); contradiction).
Qed.

Lemma criticals_app a b : criticals (a ++ b) = criticals a ++ criticals b.
Proof. apply flat_map_app. Qed.

Lemma spawned_app a b : spawned (a ++ b) = spawned a ++ spawned b.
Proof. apply flat_map_app. Qed.

(** X21. How a launch ends.  [start_uxterm] lets one exception out only:
    the exit with status 1, after the message that names executables that
    were looked for and not found, and then nothing was created, merged or
    started.  Otherwise it returns, and either no error dialog was shown,
    the three executables were found, uxterm was started once with the
    command line of the widget and its process is running; or exactly one
    error dialog was shown and the widget's process is not running, or is
    the one it had. *)
Theorem start_uxterm_ends host x :
  match start_uxterm host x with
  | Left e did =>
      e = SystemExit 1
      /\ exists missing,
          did = [MissingDependencies (error_message missing)]
          /\ missing <> []
          /\ (forall name, In name missing ->
                           In name required
                           /\ check_executable_exists host name = Some false)
  | Returned x' did =>
      match criticals did with
      | [] =>
          process x' = Some ProcessRunning
          /\ spawned did = [tl (uxterm_command x)]
          /\ forall name, In name required ->
                          check_executable_exists host name = Some true
      | [text] =>
          (process x' = process x /\ spawned did = []
           \/ process x' = Some NotRunning \/ process x' = Some Starting)
          /\ (text = "Failed to load .Xresources: "%string
              \/ text = "Failed to start uxterm: "%string)
      | _ => False
      end
  end.
Proof.
  pose proof (merge_xresources_cases host) as M. unfold start_uxterm.
  destruct (merge_xresources host) as [did [e|]].
  - destruct e; cbn [handled];
      [destruct M as [-> M]; split; [reflexivity|exact M]| | | | |];
      destruct M as [Hs Hc]; rewrite criticals_app, Hc; cbn;
      (split; [left; rewrite spawned_app, Hs; auto|auto]).
  - destruct M as (Hs & Hc & _ & Hall).
    destruct (uxterm host); cbn [handled];
      rewrite ?criticals_app, ?spawned_app, Hc, Hs; cbn; auto.
Qed.

(** Only the exit with status 1 leaves a launch. *)
Lemma start_uxterm_left host x e did :
  start_uxterm host x = Left e did -> e = SystemExit 1.
Proof.
  pose proof (merge_xresources_cases host) as M. unfold start_uxterm.
  destruct (merge_xresources host) as [d [e'|]].
  - destruct e'; cbn [handled]; try discriminate.
    intros [= <- <-]. now destruct M as [-> _].
  - destruct (uxterm host); discriminate.
Qed.

(** A launch that shows no error dialog has started uxterm. *)
Lemma start_uxterm_clean host x x' did :
  start_uxterm host x = Returned x' did ->
  criticals did = [] ->
  process x' = Some ProcessRunning /\ spawned did = [tl (uxterm_command x)].
Proof.
  pose proof (merge_xresources_cases host) as M. unfold start_uxterm.
  destruct (merge_xresources host) as [d [e|]].
  - destruct e; cbn [handled]; try discriminate; intros [= <- <-];
      rewrite criticals_app; intros H; apply app_eq_nil in H as [_ H];
      discriminate H.
  - destruct M as (Hs & Hc & _).
    destruct (uxterm host); cbn [handled]; intros [= <- <-];
      rewrite ?criticals_app, ?spawned_app, ?Hs, ?Hc; cbn;
      try discriminate; auto.
Qed.

(** A launch changes nothing of the widget but its process. *)
Lemma start_uxterm_keeps host x x' did :
  start_uxterm host x = Returned x' did ->
  initial_directory x' = initial_directory x
  /\ command x' = command x
  /\ current_settings x' = current_settings x
  /\ winId x' = winId x.
Proof.
  unfold start_uxterm. destruct (merge_xresources host) as [d [e|]].
  - destruct e; cbn [handled]; intros [= <- <-]; auto.
  - destruct (uxterm host); cbn [handled]; intros [= <- <-]; auto.
Qed.

Lemma start_uxterm_not_merged host x did :
  merge_xresources host = (did, Some CalledProcessError) ->
  start_uxterm host x
  = Returned x (did ++ [Critical "Failed to load .Xresources: "
                                 CalledProcessError])
  /\ criticals did = [].
Proof.
  intros E. pose proof (merge_xresources_cases host) as M.
  unfold start_uxterm. rewrite E in *. cbn [handled].
  split; [reflexivity|apply M].
Qed.

Lemma terminate_keeps host x x' did :
  terminate host x = (x', did) ->
  initial_directory x' = initial_directory x
  /\ command x' = command x
  /\ current_settings x' = current_settings x
  /\ winId x' = winId x
  /\ (process x = None -> x' = x /\ did = [])
  /\ (process x = Some ProcessRunning -> In Terminated did)
  /\ spawned did = [] /\ criticals did = [].
Proof.
  unfold terminate.
  destruct (process x) as [[| |]|] eqn:Ep; intros [= <- <-];
    cbn [with_process initial_directory command current_settings winId];
    repeat split; auto; try discriminate;
    destruct (ends_in_time host); cbn; auto.
Qed.

(** X22. A new tab is launched twice.  When both launches of
    [add_terminal_tab]'s new widget go well, uxterm was started twice for
    it, first with the default settings and then, after the first process
    was told to terminate, with the settings of the window, and both times
    with the same text for [bash -c]: uxterm is given the tab's command
    twice.
    When xrdb fails at both launches, two error dialogs were shown and the
    widget has no process, which [terminate] then leaves alone.  Nothing
    but the exit with status 1 for a missing executable leaves the call. *)
Theorem new_tab_is_launched_twice first second getcwd id directory cmd st :
  match new_tab_widget first second getcwd id directory cmd st with
  | Returned x did =>
      (criticals did = [] ->
       exists arguments,
         spawned did = [arguments; tl (uxterm_command x)]
         /\ last arguments [] = bash_command x
         /\ last (tl (uxterm_command x)) [] = bash_command x
         /\ In Terminated did
         /\ current_settings x = st
         /\ process x = Some ProcessRunning)
      /\ (snd (merge_xresources first) = Some CalledProcessError ->
          snd (merge_xresources second) = Some CalledProcessError ->
          criticals did = ["Failed to load .Xresources: "%string;
                           "Failed to load .Xresources: "%string]
          /\ spawned did = []
          /\ process x = None
          /\ forall host, terminate host x = (x, []))
  | Left e did => e = SystemExit 1
  end.
Proof.
  unfold new_tab_widget, XTermWidget_new, apply_settings, restart_uxterm.
  set (x0 := {| initial_directory := _; command := cmd;
                current_settings := DEFAULT_SETTINGS; winId := id;
                process := None |}).
  destruct (start_uxterm first x0) as [x1 did1|e1 did1] eqn:E1;
    [|exact (start_uxterm_left _ _ _ _ E1)].
  destruct (start_uxterm_keeps _ _ _ _ E1) as (Hd & Hc & _ & Hw).
  set (x1' := {| initial_directory := initial_directory x1;
                 command := command x1; current_settings := st;
                 winId := winId x1; process := process x1 |}).
  destruct (terminate second x1') as [x2 stopped] eqn:Et.
  destruct (terminate_keeps _ _ _ _ Et)
    as (Hd2 & Hc2 & Hs2 & Hw2 & Hnone & Hterm & Hsp & Hcr).
  cbn [x1' initial_directory command current_settings winId process] in *.
  destruct (start_uxterm second x2) as [x3 did3|e3 did3] eqn:E3;
    [|exact (start_uxterm_left _ _ _ _ E3)].
  destruct (start_uxterm_keeps _ _ _ _ E3) as (Hd3 & Hc3 & Hs3 & Hw3).
  assert (Hbash : forall a b, initial_directory a = initial_directory b ->
                              command a = command b ->
                              bash_command a = bash_command b).
  { intros a b Ha Hb. unfold bash_command. now rewrite Ha, Hb. }
  rewrite !criticals_app, !spawned_app, Hsp, Hcr. cbn [List.app].
  split.
  - intros Hnil. apply app_eq_nil in Hnil as [Hn1 Hn3].
    destruct (start_uxterm_clean _ _ _ _ E1 Hn1) as (Hp1 & Hsp1).
    destruct (start_uxterm_clean _ _ _ _ E3 Hn3) as (Hp3 & Hsp3).
    exists (tl (uxterm_command x0)).
    rewrite Hsp1, Hsp3. split.
    { do 2 f_equal. unfold uxterm_command.
      rewrite (Hbash x2 x3) by congruence. now rewrite Hs3, Hw3. }
    split; [change (last (tl (uxterm_command x0)) [])
              with (bash_command x0); apply Hbash; congruence|].
    split; [reflexivity|].
    split; [apply in_or_app; right; apply in_or_app; left; auto|].
    split; [congruence|assumption].
  - intros F1 F2.
    destruct (merge_xresources first) as [d1 r1] eqn:M1.
    destruct (merge_xresources second) as [d2 r2] eqn:M2.
    cbn [snd] in F1, F2. subst r1 r2.
    destruct (start_uxterm_not_merged first x0 d1 M1) as [S1 C1].
    rewrite S1 in E1. injection E1 as <- <-.
    destruct (Hnone eq_refl) as [-> ->].
    destruct (start_uxterm_not_merged second x1' d2 M2) as [S2 C2].
    rewrite S2 in E3. injection E3 as <- <-.
    pose proof (merge_xresources_cases first) as N1. rewrite M1 in N1.
    pose proof (merge_xresources_cases second) as N2. rewrite M2 in N2.
    rewrite !criticals_app, !spawned_app, C1, C2, (proj1 N1), (proj1 N2).
    repeat split.
Qed.

End LaunchFacts.

(* ================================================================== *)
(** * Facts about which notifications lead to a resize *)
(* ================================================================== *)

Module SettleFacts.
Import Debounce DebounceFacts Settle.

Lemma resize_event_armed t sz R t1 sz1 :
  resize_event t1 sz1
    {| size := sz; resize_timer := Some (t + 50); resized := R |}
  = {| size := sz1; resize_timer := Some (t1 + 50);
       resized := if t + 50 <=? t1 then R ++ [sz] else R |}.
Proof.
  unfold resize_event, advance. cbn [resize_timer].
  destruct (t + 50 <=? t1); reflexivity.
Qed.

Lemma armed_run rest :
  forall t sz R T,
    in_order t rest ->
    fst (last rest (t, sz)) + 50 <= T ->
    resized (advance T (notify_all rest
               {| size := sz; resize_timer := Some (t + 50); resized := R |}))
    = R ++ settled ((t, sz) :: rest).
Proof.
  induction rest as [|[t1 sz1] rest IH]; intros t sz R T Ho Hl.
  - cbn [notify_all fold_left last fst settled snd] in *.
    rewrite (advance_due T
               {| size := sz; resize_timer := Some (t + 50); resized := R |}
               (t + 50) eq_refl Hl).
    reflexivity.
  - destruct Ho as [Ht Ho]. cbn [fst] in Ht, Ho.
    change (notify_all ((t1, sz1) :: rest) ?w)
      with (notify_all rest (resize_event t1 sz1 w)).
    rewrite last_cons in Hl.
    rewrite resize_event_armed.
    change (settled ((t, sz) :: (t1, sz1) :: rest))
      with (if t + 50 <=? t1 then sz :: settled ((t1, sz1) :: rest)
            else settled ((t1, sz1) :: rest)).
    destruct (t + 50 <=? t1); rewrite (IH t1 sz1 _ T Ho Hl).
    + now rewrite <- app_assoc.
    + reflexivity.
Qed.

(** X23. The debounce in full: of notifications that come in the order of
    their times on a surface with no timer due, exactly those that no other
    notification follows within 50 ms lead to a call of [resize_terminal],
    each with the size it brought, in order, once the loop has run 50 ms
    past the last one. *)
Theorem resized_for_settled_sizes w t0 sz0 events T
        (Hquiet : quiet_until t0 w)
        (Horder : in_order t0 events)
        (Hlate : fst (last events (t0, sz0)) + 50 <= T) :
  resized (advance T (notify_all ((t0, sz0) :: events) w))
  = resized w ++ settled ((t0, sz0) :: events).
Proof.
  change (notify_all ((t0, sz0) :: events) w)
    with (notify_all events (resize_event t0 sz0 w)).
  rewrite (resize_event_quiet _ _ _ Hquiet).
  now apply armed_run.
Qed.

Lemma resized_for_settled_sizes_witness :
  let w := {| size := (800, 600); resize_timer := None; resized := [] |} in
  let events := [(10, (810, 600)); (70, (820, 610)); (100, (900, 700))] in
  quiet_until 0 w
  /\ in_order 0 events
  /\ fst (last events (0, (805, 600))) + 50 <= 150
  /\ resized (advance 150 (notify_all ((0, (805, 600)) :: events) w))
     = [(810, 600); (900, 700)].
Proof.
  cbv zeta.
  assert (Hq : quiet_until 0
                 {| size := (800, 600); resize_timer := None; resized := [] |})
    by exact I.
  assert (Ho : in_order 0
                 [(10, (810, 600)); (70, (820, 610)); (100, (900, 700))])
    by (cbn; lia).
  assert (Hl : fst (last [(10, (810, 600)); (70, (820, 610)); (100, (900, 700))]
                         (0, (805, 600))) + 50 <= 150)
    by (cbn; lia).
  split; [exact Hq|]. split; [exact Ho|]. split; [exact Hl|].
  exact (resized_for_settled_sizes _ 0 (805, 600) _ 150 Hq Ho Hl).
Defined.

(** X24. The rows and columns [resize_terminal] asks for: never less than
    one of either, and, when the size holds at least one cell, as many whole
    cells of 7 by 15 pixels as fit and no more. *)
Theorem whole_cells_that_fit width height :
  let '(cols, rows) := columns_rows (width, height) in
  1 <= cols /\ 1 <= rows
  /\ (7 <= width -> 7 * cols <= width < 7 * (cols + 1))
  /\ (15 <= height -> 15 * rows <= height < 15 * (rows + 1)).
Proof.
  unfold columns_rows. cbn [fst snd].
  pose proof (Z.div_mod width 7 ltac:(lia)).
  pose proof (Z.mod_pos_bound width 7 ltac:(lia)).
  pose proof (Z.div_mod height 15 ltac:(lia)).
  pose proof (Z.mod_pos_bound height 15 ltac:(lia)).
  repeat split; try lia.
Qed.

End SettleFacts.
